(** * The GEDCOM parser benchmark harness

    A shallow embedding of [scripts/parser_benchmark.py] and
    [scripts/parser_benchmark_php.py], and the properties of the
    benchmark orchestration engine proved about it.

    Python numbers are modelled exactly: an [int] is a [Z] and a [float]
    is a rational [Q] (binary64 rounding is not modelled; every concrete
    input below is dyadic and small, so that the float computation of
    the scripts is exact on it).  Strings are byte strings.  What the
    scripts obtain from outside themselves (spawned processes, the JSON
    decoder, the python-gedcom parser, the clock, file sizes) is read
    from an environment record. *)

From Stdlib Require Import ZArith QArith Qround Qabs String Ascii List Lia.
From Stdlib Require Import DecimalString.
From stdpp Require Import base option list strings gmap sets.

Set Warnings "-register-all,-clear-no-such-hyp".
Open Scope string_scope.
Open Scope Z_scope.

(** ** Python values *)

Inductive pyval :=
| PNone
| PBool (b : bool)
| PInt (z : Z)
| PFloat (q : Q)
| PStr (s : string)
| PList (l : list pyval)
| PDict (d : gmap string pyval).

(** A dict display [{k1: v1, ...}]: later keys override earlier ones. *)
Definition dict_of (kvs : list (string * pyval)) : gmap string pyval :=
  fold_left (λ m kv, <[kv.1 := kv.2]> m) kvs ∅.

(** Truth value of an object, as tested by [if] and [and]. *)
Definition truthy (v : pyval) : bool :=
  match v with
  | PNone => false
  | PBool b => b
  | PInt z => negb (Z.eqb z 0)
  | PFloat q => negb (Qeq_bool q 0)
  | PStr s => negb (String.eqb s "")
  | PList l => match l with [] => false | _ => true end
  | PDict d => negb (bool_decide (d = ∅))
  end.

(** The numeric value of an [int], [float] or [bool]. *)
Definition py_num (v : pyval) : option Q :=
  match v with
  | PInt z => Some (inject_Z z)
  | PFloat q => Some q
  | PBool b => Some (if b then 1%Q else 0%Q)
  | _ => None
  end.

Definition type_name (v : pyval) : string :=
  match v with
  | PNone => "NoneType" | PBool _ => "bool" | PInt _ => "int"
  | PFloat _ => "float" | PStr _ => "str" | PList _ => "list"
  | PDict _ => "dict"
  end.

(** ** Exceptions

    [exception] is the class [Exception]: the timeout of
    [subprocess.run], the decode error of [json.loads] (message,
    document and position), and every other subclass, kept as its class
    name and [str(e)].  [SystemExit], raised by [sys.exit], derives from
    [BaseException] only and is a separate signal. *)

Inductive exception :=
| TimeoutExpired
| JSONDecodeError (msg doc : string) (pos : nat)
| Raised (cls msg : string).

Inductive signal :=
| Exc (e : exception)
| SystemExit (code : Z).

Inductive result (A : Type) :=
| Ok (a : A)
| Raise (s : signal).
Arguments Ok {A} a.
Arguments Raise {A} s.

#[global] Instance result_ret : MRet result := λ A a, Ok a.
#[global] Instance result_bind : MBind result := λ A B f r,
  match r with Ok a => f a | Raise s => Raise s end.

Definition throw {A} (cls msg : string) : result A := Raise (Exc (Raised cls msg)).

(** ** Strings *)

Definition nl : string := String "010"%char "".

Definition string_of_nat (n : nat) : string := NilZero.string_of_uint (Nat.to_uint n).
Definition string_of_Z (z : Z) : string :=
  if z <? 0 then "-" +:+ NilZero.string_of_uint (N.to_uint (Z.abs_N z))
  else NilZero.string_of_uint (N.to_uint (Z.abs_N z)).

Fixpoint replicate_str (n : nat) (c : string) : string :=
  match n with O => "" | S n' => c +:+ replicate_str n' c end.

(** [format(s, "<n")]: left-justify in a field of width [n].  (Widths
    count bytes; the columns the scripts pad are ASCII.) *)
Definition ljust (n : nat) (s : string) : string :=
  s +:+ replicate_str (n - String.length s)%nat " ".

Definition rjust0 (n : nat) (s : string) : string :=
  replicate_str (n - String.length s)%nat "0" +:+ s.

(** [s.split(sep)] for a one-character separator. *)
Fixpoint split_on (sep : ascii) (s cur : string) : list string :=
  match s with
  | "" => [cur]
  | String c s' =>
      if Ascii.eqb c sep then cur :: split_on sep s' ""
      else split_on sep s' (cur +:+ String c "")
  end.

(** ASCII white space, as [str.split()] and [int()] skip it. *)
Definition is_space (c : ascii) : bool :=
  let n := nat_of_ascii c in
  ((9 <=? n) && (n <=? 13) || (28 <=? n) && (n <=? 32))%nat.

(** [s.split()]. *)
Fixpoint split_ws (s cur : string) : list string :=
  match s with
  | "" => if String.eqb cur "" then [] else [cur]
  | String c s' =>
      if is_space c
      then (if String.eqb cur "" then split_ws s' "" else cur :: split_ws s' "")
      else split_ws s' (cur +:+ String c "")
  end.

Fixpoint lstrip (s : string) : string :=
  match s with
  | String c s' => if is_space c then lstrip s' else s
  | "" => ""
  end.

Fixpoint rstrip (s : string) : string :=
  match s with
  | String c s' =>
      match rstrip s' with
      | "" => if is_space c then "" else String c ""
      | t => String c t
      end
  | "" => ""
  end.

Definition digit_of (c : ascii) : option Z :=
  let n := nat_of_ascii c in
  if ((48 <=? n) && (n <=? 57))%nat then Some (Z.of_nat n - 48) else None.

(** Decimal digits, with single underscores between them. *)
Fixpoint digits_value (s : string) (acc : Z) (after_digit : bool) : option Z :=
  match s with
  | "" => if after_digit then Some acc else None
  | String c s' =>
      if Ascii.eqb c "_"
      then (if after_digit then digits_value s' acc false else None)
      else match digit_of c with
           | Some d => digits_value s' (10 * acc + d) true
           | None => None
           end
  end.

(** [int(s)] on ASCII text. *)
Definition int_literal (s : string) : option Z :=
  let t := rstrip (lstrip s) in
  match t with
  | String "-" r => Z.opp <$> digits_value r 0 false
  | String "+" r => digits_value r 0 false
  | _ => digits_value t 0 false
  end.

(** [needle in hay]. *)
Definition contains (needle hay : string) : bool :=
  match String.index 0 needle hay with Some _ => true | None => false end.

(** [s.count(c, 0, pos)] and the column of [pos], as [JSONDecodeError]
    computes them. *)
Fixpoint count_newlines (pos : nat) (s : string) : nat :=
  match pos, s with
  | S p, String c s' => (if Ascii.eqb c "010" then 1 else 0)%nat + count_newlines p s'
  | _, _ => O
  end.

Fixpoint column_of (pos : nat) (s : string) (col : nat) : nat :=
  match pos, s with
  | S p, String c s' => column_of p s' (if Ascii.eqb c "010" then 1%nat else S col)
  | _, _ => col
  end.

(** [str(e)].  (The scripts never show the text of a timeout, which in
    Python also names the command and the limit.) *)
Definition exn_str (e : exception) : string :=
  match e with
  | TimeoutExpired => "Command timed out"
  | JSONDecodeError msg doc pos =>
      msg +:+ ": line " +:+ string_of_nat (S (count_newlines pos doc))
          +:+ " column " +:+ string_of_nat (column_of pos doc 1)
          +:+ " (char " +:+ string_of_nat pos +:+ ")"
  | Raised _ msg => msg
  end.

(** ** Number formatting *)

(** [round(x)]: to the nearest integer, ties to the even one. *)
Definition py_round (q : Q) : Z :=
  let f := Qfloor q in
  match Qcompare (q - inject_Z f) (1 # 2) with
  | Lt => f
  | Gt => f + 1
  | Eq => if Z.even f then f else f + 1
  end.

(** [int(x)] on a float: truncation toward zero. *)
Definition py_int_of_float (q : Q) : Z := Z.quot (Qnum q) (Zpos (Qden q)).

(** [format(x, ".df")]. *)
Definition format_f (d : nat) (q : Q) : string :=
  let scale := 10 ^ Z.of_nat d in
  let n := py_round (Qabs q * inject_Z scale) in
  (if Qlt_le_dec q 0 then "-" else "")
    +:+ string_of_Z (n / scale)
    +:+ match d with
        | O => ""
        | _ => "." +:+ rjust0 d (string_of_Z (n mod scale))
        end.

(** [f"{v:.df}"] on an object: floats, ints and bools format; [None], a
    string or a container raises. *)
Definition py_format_f (d : nat) (v : pyval) : result string :=
  match py_num v with
  | Some q => Ok (format_f d q)
  | None =>
      match v with
      | PStr _ => throw "ValueError" "Unknown format code 'f' for object of type 'str'"
      | _ => throw "TypeError"
               ("unsupported format string passed to " +:+ type_name v +:+ ".__format__")
      end
  end.

(** The number behind an operand of [<], [*] or [/] against a number. *)
Definition py_operand (op : string) (v : pyval) : result Q :=
  match py_num v with
  | Some q => Ok q
  | None => throw "TypeError" ("unsupported operand type(s) for " +:+ op +:+ ": '"
                                 +:+ type_name v +:+ "'")
  end.

(** [v == 0]. *)
Definition py_eq_zero (v : pyval) : bool :=
  match py_num v with
  | Some q => Qeq_bool q 0
  | None => false
  end.

(** ** The world: files, standard output, and what was run *)

Inductive event :=
| Invoke (cmd : list string)   (* [subprocess.run(cmd, ...)] was called *)
| Kill (cmd : list string)     (* the child was killed at its timeout *)
| ParseFile (path : string).   (* the in-process parser was called *)

Record world := World {
  fs : gset string;      (* the paths that exist *)
  out : list string;     (* what was written to standard output, in order *)
  log : list event;      (* the external calls made, in order *)
}.

(** A computation reads and changes the world and returns or raises. *)
Definition M (A : Type) : Type := world → result A * world.

#[global] Instance M_ret : MRet M := λ A a w, (Ok a, w).
#[global] Instance M_bind : MBind M := λ A B f m w,
  match m w with
  | (Ok a, w') => f a w'
  | (Raise s, w') => (Raise s, w')
  end.

Definition lift {A} (r : result A) : M A := λ w, (r, w).
Definition raise {A} (e : exception) : M A := λ w, (Raise (Exc e), w).

(** [sys.exit(code)]. *)
Definition sys_exit {A} (code : Z) : M A := λ w, (Raise (SystemExit code), w).

(** [print(s)] and [print(s, end=e)]. *)
Definition print_end (s e : string) : M unit :=
  λ w, (Ok tt, World (fs w) (out w ++ [s +:+ e]) (log w)).
Definition print (s : string) : M unit := print_end s nl.

Definition emit (e : event) : M unit :=
  λ w, (Ok tt, World (fs w) (out w) (log w ++ [e])).

(** [os.path.exists(p)], [Path.exists()]. *)
Definition path_exists (p : string) : M bool :=
  λ w, (Ok (bool_decide (p ∈ fs w)), w).

(** [open(p, 'w')] followed by a write: the file exists afterwards. *)
Definition write_file (p : string) : M unit :=
  λ w, (Ok tt, World ({[p]} ∪ fs w) (out w) (log w)).

(** [os.remove(p)]. *)
Definition os_remove (p : string) : M unit :=
  λ w, if bool_decide (p ∈ fs w)
       then (Ok tt, World (fs w ∖ {[p]}) (out w) (log w))
       else (Raise (Exc (Raised "FileNotFoundError"
                           ("[Errno 2] No such file or directory: '" +:+ p +:+ "'"))), w).

(** [if os.path.exists(p): os.remove(p)]. *)
Definition remove_if_exists (p : string) : M unit :=
  present ← path_exists p;
  if (present : bool) then os_remove p else mret tt.

(** [try: body except Exception as e: handler e]; the clauses of the
    source are the cases of [handler], in their order.  A [SystemExit]
    passes through. *)
Definition try_except {A} (body : M A) (handler : exception → M A) : M A :=
  λ w, match body w with
       | (Ok a, w') => (Ok a, w')
       | (Raise (Exc e), w') => handler e w'
       | (Raise (SystemExit c), w') => (Raise (SystemExit c), w')
       end.

Fixpoint for_each {A} (f : A → M unit) (l : list A) : M unit :=
  match l with
  | [] => mret tt
  | x :: l' => f x ;; for_each f l'
  end.

(** [for x in l: s = f(s, x)]: a loop that carries the variables [s]. *)
Fixpoint for_fold {A S} (f : S → A → M S) (s : S) (l : list A) : M S :=
  match l with
  | [] => mret s
  | x :: l' => s' ← f s x; for_fold f s' l'
  end.

(** The truth value of a list. *)
Definition nonempty {A} (l : list A) : bool :=
  match l with [] => false | _ => true end.

(** ** The environment *)

(** What a command does when spawned: [subprocess.run] raises (the
    executable is missing, the output is not text), or the child runs
    for [wall] seconds, leaves files behind and exits. *)
Inductive behaviour :=
| RunRaises (cls msg : string)
| Runs (wall : Q) (returncode : Z) (stdout stderr : string) (creates : list string).

Record CompletedProcess := Completed {
  returncode : Z;
  stdout : string;
  stderr : string;
}.

Inductive element := IndividualElement | FamilyElement | OtherElement.

(** [isinstance(e, IndividualElement)], [isinstance(e, FamilyElement)]. *)
Definition is_individual (e : element) : bool :=
  match e with IndividualElement => true | _ => false end.
Definition is_family (e : element) : bool :=
  match e with FamilyElement => true | _ => false end.

(** What the python-gedcom parser does on a file: it raises, or it
    returns between the clock readings [t0] and [t1] (in seconds) and
    holds the element list afterwards. *)
Inductive parse_behaviour :=
| ParseRaises (cls msg : string)
| Parsed (t0 t1 : Q) (element_list : list element).

Record env := Env {
  proc : list string → behaviour;
  json_loads : string → (string * nat) + pyval;  (* message and position, or the value *)
  python_gedcom : string → parse_behaviour;
  getsize : string → Z;
  py_repr : pyval → string;   (* [repr] of floats and containers *)
}.

(** [str(v)], as an f-string field shows it. *)
Definition py_str (E : env) (v : pyval) : string :=
  match v with
  | PStr s => s
  | PNone => "None"
  | PBool true => "True"
  | PBool false => "False"
  | PInt z => string_of_Z z
  | _ => py_repr E v
  end.

(** [d[k]]. *)
Definition getitem (E : env) (d : pyval) (k : string) : result pyval :=
  match d with
  | PDict m =>
      match m !! k with
      | Some v => Ok v
      | None => throw "KeyError" (py_repr E (PStr k))
      end
  | PList _ => throw "TypeError" "list indices must be integers or slices, not str"
  | PStr _ => throw "TypeError" "string indices must be integers, not 'str'"
  | _ => throw "TypeError" ("'" +:+ type_name d +:+ "' object is not subscriptable")
  end.

(** [k in d]. *)
Definition py_in (k : string) (d : pyval) : result bool :=
  match d with
  | PDict m => Ok (bool_decide (is_Some (m !! k)))
  | PList l => Ok (existsb (λ v, match v with PStr s => String.eqb s k | _ => false end) l)
  | PStr s => Ok (contains k s)
  | _ => throw "TypeError" ("argument of type '" +:+ type_name d +:+ "' is not iterable")
  end.

Section Runners.
Context (E : env).

(** [subprocess.run(cmd, capture_output=True, text=True, timeout=t)]:
    the child is killed and [TimeoutExpired] raised when it runs
    longer than the timeout. *)
Definition subprocess_run (cmd : list string) (timeout : option Q) : M CompletedProcess :=
  emit (Invoke cmd) ;;
  match proc E cmd with
  | RunRaises cls msg => raise (Raised cls msg)
  | Runs wall rc so se creates =>
      if match timeout with Some t => negb (Qle_bool wall t) | None => false end
      then emit (Kill cmd) ;; raise TimeoutExpired
      else for_each write_file creates ;; mret (Completed rc so se)
  end.

(** [json.loads(s)]. *)
Definition loads (s : string) : M pyval :=
  match json_loads E s with
  | inl (msg, pos) => raise (JSONDecodeError msg s pos)
  | inr v => mret v
  end.
End Runners.

(** ** What both scripts define alike

    [build_go_parser], [benchmark_go_parser], [format_duration],
    [format_speedup] and [get_file_size] have the same text in the two
    scripts; they are embedded once. *)

Definition TESTDATA_DIR : string := "/apps/gedcom-go/testdata".
Definition GEDCOM_FILES : list string :=
  ["xavier.ged"; "tree1.ged"; "gracis.ged"; "pres2020.ged"; "royal92.ged"].
Definition GO_PARSER_BINARY : string := "/tmp/go_parser_benchmark".
Definition go_file : string := "/tmp/go_parser_benchmark.go".

(** [TESTDATA_DIR / filename]; an absolute [filename] replaces the
    directory.  (pathlib's clean-up of the joined path is not modelled.) *)
Definition path_join (dir filename : string) : string :=
  match filename with
  | String "/" _ => filename
  | _ => dir +:+ "/" +:+ filename
  end.

(** The dict every failure handler of the runners returns. *)
Definition failure_result (error : string) : pyval :=
  PDict (dict_of [("success", PBool false); ("duration_ms", PInt 0);
                  ("duration_ns", PInt 0); ("error", PStr error)]).

(** [a or b] on strings. *)
Definition str_or (a b : string) : string := if String.eqb a "" then b else a.

Definition format_duration (ms : pyval) : result string :=
  x ← py_operand "<" ms;
  if Qlt_le_dec x 1 then Ok (format_f 2 (x * 1000) +:+ " μs")
  else if Qlt_le_dec x 1000 then Ok (format_f 2 x +:+ " ms")
  else Ok (format_f 2 (x / 1000) +:+ " s").

Definition format_speedup (go_time python_time : pyval) : result string :=
  if py_eq_zero go_time then Ok "N/A"
  else
    p ← py_operand "/" python_time;
    g ← py_operand "/" go_time;
    let speedup := (p / g)%Q in
    Ok (format_f 2 speedup +:+ "x").

Section Shared.
Context (E : env).

Definition build_go_parser : M bool :=
  write_file go_file ;;
  let cmd := ["go"; "build"; "-o"; GO_PARSER_BINARY; go_file] in
  result ← subprocess_run E cmd None;
  if negb (returncode result =? 0)
  then print ("ERROR: Failed to build Go parser: " +:+ stderr result) ;; mret false
  else mret true.

Definition benchmark_go_parser (file_path : string) : M pyval :=
  present ← path_exists GO_PARSER_BINARY;
  if negb present then mret (failure_result "Go parser binary not found")
  else
    try_except
      (result ← subprocess_run E [GO_PARSER_BINARY; file_path] (Some 300%Q);
       if negb (returncode result =? 0)
       then mret (failure_result (str_or (stderr result) "Unknown error"))
       else
         data ← loads E (stdout result);
         mret data)
      (λ e, match e with
            | TimeoutExpired => mret (failure_result "Timeout (exceeded 5 minutes)")
            | JSONDecodeError _ _ _ =>
                mret (failure_result ("JSON decode error: " +:+ exn_str e))
            | Raised _ _ => mret (failure_result (exn_str e))
            end).

Definition get_file_size (file_path : string) : M string :=
  present ← path_exists file_path;
  if negb present
  then raise (Raised "FileNotFoundError"
                ("[Errno 2] No such file or directory: '" +:+ file_path +:+ "'"))
  else
    let size := getsize E file_path in
    if size <? 1024 then mret (string_of_Z size +:+ " B")
    else if size <? 1024 * 1024
    then mret (format_f 1 (inject_Z size / 1024) +:+ " KB")
    else mret (format_f 1 (inject_Z size / (1024 * 1024)) +:+ " MB").

(** The progress line after one runner call:
    [if r['success']: print(f"✓ ...") else: print(f"✗ ERROR: ...")]. *)
Definition print_outcome (r : pyval) : M unit :=
  ok ← lift (getitem E r "success");
  if truthy ok
  then ms ← lift (getitem E r "duration_ms");
       d ← lift (format_duration ms);
       print ("✓ " +:+ d)
  else err ← lift (getitem E r "error");
       print ("✗ ERROR: " +:+ py_str E err).

(** [a['success'] and b['success']], left to right. *)
Definition both_succeeded (a b : pyval) : M bool :=
  sa ← lift (getitem E a "success");
  if truthy sa
  then sb ← lift (getitem E b "success"); mret (truthy sb)
  else mret false.

(** The [Go:] block of the detailed results, the same in both scripts. *)
Definition print_go_details (r : pyval) : M unit :=
  print "  Go:" ;;
  ok ← lift (getitem E r "success");
  if truthy ok
  then
    ms ← lift (getitem E r "duration_ms");
    d ← lift (format_duration ms);
    print ("    Time: " +:+ d) ;;
    has ← lift (py_in "individuals" r);
    if (has : bool)
    then i ← lift (getitem E r "individuals");
         print ("    Individuals: " +:+ py_str E i) ;;
         f ← lift (getitem E r "families");
         print ("    Families: " +:+ py_str E f) ;;
         has_errors ← lift (py_in "errors" r);
         if (has_errors : bool)
         then e ← lift (getitem E r "errors");
              print ("    Errors: " +:+ py_str E e)
         else mret tt
    else mret tt
  else err ← lift (getitem E r "error");
       print ("    ERROR: " +:+ py_str E err).

(** One column of a summary row: the duration to two decimals, kept
    for the averages, or ["ERROR"]. *)
Definition summary_cell (r : pyval) (times : list pyval)
    : M (list pyval * string * pyval) :=
  ok ← lift (getitem E r "success");
  if truthy ok
  then t ← lift (getitem E r "duration_ms");
       s ← lift (py_format_f 2 t);
       mret ((times ++ [t])%list, s, t)
  else mret (times, "ERROR", PNone).

(** The candidate loop at the start of [main]: one candidate. *)
Definition check_candidate (available_files : list (string * string))
    (filename : string) : M (list (string * string)) :=
  let file_path := path_join TESTDATA_DIR filename in
  present ← path_exists file_path;
  if (present : bool)
  then mret (available_files ++ [(filename, file_path)])%list
  else print ("⚠ Warning: " +:+ filename +:+ " not found, skipping") ;;
       mret available_files.

Definition find_available_files (files : list string) : M (list (string * string)) :=
  for_fold check_candidate [] files.

(** [statistics.mean] and [statistics.median] of a non-empty list. *)
Definition py_mean (data : list pyval) : result pyval :=
  xs ← mapM (py_operand "+") data;
  Ok (PFloat (fold_right Qplus 0 xs / inject_Z (Z.of_nat (length xs)))%Q).

Fixpoint insert_sorted (x : Q) (l : list Q) : list Q :=
  match l with
  | [] => [x]
  | y :: l' => if Qle_bool x y then x :: l else y :: insert_sorted x l'
  end.

Definition py_median (data : list pyval) : result pyval :=
  xs ← mapM (py_operand "<") data;
  let sorted := fold_right insert_sorted [] xs in
  let n := length sorted in
  if Nat.eqb (n mod 2)%nat 1
  then Ok (PFloat (nth (n / 2)%nat sorted 0%Q))
  else Ok (PFloat ((nth (n / 2 - 1)%nat sorted 0 + nth (n / 2)%nat sorted 0) / 2)%Q).
End Shared.

(** A line of the summary table:
    [f"{a:<20} {b:<10} {c:<15} {d:<15} {e:<15}"]. *)
Definition table_row (a b c d e : string) : string :=
  ljust 20 a +:+ " " +:+ ljust 10 b +:+ " " +:+ ljust 15 c +:+ " " +:+ ljust 15 d
    +:+ " " +:+ ljust 15 e.

Definition rule_eq : string := replicate_str 80 "=".
Definition rule_dash : string := replicate_str 80 "-".

(** ** [scripts/parser_benchmark.py]: python-gedcom against the Go parser *)

Module parser_benchmark.

(** One entry of [results]. *)
Record run_record := RunRecord {
  filename : string;
  file_size : string;
  python : pyval;
  go : pyval;
}.

Section Script.
Context (E : env).

Definition benchmark_python_parser (file_path : string) : M pyval :=
  try_except
    (emit (ParseFile file_path) ;;
     match python_gedcom E file_path with
     | ParseRaises cls msg => raise (Raised cls msg)
     | Parsed start stop element_list =>
         let duration := ((stop - start) * 1000)%Q in
         let individuals := List.filter is_individual element_list in
         let families := List.filter is_family element_list in
         mret (PDict (dict_of
           [("success", PBool true);
            ("duration_ms", PFloat duration);
            ("duration_ns", PInt (py_int_of_float (duration * 1000000)));
            ("individuals", PInt (Z.of_nat (length individuals)));
            ("families", PInt (Z.of_nat (length families)));
            ("total_elements", PInt (Z.of_nat (length element_list)));
            ("error", PNone)]))
     end)
    (λ e, mret (failure_result (exn_str e))).

(** The body of the measurement loop of [main]. *)
Definition test_file (results : list run_record) (f : string * string)
    : M (list run_record) :=
  let '(filename, file_path) := f in
  size ← get_file_size E file_path;
  print ("Testing: " +:+ filename +:+ " (" +:+ size +:+ ")") ;;
  print rule_dash ;;
  print_end "  Running Python parser..." " " ;;
  python_result ← benchmark_python_parser file_path;
  print_outcome E python_result ;;
  print_end "  Running Go parser..." " " ;;
  go_result ← benchmark_go_parser E file_path;
  print_outcome E go_result ;;
  both ← both_succeeded E python_result go_result;
  (if (both : bool)
   then g ← lift (getitem E go_result "duration_ms");
        p ← lift (getitem E python_result "duration_ms");
        speedup ← lift (format_speedup g p);
        print ("  Speedup: Go is " +:+ speedup +:+ " faster")
   else mret tt) ;;
  size' ← get_file_size E file_path;
  let results := (results ++ [RunRecord filename size' python_result go_result])%list in
  print "" ;;
  mret results.

(** The body of the summary loop; it carries [python_times] and
    [go_times]. *)
Definition summary_row (times : list pyval * list pyval) (result : run_record)
    : M (list pyval * list pyval) :=
  let '(python_times, go_times) := times in
  '(python_times, python_str, python_time) ← summary_cell E (python result) python_times;
  '(go_times, go_str, go_time) ← summary_cell E (go result) go_times;
  both ← both_succeeded E (python result) (go result);
  speedup ← (if (both : bool) then lift (format_speedup go_time python_time)
             else mret "N/A");
  print (table_row (filename result) (file_size result) python_str go_str speedup) ;;
  mret (python_times, go_times).

Definition print_averages (python_times go_times : list pyval) : M unit :=
  if nonempty python_times && nonempty go_times
  then
    avg_python ← lift (py_mean python_times);
    avg_go ← lift (py_mean go_times);
    avg_speedup ← lift (format_speedup avg_go avg_python);
    ap ← lift (py_format_f 2 avg_python);
    ag ← lift (py_format_f 2 avg_go);
    print (table_row "AVERAGE" "" ap ag avg_speedup) ;;
    print "" ;;
    print "Overall Statistics:" ;;
    dp ← lift (format_duration avg_python);
    print ("  Average Python time: " +:+ dp) ;;
    dg ← lift (format_duration avg_go);
    print ("  Average Go time: " +:+ dg) ;;
    print ("  Average speedup: " +:+ avg_speedup) ;;
    if (1 <? length python_times)%nat && (1 <? length go_times)%nat
    then
      median_python ← lift (py_median python_times);
      median_go ← lift (py_median go_times);
      median_speedup ← lift (format_speedup median_go median_python);
      mp ← lift (format_duration median_python);
      print ("  Median Python time: " +:+ mp) ;;
      mg ← lift (format_duration median_go);
      print ("  Median Go time: " +:+ mg) ;;
      print ("  Median speedup: " +:+ median_speedup)
    else mret tt
  else mret tt.

(** The body of the detailed-results loop. *)
Definition print_details (result : run_record) : M unit :=
  print (nl +:+ filename result +:+ " (" +:+ file_size result +:+ "):") ;;
  print "  Python:" ;;
  ok ← lift (getitem E (python result) "success");
  (if truthy ok
   then
     ms ← lift (getitem E (python result) "duration_ms");
     d ← lift (format_duration ms);
     print ("    Time: " +:+ d) ;;
     has ← lift (py_in "individuals" (python result));
     if (has : bool)
     then i ← lift (getitem E (python result) "individuals");
          print ("    Individuals: " +:+ py_str E i) ;;
          f ← lift (getitem E (python result) "families");
          print ("    Families: " +:+ py_str E f) ;;
          t ← lift (getitem E (python result) "total_elements");
          print ("    Total Elements: " +:+ py_str E t)
     else mret tt
   else err ← lift (getitem E (python result) "error");
        print ("    ERROR: " +:+ py_str E err)) ;;
  print_go_details E (go result).

(** The cleanup block that ends [main]. *)
Definition cleanup : M unit :=
  remove_if_exists GO_PARSER_BINARY ;;
  remove_if_exists go_file.

(** The measurement loop of [main]. *)
Definition run_benchmarks (available_files : list (string * string))
    : M (list run_record) :=
  for_fold test_file [] available_files.

(** [main], from the candidate loop on. *)
Definition measure_and_report (corpus : list string) : M unit :=
  available_files ← find_available_files corpus;
  (if negb (nonempty available_files)
   then print "ERROR: No test files found!" ;; sys_exit 1
   else mret tt) ;;
  print ("Found " +:+ string_of_nat (length available_files) +:+ " test file(s)") ;;
  print "" ;;
  results ← run_benchmarks available_files;
  print rule_eq ;;
  print "SUMMARY" ;;
  print rule_eq ;;
  print "" ;;
  print (table_row "File" "Size" "Python (ms)" "Go (ms)" "Speedup") ;;
  print rule_dash ;;
  '(python_times, go_times) ← for_fold summary_row ([], []) results;
  print rule_dash ;;
  print_averages python_times go_times ;;
  print "" ;;
  print rule_eq ;;
  print (nl +:+ "DETAILED RESULTS") ;;
  print rule_eq ;;
  for_each print_details results ;;
  cleanup.

(** The build of the Go binary, up to the candidate loop. *)
Definition prepare : M unit :=
  print "Building Go parser benchmark binary..." ;;
  built ← build_go_parser E;
  (if negb built
   then print "ERROR: Failed to build Go parser. Exiting." ;; sys_exit 1
   else mret tt) ;;
  print "✓ Go parser built successfully" ;;
  print "".

(** [main]; [corpus] is the global [GEDCOM_FILES]. *)
Definition main (corpus : list string) : M unit :=
  print rule_eq ;;
  print "GEDCOM Parser Performance Comparison" ;;
  print rule_eq ;;
  print "" ;;
  prepare ;;
  measure_and_report corpus.
End Script.
End parser_benchmark.

(** ** [scripts/parser_benchmark_php.py]: the Go parser against php-gedcom *)

Module parser_benchmark_php.

Definition PHP_BENCHMARK_SCRIPT : string := "/tmp/php_parser_benchmark.php".
Definition autoload : string := "/apps/php-gedcom/vendor/autoload.php".

(** One entry of [results]. *)
Record run_record := RunRecord {
  filename : string;
  file_size : string;
  go : pyval;
  php : pyval;
}.

(** The entry stored for the PHP parser when it is not available. *)
Definition php_not_available : pyval :=
  PDict (dict_of [("success", PBool false); ("error", PStr "PHP 8.4+ not available")]).

(** [major, minor = map(int, parts)]: the items are converted as the
    unpacking asks for them. *)
Definition unpack_two_ints (E : env) (parts : list string) : result (Z * Z) :=
  let to_int (s : string) : result Z :=
    match int_literal s with
    | Some z => Ok z
    | None => throw "ValueError"
                ("invalid literal for int() with base 10: " +:+ py_repr E (PStr s))
    end in
  match parts with
  | [] => throw "ValueError" "not enough values to unpack (expected 2, got 0)"
  | [a] => _ ← to_int a;
           throw "ValueError" "not enough values to unpack (expected 2, got 1)"
  | [a; b] => x ← to_int a; y ← to_int b; Ok (x, y)
  | a :: b :: _ => _ ← to_int a; _ ← to_int b;
                   throw "ValueError" "too many values to unpack (expected 2)"
  end.

Section Script.
Context (E : env).

Definition check_php_version : M (bool * string * bool) :=
  try_except
    (result ← subprocess_run E ["php"; "--version"] None;
     let version_line := hd "" (split_on "010" (stdout result) "") in
     version_str ←
       match split_ws version_line "" with
       | _ :: v :: _ => mret v
       | _ => raise (Raised "IndexError" "list index out of range")
       end;
     '(major, minor) ← lift (unpack_two_ints E (take 2 (split_on "." version_str "")));
     if (major >? 8) || ((major =? 8) && (minor >=? 3))
     then mret (true, version_str, minor >=? 4)
     else mret (false, version_str, false))
    (λ e, mret (false, "Error: " +:+ exn_str e, false)).

Definition create_php_benchmark_script : M bool :=
  write_file PHP_BENCHMARK_SCRIPT ;;
  mret true.

Definition benchmark_php_parser (file_path : string) : M pyval :=
  present ← path_exists PHP_BENCHMARK_SCRIPT;
  if negb present then mret (failure_result "PHP benchmark script not found")
  else
    try_except
      (result ← subprocess_run E ["php"; PHP_BENCHMARK_SCRIPT; file_path] (Some 300%Q);
       if negb (returncode result =? 0)
       then mret (failure_result (str_or (stderr result) "Unknown error"))
       else
         data ← loads E (stdout result);
         mret data)
      (λ e, match e with
            | TimeoutExpired => mret (failure_result "Timeout (exceeded 5 minutes)")
            | JSONDecodeError _ doc _ =>
                (* [result.stdout] is the document [json.loads] was given *)
                mret (failure_result ("JSON decode error: " +:+ exn_str e
                                        +:+ ". Output: " +:+ substring 0 200 doc))
            | Raised _ _ => mret (failure_result (exn_str e))
            end).

(** The version check and the set-up of the PHP side, up to the
    candidate loop; returns [php_available]. *)
Definition prepare : M bool :=
  '(php_ok, php_version, php_84_plus) ← check_php_version;
  php_available ←
    (if negb php_ok
     then
       print ("⚠ WARNING: PHP 8.3+ required for php-gedcom, but found PHP "
              +:+ php_version) ;;
       print "  The PHP parser benchmarks will be skipped." ;;
       print "  Install PHP 8.3+ to run comparison." ;;
       print "" ;;
       mret false
     else
       (if (php_84_plus : bool)
        then print ("✓ PHP " +:+ php_version
                    +:+ " detected (compatible with php-gedcom v4.0+)")
        else print ("✓ PHP " +:+ php_version
                    +:+ " detected (will use php-gedcom v2.2.0)")) ;;
       print "" ;;
       mret true);
  print "Building Go parser benchmark binary..." ;;
  built ← build_go_parser E;
  (if negb built
   then print "ERROR: Failed to build Go parser. Exiting." ;; sys_exit 1
   else mret tt) ;;
  print "✓ Go parser built successfully" ;;
  print "" ;;
  if (php_available : bool)
  then
    print "Creating PHP benchmark script..." ;;
    _ ← create_php_benchmark_script;
    print "✓ PHP benchmark script created" ;;
    installed ← path_exists autoload;
    php_available ←
      (if negb installed
       then
         print "⚠ WARNING: php-gedcom not installed. Installing..." ;;
         result ← subprocess_run E ["composer"; "install"; "--no-dev"] None;
         if negb (returncode result =? 0)
         then print ("ERROR: Failed to install php-gedcom: " +:+ stderr result) ;;
              mret false
         else print "✓ php-gedcom installed" ;; mret true
       else mret true);
    print "" ;;
    mret php_available
  else mret false.

(** The body of the measurement loop of [main]. *)
Definition test_file (php_available : bool) (results : list run_record)
    (f : string * string) : M (list run_record) :=
  let '(filename, file_path) := f in
  size ← get_file_size E file_path;
  print ("Testing: " +:+ filename +:+ " (" +:+ size +:+ ")") ;;
  print rule_dash ;;
  print_end "  Running Go parser..." " " ;;
  go_result ← benchmark_go_parser E file_path;
  print_outcome E go_result ;;
  php_result ←
    (if php_available
     then print_end "  Running PHP parser..." " " ;;
          php_result ← benchmark_php_parser file_path;
          print_outcome E php_result ;;
          mret php_result
     else mret php_not_available);
  both ← both_succeeded E go_result php_result;
  (if (both : bool)
   then g ← lift (getitem E go_result "duration_ms");
        p ← lift (getitem E php_result "duration_ms");
        speedup ← lift (format_speedup g p);
        print ("  Speedup: Go is " +:+ speedup +:+ " faster")
   else mret tt) ;;
  size' ← get_file_size E file_path;
  let results := (results ++ [RunRecord filename size' go_result php_result])%list in
  print "" ;;
  mret results.

(** The body of the summary loop; it carries [go_times] and
    [php_times].  Both arms of the source's
    ["ERROR" if not php_available else "ERROR"] are ["ERROR"]. *)
Definition summary_row (times : list pyval * list pyval) (result : run_record)
    : M (list pyval * list pyval) :=
  let '(go_times, php_times) := times in
  '(go_times, go_str, go_time) ← summary_cell E (go result) go_times;
  '(php_times, php_str, php_time) ← summary_cell E (php result) php_times;
  both ← both_succeeded E (go result) (php result);
  speedup ← (if (both : bool) then lift (format_speedup go_time php_time)
             else mret "N/A");
  print (table_row (filename result) (file_size result) go_str php_str speedup) ;;
  mret (go_times, php_times).

Definition print_averages (go_times php_times : list pyval) : M unit :=
  if nonempty go_times && nonempty php_times
  then
    avg_go ← lift (py_mean go_times);
    avg_php ← lift (py_mean php_times);
    avg_speedup ← lift (format_speedup avg_go avg_php);
    ag ← lift (py_format_f 2 avg_go);
    ap ← lift (py_format_f 2 avg_php);
    print (table_row "AVERAGE" "" ag ap avg_speedup) ;;
    print "" ;;
    print "Overall Statistics:" ;;
    dg ← lift (format_duration avg_go);
    print ("  Average Go time: " +:+ dg) ;;
    dp ← lift (format_duration avg_php);
    print ("  Average PHP time: " +:+ dp) ;;
    print ("  Average speedup: " +:+ avg_speedup) ;;
    if (1 <? length go_times)%nat && (1 <? length php_times)%nat
    then
      median_go ← lift (py_median go_times);
      median_php ← lift (py_median php_times);
      median_speedup ← lift (format_speedup median_go median_php);
      mg ← lift (format_duration median_go);
      print ("  Median Go time: " +:+ mg) ;;
      mp ← lift (format_duration median_php);
      print ("  Median PHP time: " +:+ mp) ;;
      print ("  Median speedup: " +:+ median_speedup)
    else mret tt
  else if nonempty go_times
  then
    avg_go ← lift (py_mean go_times);
    ag ← lift (py_format_f 2 avg_go);
    print (table_row "AVERAGE (Go only)" "" ag "N/A" "N/A")
  else mret tt.

(** The body of the detailed-results loop. *)
Definition print_details (result : run_record) : M unit :=
  print (nl +:+ filename result +:+ " (" +:+ file_size result +:+ "):") ;;
  print_go_details E (go result) ;;
  print "  PHP:" ;;
  ok ← lift (getitem E (php result) "success");
  if truthy ok
  then
    ms ← lift (getitem E (php result) "duration_ms");
    d ← lift (format_duration ms);
    print ("    Time: " +:+ d) ;;
    has ← lift (py_in "individuals" (php result));
    if (has : bool)
    then i ← lift (getitem E (php result) "individuals");
         print ("    Individuals: " +:+ py_str E i) ;;
         f ← lift (getitem E (php result) "families");
         print ("    Families: " +:+ py_str E f)
    else mret tt
  else err ← lift (getitem E (php result) "error");
       print ("    ERROR: " +:+ py_str E err).

(** The cleanup block that ends [main]. *)
Definition cleanup : M unit :=
  remove_if_exists GO_PARSER_BINARY ;;
  remove_if_exists go_file ;;
  remove_if_exists PHP_BENCHMARK_SCRIPT.

(** The measurement loop of [main]. *)
Definition run_benchmarks (php_available : bool)
    (available_files : list (string * string)) : M (list run_record) :=
  for_fold (test_file php_available) [] available_files.

(** [main], from the candidate loop on. *)
Definition measure_and_report (php_available : bool) (corpus : list string) : M unit :=
  available_files ← find_available_files corpus;
  (if negb (nonempty available_files)
   then print "ERROR: No test files found!" ;; sys_exit 1
   else mret tt) ;;
  print ("Found " +:+ string_of_nat (length available_files) +:+ " test file(s)") ;;
  print "" ;;
  results ← run_benchmarks php_available available_files;
  print rule_eq ;;
  print "SUMMARY" ;;
  print rule_eq ;;
  print "" ;;
  print (table_row "File" "Size" "Go (ms)" "PHP (ms)" "Speedup") ;;
  print rule_dash ;;
  '(go_times, php_times) ← for_fold summary_row ([], []) results;
  print rule_dash ;;
  print_averages go_times php_times ;;
  print "" ;;
  print rule_eq ;;
  print (nl +:+ "DETAILED RESULTS") ;;
  print rule_eq ;;
  for_each print_details results ;;
  cleanup.

(** [main]; [corpus] is the global [GEDCOM_FILES]. *)
Definition main (corpus : list string) : M unit :=
  print rule_eq ;;
  print "GEDCOM Parser Performance Comparison: Go vs PHP" ;;
  print rule_eq ;;
  print "" ;;
  php_available ← prepare;
  measure_and_report php_available corpus.
End Script.
End parser_benchmark_php.

(** * Vocabulary of the properties *)

(** ** What a run leaves behind *)

(** The world after the child of a command has left its files. *)
Definition with_files (creates : list string) (w : world) : world :=
  World (list_to_set creates ∪ fs w) (out w) (log w).

(** The world after some more calls. *)
Definition logged (evs : list event) (w : world) : world :=
  World (fs w) (out w) (log w ++ evs).

(** The commands of the two subprocess runners and of the build. *)
Definition go_cmd (file_path : string) : list string := [GO_PARSER_BINARY; file_path].
Definition php_cmd (file_path : string) : list string :=
  ["php"; parser_benchmark_php.PHP_BENCHMARK_SCRIPT; file_path].

Definition build_cmd : list string := ["go"; "build"; "-o"; GO_PARSER_BINARY; go_file].

(** [r.get(k)]. *)
Definition field (r : pyval) (k : string) : option pyval :=
  match r with
  | PDict m => m !! k
  | _ => None
  end.

(** Whether a stored result counts as a success for the report. *)
Definition succeeded (E : env) (r : pyval) : bool :=
  match getitem E r "success" with
  | Ok v => truthy v
  | Raise _ => false
  end.

(** The result was decoded from what the command printed on exit 0. *)
Definition decoded_from (E : env) (cmd : list string) (r : pyval) : Prop :=
  ∃ wall so se creates,
    proc E cmd = Runs wall 0 so se creates ∧ json_loads E so = inr r.

(** What the two subprocess runners return, case by case. *)
Definition runner_cases (E : env) (cmd : list string) (missing : string)
    (decode_error : string → string → nat → string) (present : bool) (w : world)
    : result pyval * world :=
  if present then
    match proc E cmd with
    | RunRaises cls msg => (Ok (failure_result msg), logged [Invoke cmd] w)
    | Runs wall rc so se creates =>
        if negb (Qle_bool wall 300)
        then (Ok (failure_result "Timeout (exceeded 5 minutes)"),
              logged [Invoke cmd; Kill cmd] w)
        else
          let w1 := with_files creates (logged [Invoke cmd] w) in
          if negb (rc =? 0) then (Ok (failure_result (str_or se "Unknown error")), w1)
          else match json_loads E so with
               | inl (msg, pos) => (Ok (failure_result (decode_error msg so pos)), w1)
               | inr v => (Ok v, w1)
               end
    end
  else (Ok (failure_result missing), w).

(** ** What the claims speak of *)

(** The invariant of a Result as the data model states it: a failure
    has a non-empty error string, a success has no error, and the
    counts are there exactly on success. *)
Definition has_counts (r : pyval) : Prop :=
  is_Some (field r "individuals") ∧ is_Some (field r "families").

Definition no_error (r : pyval) : Prop :=
  field r "error" = None ∨ field r "error" = Some PNone
  ∨ field r "error" = Some (PStr "").

Definition result_invariant (r : pyval) : Prop :=
  (field r "success" = Some (PBool false) →
   ∃ s, field r "error" = Some (PStr s) ∧ s ≠ "")
  ∧ (field r "success" = Some (PBool true) → no_error r)
  ∧ (has_counts r ↔ field r "success" = Some (PBool true)).

(** Where a candidate is looked for, and whether it is there. *)
Definition candidate_path (filename : string) : string :=
  path_join TESTDATA_DIR filename.

Definition on_disk (files : gset string) (filename : string) : bool :=
  bool_decide (candidate_path filename ∈ files).

(** The candidates that exist, in their order, with their paths. *)
Definition available (files : gset string) (corpus : list string)
    : list (string * string) :=
  map (λ f, (f, candidate_path f)) (List.filter (on_disk files) corpus).

(** The line printed for a missing candidate. *)
Definition missing_warning (filename : string) : string :=
  ("⚠ Warning: " +:+ filename +:+ " not found, skipping") +:+ nl.

(** One warning per missing candidate, in their order. *)
Definition warnings (files : gset string) (corpus : list string) : list string :=
  map missing_warning (List.filter (λ f, negb (on_disk files f)) corpus).

(** The world after the four lines that open [main]. *)
Definition banner (title : string) (w : world) : world :=
  World (fs w)
        (out w ++ [rule_eq +:+ nl; title +:+ nl; rule_eq +:+ nl; "" +:+ nl])
        (log w).

(** The line printed when no candidate exists. *)
Definition no_files_error : string := "ERROR: No test files found!" +:+ nl.

(** The world in which a run stops for want of corpus files. *)
Definition stopped (corpus : list string) (w : world) : world :=
  World (fs w) (out w ++ warnings (fs w) corpus ++ [no_files_error]) (log w).

(** The scratch files of a script are gone. *)
Definition python_scratch_removed (w : world) : Prop :=
  (GO_PARSER_BINARY ∉ fs w) ∧ (go_file ∉ fs w).

Definition php_scratch_removed (w : world) : Prop :=
  (GO_PARSER_BINARY ∉ fs w) ∧ (go_file ∉ fs w)
  ∧ (parser_benchmark_php.PHP_BENCHMARK_SCRIPT ∉ fs w).

(** The calls of the PHP benchmark script in a log. *)
Definition is_php_benchmark (e : event) : bool :=
  match e with
  | Invoke ("php" :: script :: _) =>
      String.eqb script parser_benchmark_php.PHP_BENCHMARK_SCRIPT
  | _ => false
  end.

Definition php_calls (l : list event) : list event := List.filter is_php_benchmark l.

(** The PHP benchmark calls logged so far are [calls]. *)
Definition php_calls_are (calls : list event) (w : world) : Prop :=
  php_calls (log w) = calls.

(** The verdict of the version check; it does not depend on the world. *)
Definition preflight (E : env) : result (bool * string * bool) :=
  (parser_benchmark_php.check_php_version E (World ∅ [] [])).1.

(** ** Properties of a computation over every world *)

(** [m] keeps [P], however it ends. *)
Definition keeps (P : world → Prop) {A} (m : M A) : Prop :=
  ∀ w, P w → P (m w).2.

(** Where [m] returns, [Q] holds. *)
Definition ensures {A} (m : M A) (Q : world → Prop) : Prop :=
  ∀ w a w', m w = (Ok a, w') → Q w'.

(** Where [m] raises from a world with [P], [P] still holds. *)
Definition on_raise (P : world → Prop) {A} (m : M A) : Prop :=
  ∀ w s w', P w → m w = (Raise s, w') → P w'.

(** [m] always returns. *)
Definition total {A} (m : M A) : Prop := ∀ w, ∃ a w', m w = (Ok a, w').

(** However [m] ends, [P] holds afterwards. *)
Definition establishes (P : world → Prop) {A} (m : M A) : Prop := ∀ w, P (m w).2.

(** The file [p] exists. *)
Definition has_file (p : string) (w : world) : Prop := p ∈ fs w.

(** A property of the world that printing and writing files keep, and
    that logging an allowed event keeps; the scripts' own commands
    other than the PHP benchmark are allowed. *)
Record kept_property := KeptProperty {
  holds : world → Prop;
  allowed : event → Prop;
  kept_out : ∀ w o, holds w → holds (World (fs w) o (log w));
  kept_fs : ∀ w p, holds w → holds (World ({[p]} ∪ fs w) (out w) (log w));
  kept_log : ∀ w e, allowed e → holds w → holds (World (fs w) (out w) (log w ++ [e]));
  allowed_kill : ∀ cmd, allowed (Kill cmd);
  allowed_parse : ∀ p, allowed (ParseFile p);
  allowed_build : allowed (Invoke build_cmd);
  allowed_go : ∀ p, allowed (Invoke (go_cmd p));
  allowed_version : allowed (Invoke ["php"; "--version"]);
  allowed_composer : allowed (Invoke ["composer"; "install"; "--no-dev"]);
}.

(** A file, once there, stays until the cleanup: nothing else removes
    files. *)
Definition file_stays (p : string) : kept_property.
Proof.
  refine (KeptProperty (has_file p) (λ _, True) _ _ _ _ _ _ _ _ _);
    try (intros; exact I).
  - intros w o H. exact H.
  - intros w q H. unfold has_file in *. cbn. set_solver.
  - intros w e _ H. exact H.
Defined.

(** The calls of the PHP benchmark script stay as they are while no
    such call is logged. *)
Definition no_php_call (calls : list event) : kept_property.
Proof.
  refine (KeptProperty (php_calls_are calls) (λ e, is_php_benchmark e = false)
            _ _ _ _ _ _ _ _ _); try (intros; reflexivity).
  - intros w o H. exact H.
  - intros w p H. exact H.
  - intros w e He H. unfold php_calls_are, php_calls in *. cbn.
    rewrite List.filter_app. cbn. rewrite He. rewrite app_nil_r. exact H.
Defined.

(** ** Scenarios: concrete environments and worlds *)

(** A double quote, for the JSON texts. *)
Definition dq : string := String "034"%char "".
Definition quoted (s : string) : string := dq +:+ s +:+ dq.

(** [repr] of a plain string; the scenarios need no other. *)
Definition repr_stub (v : pyval) : string :=
  match v with
  | PStr s => "'" +:+ s +:+ "'"
  | _ => "<object>"
  end.

Definition xavier : string := path_join TESTDATA_DIR "xavier.ged".

(** The binary, the PHP script and one corpus file are in place. *)
Definition ready : world :=
  World {[GO_PARSER_BINARY; parser_benchmark_php.PHP_BENCHMARK_SCRIPT; xavier]} [] [].

(** Only the corpus file exists, as before a run. *)
Definition fresh : world := World {[xavier]} [] [].

(** No candidate exists. *)
Definition empty_disk : world := World ∅ [] [].

(** Scenario 5 of the specification: three of the five candidates exist. *)
Definition three_of_five : world :=
  World {[candidate_path "xavier.ged"; candidate_path "gracis.ged";
          candidate_path "royal92.ged"]} [] [].

(** What the Go driver prints after a parse of 5 ms, and its decoding
    (Scenario 1 of the specification). *)
Definition go_success_text : string :=
  "{" +:+ quoted "success" +:+ ":true," +:+ quoted "duration_ms" +:+ ":5,"
      +:+ quoted "duration_ns" +:+ ":5000000," +:+ quoted "error" +:+ ":" +:+ quoted ""
      +:+ "," +:+ quoted "individuals" +:+ ":3," +:+ quoted "families" +:+ ":1,"
      +:+ quoted "errors" +:+ ":0}" +:+ nl.

Definition go_success : pyval :=
  PDict (dict_of [("success", PBool true); ("duration_ms", PFloat 5);
                  ("duration_ns", PInt 5000000); ("error", PStr "");
                  ("individuals", PInt 3); ("families", PInt 1); ("errors", PInt 0)]).

(** A failure with an empty message, as printed and as decoded. *)
Definition silent_failure_text : string :=
  "{" +:+ quoted "success" +:+ ": false, " +:+ quoted "duration_ms" +:+ ": 0.5, "
      +:+ quoted "duration_ns" +:+ ": 500000, " +:+ quoted "error" +:+ ": " +:+ quoted ""
      +:+ "}".

Definition silent_failure : pyval :=
  PDict (dict_of [("success", PBool false); ("duration_ms", PFloat (1 # 2));
                  ("duration_ns", PInt 500000); ("error", PStr "")]).

(** What the in-process runner returns under [env_clock]. *)
Definition clock_result : pyval :=
  PDict (dict_of [("success", PBool true);
                  ("duration_ms", PFloat ((1 + (1 # 4096) - 1) * 1000));
                  ("duration_ns", PInt 244140);
                  ("individuals", PInt 1); ("families", PInt 1);
                  ("total_elements", PInt 2); ("error", PNone)]).

(** Run records with one failed result. *)
Definition row_python_failed : parser_benchmark.run_record :=
  parser_benchmark.RunRecord "xavier.ged" "10.0 KB" (failure_result "bad line") go_success.

Definition row_php_unavailable : parser_benchmark_php.run_record :=
  parser_benchmark_php.RunRecord "xavier.ged" "10.0 KB" go_success
    parser_benchmark_php.php_not_available.

(** Every child runs for 301 seconds. *)
Definition env_slow : env :=
  Env (λ _, Runs 301 0 "" "" [])
      (λ _, inl ("Expecting value", 0%nat))
      (λ _, ParseRaises "RuntimeError" "unused")
      (λ _, 10240) repr_stub.

(** No executable can be started. *)
Definition env_no_runtime : env :=
  Env (λ cmd, RunRaises "FileNotFoundError"
                ("[Errno 2] No such file or directory: " +:+ repr_stub (PStr (hd "" cmd))))
      (λ _, inl ("Expecting value", 0%nat))
      (λ _, ParseRaises "RuntimeError" "unused")
      (λ _, 10240) repr_stub.

(** Every child exits 0 after printing text that is not JSON. *)
Definition env_not_json : env :=
  Env (λ _, Runs 1 0 "not json" "" [])
      (λ _, inl ("Expecting value", 0%nat))
      (λ _, ParseRaises "RuntimeError" "unused")
      (λ _, 10240) repr_stub.

(** The child exits 0 after printing a failure with an empty message,
    and the in-process parser raises an exception without a message. *)
Definition env_silent : env :=
  Env (λ _, Runs 1 0 silent_failure_text "" [])
      (λ s, if String.eqb s silent_failure_text then inr silent_failure
            else inl ("Expecting value", 0%nat))
      (λ _, ParseRaises "MemoryError" "")
      (λ _, 10240) repr_stub.

(** The in-process parse takes 2^-12 seconds on the clock. *)
Definition env_clock : env :=
  Env (λ _, Runs 1 0 "" "" [])
      (λ _, inl ("Expecting value", 0%nat))
      (λ _, Parsed 1 (1 + (1 # 4096)) [IndividualElement; FamilyElement])
      (λ _, 10240) repr_stub.

(** PHP 8.2 is installed, the build succeeds, and the Go binary parses
    every file in 5 ms. *)
Definition env_php82 : env :=
  Env (λ cmd, match cmd with
              | "go" :: _ => Runs 2 0 "" "" [GO_PARSER_BINARY]
              | ["php"; "--version"] =>
                  Runs (1 # 10) 0 ("PHP 8.2.10 (cli) (built: Sep  1 2023 10:00:00) (NTS)"
                                     +:+ nl +:+ "Copyright (c) The PHP Group" +:+ nl) "" []
              | _ => Runs (1 # 100) 0 go_success_text "" []
              end)
      (λ s, if String.eqb s go_success_text then inr go_success
            else inl ("Expecting value", 0%nat))
      (λ _, ParseRaises "RuntimeError" "unused")
      (λ _, 10240) repr_stub.

(** The Go toolchain rejects the driver. *)
Definition env_build_fails : env :=
  Env (λ cmd, match cmd with
              | "go" :: _ => Runs 3 1 "" "go: cannot find main module" []
              | _ => Runs (1 # 100) 0 go_success_text "" []
              end)
      (λ s, if String.eqb s go_success_text then inr go_success
            else inl ("Expecting value", 0%nat))
      (λ _, Parsed 1 (1 + (1 # 4096)) [IndividualElement; FamilyElement])
      (λ _, 10240) repr_stub.

(** The build succeeds and the binary prints [{}], an object without
    the key [success]. *)
Definition env_empty_object : env :=
  Env (λ cmd, match cmd with
              | "go" :: _ => Runs 2 0 "" "" [GO_PARSER_BINARY]
              | _ => Runs (1 # 100) 0 "{}" "" []
              end)
      (λ s, if String.eqb s "{}" then inr (PDict ∅)
            else inl ("Expecting value", 0%nat))
      (λ _, Parsed 1 (1 + (1 # 4096)) [IndividualElement; FamilyElement])
      (λ _, 10240) repr_stub.

(** The build succeeds and both parsers succeed on every file. *)
Definition env_all_well : env :=
  Env (λ cmd, match cmd with
              | "go" :: _ => Runs 2 0 "" "" [GO_PARSER_BINARY]
              | ["php"; "--version"] =>
                  Runs (1 # 10) 0 ("PHP 8.3.2 (cli)" +:+ nl) "" []
              | "composer" :: _ => Runs 5 0 "" "" [parser_benchmark_php.autoload]
              | _ => Runs (1 # 100) 0 go_success_text "" []
              end)
      (λ s, if String.eqb s go_success_text then inr go_success
            else inl ("Expecting value", 0%nat))
      (λ _, Parsed 1 (1 + (1 # 4096)) [IndividualElement; FamilyElement])
      (λ _, 10240) repr_stub.

(** * Further vocabulary *)

(** ** What the runners log *)

(** The events of one call of a subprocess runner whose binary or
    script exists: the invocation, and the kill at a timeout. *)
Definition run_events (E : env) (cmd : list string) : list event :=
  match proc E cmd with
  | RunRaises _ _ => [Invoke cmd]
  | Runs wall _ _ _ _ =>
      if negb (Qle_bool wall 300) then [Invoke cmd; Kill cmd] else [Invoke cmd]
  end.

(** The files a command leaves when it runs to its end within the
    budget. *)
Definition run_files (E : env) (cmd : list string) : list string :=
  match proc E cmd with
  | RunRaises _ _ => []
  | Runs wall _ _ _ creates =>
      if negb (Qle_bool wall 300) then [] else creates
  end.

(** The world a subprocess runner leaves: nothing printed, nothing
    removed, one invocation logged. *)
Definition after_run (E : env) (cmd : list string) (present : bool) (w : world) : world :=
  if present
  then World (list_to_set (run_files E cmd) ∪ fs w) (out w) (log w ++ run_events E cmd)
  else w.

(** ** The version check *)

Definition version_cmd : list string := ["php"; "--version"].

(** The version string the check reads from the output of
    [php --version]: the second word of the first line. *)
Definition version_word (so : string) : option string :=
  match split_ws (hd "" (split_on "010" so "")) "" with
  | _ :: v :: _ => Some v
  | _ => None
  end.

(** The test [major > 8 or (major == 8 and minor >= 3)]. *)
Definition php_accepted (major minor : Z) : bool :=
  (major >? 8) || ((major =? 8) && (minor >=? 3)).

(** ** The build *)

(** The world after the Go source is written and the build has run. *)
Definition after_build (E : env) (w : world) : world :=
  match proc E build_cmd with
  | RunRaises _ _ =>
      World ({[go_file]} ∪ fs w) (out w) (log w ++ [Invoke build_cmd])
  | Runs _ _ _ _ creates =>
      World (list_to_set creates ∪ ({[go_file]} ∪ fs w)) (out w)
            (log w ++ [Invoke build_cmd])
  end.

(** The lines a failed build ends the first script with. *)
Definition build_failure_lines (se : string) : list string :=
  ["Building Go parser benchmark binary..." +:+ nl;
   ("ERROR: Failed to build Go parser: " +:+ se) +:+ nl;
   "ERROR: Failed to build Go parser. Exiting." +:+ nl].

(** ** The summary *)

(** The duration a result contributes to the averages: its
    [duration_ms] when it succeeded, nothing when it failed. *)
Definition measured (E : env) (r : pyval) : list pyval :=
  if succeeded E r
  then match getitem E r "duration_ms" with
       | Ok t => [t]
       | Raise _ => []
       end
  else [].

(** ** The set-up of the PHP side *)

Definition composer_cmd : list string := ["composer"; "install"; "--no-dev"].

(** ** Further scenarios *)

(** Every child exits 1 after printing a failure on standard output and
    nothing on standard error. *)
Definition env_exit_one : env :=
  Env (λ _, Runs 1 1 silent_failure_text "" [])
      (λ s, if String.eqb s silent_failure_text then inr silent_failure
            else inl ("Expecting value", 0%nat))
      (λ _, ParseRaises "RuntimeError" "unused")
      (λ _, 10240) repr_stub.

(** PHP 9.0.1 is installed. *)
Definition php9_banner : string :=
  "PHP 9.0.1 (cli) (built: Jan  1 2030 10:00:00) (NTS)" +:+ nl
    +:+ "Copyright (c) The PHP Group" +:+ nl.

Definition env_php9 : env :=
  Env (λ cmd, match cmd with
              | ["php"; "--version"] => Runs (1 # 10) 0 php9_banner "" []
              | _ => Runs (1 # 100) 0 go_success_text "" []
              end)
      (λ s, if String.eqb s go_success_text then inr go_success
            else inl ("Expecting value", 0%nat))
      (λ _, ParseRaises "RuntimeError" "unused")
      (λ _, 10240) repr_stub.

(** A successful result that has [individuals] and no [families]. *)
Definition half_counted : gmap string pyval :=
  dict_of [("success", PBool true); ("duration_ms", PFloat 5);
           ("duration_ns", PInt 5000000); ("error", PStr "");
           ("individuals", PInt 3)].

(** ** The drivers the scripts write *)

(** What a child leaves behind: its exit code, the value it encoded on
    standard output, if any, and what it wrote on standard error. *)
Record child := Child {
  exit_code : Z;
  echoed : option pyval;
  complaint : string;
}.

(** *** The Go driver, the program text in [build_go_parser] *)

(** [p.Parse(filePath)]: an error with its message, or a tree, with the
    numbers of individuals, families and parser errors read after it. *)
Inductive go_parse :=
| GoErr (message : string)
| GoTree (individuals families errors : nat).

Record go_host := GoHost {
  go_Parse : string → go_parse;
  go_Since : string → Z;    (* [time.Since(start)], in nanoseconds *)
}.

(** [main] of the driver started as [prog argv...]. *)
Definition go_driver (H : go_host) (prog : string) (argv : list string) : child :=
  match argv with
  | [] => Child 1 None ("Usage: " +:+ prog +:+ " <gedcom_file>" +:+ nl)
  | filePath :: _ =>
      let parsed := go_Parse H filePath in
      let duration := go_Since H filePath in
      let result :=
        dict_of [("success", PBool (match parsed with
                                    | GoErr _ => false
                                    | GoTree _ _ _ => true
                                    end));
                 ("duration_ms", PFloat (inject_Z duration / 1000000000 * 1000));
                 ("duration_ns", PInt duration);
                 ("error", PStr "")] in
      let result :=
        match parsed with
        | GoErr message => <["error" := PStr message]> result
        | GoTree individuals families errors =>
            <["errors" := PInt (Z.of_nat errors)]>
              (<["families" := PInt (Z.of_nat families)]>
                 (<["individuals" := PInt (Z.of_nat individuals)]> result))
        end in
      Child 0 (Some (PDict result)) ""
  end.

(** The driver as [benchmark_go_parser] starts it. *)
Definition go_child (H : go_host) (file_path : string) : child :=
  go_driver H GO_PARSER_BINARY [file_path].

(** *** The PHP driver, the program text in [create_php_benchmark_script] *)

(** What happens in the [try] block: an [Exception] is thrown, the
    parser returns [null], or it returns a Gedcom object; with the two
    clocks read before and after the parse. *)
Inductive php_parse :=
| PhpThrows (message : string)
| PhpNull (startTime endTime : Q) (startNano endNano : Z)
| PhpGedcom (startTime endTime : Q) (startNano endNano : Z)
            (individuals families : nat).

Record php_host := PhpHost {
  PHP_VERSION : string;
  version_below_8_3 : bool;     (* [version_compare(PHP_VERSION, '8.3.0', '<')] *)
  autoloader_exists : bool;     (* [file_exists($autoloader)] *)
  php_parse_file : string → php_parse;
}.

(** The array every failure branch of the driver encodes. *)
Definition php_failure (error : string) (duration_ms duration_ns : pyval) : pyval :=
  PDict (dict_of [("success", PBool false); ("error", PStr error);
                  ("duration_ms", duration_ms); ("duration_ns", duration_ns)]).

(** The script run with [$argv]. *)
Definition php_driver (H : php_host) (argv : list string) : child :=
  if version_below_8_3 H
  then Child 1 (Some (php_failure ("PHP 8.3+ required. Current version: "
                                     +:+ PHP_VERSION H) (PInt 0) (PInt 0))) ""
  else if negb (autoloader_exists H)
  then Child 1 (Some (php_failure
                        "php-gedcom not installed. Run: cd /apps/php-gedcom && composer install"
                        (PInt 0) (PInt 0))) ""
  else
    match argv with
    | _ :: filePath :: _ =>
        match php_parse_file H filePath with
        | PhpThrows message =>
            Child 1 (Some (php_failure message (PInt 0) (PInt 0))) ""
        | PhpNull startTime endTime startNano endNano =>
            Child 1 (Some (php_failure "Parser returned null"
                             (PFloat ((endTime - startTime) * 1000))
                             (PInt (endNano - startNano)))) ""
        | PhpGedcom startTime endTime startNano endNano individuals families =>
            Child 0 (Some (PDict (dict_of
                       [("success", PBool true);
                        ("duration_ms", PFloat ((endTime - startTime) * 1000));
                        ("duration_ns", PInt (endNano - startNano));
                        ("individuals", PInt (Z.of_nat individuals));
                        ("families", PInt (Z.of_nat families));
                        ("errors", PInt 0)]))) ""
        end
    | _ => Child 1 (Some (php_failure "Usage: php benchmark.php <gedcom_file>"
                            (PInt 0) (PInt 0))) ""
    end.

(** The driver as [benchmark_php_parser] starts it. *)
Definition php_child (H : php_host) (file_path : string) : child :=
  php_driver H [parser_benchmark_php.PHP_BENCHMARK_SCRIPT; file_path].

(** The PHP parser throws on every file. *)
Definition php_host_throws : php_host :=
  PhpHost "8.3.2" false true (λ _, PhpThrows "Unable to open file").

(** The child behaves as the PHP driver does under [php_host_throws]. *)
Definition env_php_throws : env :=
  Env (λ cmd, match cmd with
              | "php" :: _ :: file_path :: _ =>
                  Runs (1 # 100) (exit_code (php_child php_host_throws file_path))
                       "{...}" (complaint (php_child php_host_throws file_path)) []
              | _ => Runs (1 # 100) 0 go_success_text "" []
              end)
      (λ s, if String.eqb s go_success_text then inr go_success
            else inl ("Expecting value", 0%nat))
      (λ _, ParseRaises "RuntimeError" "unused")
      (λ _, 10240) repr_stub.

(** The Go parser rejects every file after 2 ms. *)
Definition go_host_rejects : go_host :=
  GoHost (λ _, GoErr "invalid GEDCOM line") (λ _, 2000000).

Definition go_rejection : pyval :=
  PDict (dict_of [("success", PBool false); ("duration_ms", PInt 2);
                  ("duration_ns", PInt 2000000);
                  ("error", PStr "invalid GEDCOM line")]).

(** The child behaves as the Go driver does under [go_host_rejects]. *)
Definition env_go_rejects : env :=
  Env (λ cmd, Runs (1 # 100) (exit_code (go_child go_host_rejects (nth 1 cmd "")))
                   "{...}" "" [])
      (λ _, inr go_rejection)
      (λ _, ParseRaises "RuntimeError" "unused")
      (λ _, 10240) repr_stub.

(** ** The calls of the measurement loop *)

(** [m] runs nothing and touches no file, however it ends. *)
Definition quiet {A} (m : M A) : Prop :=
  ∀ w, fs (m w).2 = fs w ∧ log (m w).2 = log w.

(** What the first script runs for one file, and what the second. *)
Definition python_and_go (E : env) (f : string * string) : list event :=
  ParseFile f.2 :: run_events E (go_cmd f.2).

Definition go_and_php (E : env) (php_available : bool) (f : string * string)
    : list event :=
  (run_events E (go_cmd f.2)
     ++ (if php_available then run_events E (php_cmd f.2) else []))%list.

(** ** What the progress line can print *)

(** A result the progress line can print: a dict with [success], with a
    numeric [duration_ms] when [success] is true and with [error] when
    it is not. *)
Definition printable (r : pyval) : Prop :=
  ∃ m s, r = PDict m ∧ m !! "success" = Some s
         ∧ if truthy s
           then ∃ t q, m !! "duration_ms" = Some t ∧ py_num t = Some q
           else is_Some (m !! "error").

(** ** How the scripts end *)

(** [m] does not end by [sys.exit]. *)
Definition never_exits {A} (m : M A) : Prop :=
  ∀ w c w', m w ≠ (Raise (SystemExit c), w').

(** A result that is a value or an exception. *)
Definition no_exit {A} (r : result A) : Prop := ∀ c, r ≠ Raise (SystemExit c).

(** The line either script prints before [sys.exit(1)] at a failed build. *)
Definition build_failed_line : string :=
  "ERROR: Failed to build Go parser. Exiting." +:+ nl.

(** * Properties *)

(** ** The model on Scenario 1 of the specification

    Both parsers succeed, in 5 ms and in 10 ms. *)

Example scenario_1_formats :
  format_duration (PFloat 5) = Ok "5.00 ms"
  ∧ format_duration (PFloat 10) = Ok "10.00 ms"
  ∧ format_speedup (PFloat 5) (PFloat 10) = Ok "2.00x"
  ∧ format_duration (PFloat (1 # 4)) = Ok "250.00 μs"
  ∧ format_duration (PInt 1500) = Ok "1.50 s".
Proof. repeat split; reflexivity. Qed.

(** ** Stepping through computations *)

Lemma bind_ok {A B} (m : M A) (f : A → M B) w a w1 :
  m w = (Ok a, w1) → (m ≫= f) w = f a w1.
Proof. intros H. unfold mbind, M_bind. by rewrite H. Qed.

Lemma bind_raise {A B} (m : M A) (f : A → M B) w s w1 :
  m w = (Raise s, w1) → (m ≫= f) w = (Raise s, w1).
Proof. intros H. unfold mbind, M_bind. by rewrite H. Qed.

Lemma bind_inv {A B} (m : M A) (f : A → M B) w r w' :
  (m ≫= f) w = (r, w') →
  (∃ a w1, m w = (Ok a, w1) ∧ f a w1 = (r, w')) ∨ (∃ s, m w = (Raise s, w') ∧ r = Raise s).
Proof.
  unfold mbind, M_bind. destruct (m w) as [[a|s] w1]; intros H.
  - left. eauto.
  - right. inversion H; subst. eauto.
Qed.

(** ** The runners, case by case *)

Lemma for_each_write_file creates w :
  for_each write_file creates w = (Ok tt, with_files creates w).
Proof.
  revert w. induction creates as [|p l IH]; intros [f o g]; cbn.
  - unfold with_files; cbn. do 2 f_equal. set_solver.
  - unfold mbind, M_bind, write_file; cbn. rewrite IH. unfold with_files; cbn.
    do 2 f_equal. set_solver.
Qed.

(** What [subprocess.run] does, by the behaviour of the command. *)
Lemma subprocess_run_cases E cmd timeout w :
  subprocess_run E cmd timeout w =
    match proc E cmd with
    | RunRaises cls msg => (Raise (Exc (Raised cls msg)), logged [Invoke cmd] w)
    | Runs wall rc so se creates =>
        if match timeout with Some t => negb (Qle_bool wall t) | None => false end
        then (Raise (Exc TimeoutExpired), logged [Invoke cmd; Kill cmd] w)
        else (Ok (Completed rc so se), with_files creates (logged [Invoke cmd] w))
    end.
Proof.
  unfold subprocess_run. unfold mbind at 1. unfold M_bind, emit; cbn.
  destruct (proc E cmd) as [cls msg|wall rc so se creates]; [done|].
  destruct (match timeout with Some t => _ | None => _ end).
  - unfold mbind, M_bind, emit, raise, logged; cbn. by rewrite <- app_assoc.
  - unfold mbind, M_bind. rewrite for_each_write_file. done.
Qed.

Lemma benchmark_go_parser_cases E file_path w :
  benchmark_go_parser E file_path w =
    runner_cases E [GO_PARSER_BINARY; file_path] "Go parser binary not found"
      (λ msg doc pos, "JSON decode error: " +:+ exn_str (JSONDecodeError msg doc pos))
      (bool_decide (GO_PARSER_BINARY ∈ fs w)) w.
Proof.
  unfold benchmark_go_parser, runner_cases.
  unfold mbind at 1. unfold M_bind, path_exists.
  destruct (bool_decide _); [|done]. cbn [negb].
  unfold try_except, mbind, M_bind. rewrite subprocess_run_cases.
  destruct (proc E _) as [cls msg|wall rc so se creates]; [reflexivity|].
  destruct (negb (Qle_bool wall 300)); [reflexivity|].
  cbn [returncode stdout stderr].
  destruct (negb (rc =? 0)); [reflexivity|].
  unfold loads. destruct (json_loads E so) as [[msg pos]|v]; reflexivity.
Qed.

Lemma benchmark_php_parser_cases E file_path w :
  parser_benchmark_php.benchmark_php_parser E file_path w =
    runner_cases E ["php"; parser_benchmark_php.PHP_BENCHMARK_SCRIPT; file_path]
      "PHP benchmark script not found"
      (λ msg doc pos, "JSON decode error: " +:+ exn_str (JSONDecodeError msg doc pos)
                        +:+ ". Output: " +:+ substring 0 200 doc)
      (bool_decide (parser_benchmark_php.PHP_BENCHMARK_SCRIPT ∈ fs w)) w.
Proof.
  unfold parser_benchmark_php.benchmark_php_parser, runner_cases.
  unfold mbind at 1. unfold M_bind, path_exists.
  destruct (bool_decide _); [|done]. cbn [negb].
  unfold try_except, mbind, M_bind. rewrite subprocess_run_cases.
  destruct (proc E _) as [cls msg|wall rc so se creates]; [reflexivity|].
  destruct (negb (Qle_bool wall 300)); [reflexivity|].
  cbn [returncode stdout stderr].
  destruct (negb (rc =? 0)); [reflexivity|].
  unfold loads. destruct (json_loads E so) as [[msg pos]|v]; reflexivity.
Qed.

Lemma benchmark_python_parser_cases E file_path w :
  parser_benchmark.benchmark_python_parser E file_path w =
    match python_gedcom E file_path with
    | ParseRaises cls msg => (Ok (failure_result msg), logged [ParseFile file_path] w)
    | Parsed start stop element_list =>
        let duration := ((stop - start) * 1000)%Q in
        (Ok (PDict (dict_of
           [("success", PBool true);
            ("duration_ms", PFloat duration);
            ("duration_ns", PInt (py_int_of_float (duration * 1000000)));
            ("individuals", PInt (Z.of_nat (length (List.filter is_individual element_list))));
            ("families", PInt (Z.of_nat (length (List.filter is_family element_list))));
            ("total_elements", PInt (Z.of_nat (length element_list)));
            ("error", PNone)])),
         logged [ParseFile file_path] w)
    end.
Proof.
  unfold parser_benchmark.benchmark_python_parser, try_except, mbind, M_bind, emit; cbn.
  destruct (python_gedcom E file_path); reflexivity.
Qed.

(** ** Results of the runners *)

Lemma failure_result_fields error :
  field (failure_result error) "success" = Some (PBool false)
  ∧ field (failure_result error) "duration_ms" = Some (PInt 0)
  ∧ field (failure_result error) "duration_ns" = Some (PInt 0)
  ∧ field (failure_result error) "error" = Some (PStr error)
  ∧ field (failure_result error) "individuals" = None
  ∧ field (failure_result error) "families" = None.
Proof. repeat split; reflexivity. Qed.

Lemma str_or_nonempty a b : b ≠ "" → str_or a b ≠ "".
Proof.
  unfold str_or. destruct (String.eqb a "") eqn:Ha; [done|].
  intros _ ->. by rewrite String.eqb_refl in Ha.
Qed.

Lemma over_budget wall : (300 < wall)%Q → negb (Qle_bool wall 300) = true.
Proof.
  intros H. destruct (Qle_bool wall 300) eqn:Hle; [|done].
  apply Qle_bool_iff in Hle. exfalso. by apply (Qlt_not_le _ _ H).
Qed.

(** A subprocess runner returns what was decoded, or a failure dict
    whose message is empty only when [subprocess.run] raised an
    exception with an empty [str]. *)
Lemma runner_cases_result E cmd missing decode_error present w r w' :
  missing ≠ "" →
  (∀ msg doc pos, decode_error msg doc pos ≠ "") →
  runner_cases E cmd missing decode_error present w = (Ok r, w') →
  decoded_from E cmd r
  ∨ ∃ error, r = failure_result error
             ∧ (error = "" → ∃ cls, proc E cmd = RunRaises cls "").
Proof.
  intros Hm Hd. unfold runner_cases.
  destruct present; [|intros [= <- <-]; right; eexists; split; [done|done]].
  destruct (proc E cmd) as [cls msg|wall rc so se creates] eqn:Hp.
  { intros [= <- <-]. right. eexists; split; [done|]. intros ->. eauto. }
  destruct (negb (Qle_bool wall 300)).
  { intros [= <- <-]. right. eexists; split; [done|done]. }
  destruct (rc =? 0) eqn:Hrc; cbn [negb].
  - apply Z.eqb_eq in Hrc as ->.
    destruct (json_loads E so) as [[msg pos]|v] eqn:Hj; intros [= <- <-].
    + right. eexists; split; [done|]. intros H. by apply Hd in H.
    + left. by exists wall, so, se, creates.
  - intros [= <- <-]. right. eexists; split; [done|].
    intros H. by apply str_or_nonempty in H.
Qed.

Lemma runner_cases_total E cmd missing decode_error present w :
  ∃ r w', runner_cases E cmd missing decode_error present w = (Ok r, w').
Proof.
  unfold runner_cases. destruct present; [|eauto].
  destruct (proc E cmd) as [cls msg|wall rc so se creates]; [eauto|].
  destruct (negb (Qle_bool wall 300)); [eauto|].
  destruct (negb (rc =? 0)); [eauto|].
  destruct (json_loads E so) as [[msg pos]|v]; eauto.
Qed.

(** ** Timeouts and faults of the subprocess runners *)

(** C7.  A runner whose child runs past the 300-second budget has the
    child killed and returns the failure dict whose [error] is exactly
    ["Timeout (exceeded 5 minutes)"]; the command is invoked once, and
    not again.  This holds for the Go runner and for the PHP runner. *)
Theorem timeout_is_recorded_once (E : env) (file_path : string) (w : world)
    (wall : Q) (rc : Z) (so se : string) (creates : list string) :
  (300 < wall)%Q →
  (GO_PARSER_BINARY ∈ fs w →
   proc E (go_cmd file_path) = Runs wall rc so se creates →
   benchmark_go_parser E file_path w =
     (Ok (failure_result "Timeout (exceeded 5 minutes)"),
      logged [Invoke (go_cmd file_path); Kill (go_cmd file_path)] w))
  ∧ (parser_benchmark_php.PHP_BENCHMARK_SCRIPT ∈ fs w →
     proc E (php_cmd file_path) = Runs wall rc so se creates →
     parser_benchmark_php.benchmark_php_parser E file_path w =
       (Ok (failure_result "Timeout (exceeded 5 minutes)"),
        logged [Invoke (php_cmd file_path); Kill (php_cmd file_path)] w))
  ∧ field (failure_result "Timeout (exceeded 5 minutes)") "success" = Some (PBool false)
  ∧ field (failure_result "Timeout (exceeded 5 minutes)") "error"
      = Some (PStr "Timeout (exceeded 5 minutes)").
Proof.
  intros Hwall. split; [|split; [|split; reflexivity]].
  - intros Hin Hp. rewrite benchmark_go_parser_cases. unfold runner_cases.
    rewrite bool_decide_eq_true_2 by done.
    unfold go_cmd in Hp. rewrite Hp. by rewrite over_budget.
  - intros Hin Hp. rewrite benchmark_php_parser_cases. unfold runner_cases.
    rewrite bool_decide_eq_true_2 by done.
    unfold php_cmd in Hp. rewrite Hp. by rewrite over_budget.
Qed.

(** C8.  The subprocess runners are total and never raise: for every
    environment, file path and world each returns a dict.  When the
    binary or script is missing the dict is the failure dict with the
    fixed message, and when [subprocess.run] raises any [Exception]
    (a missing runtime included) it is the failure dict whose [error]
    is the text of the exception. *)
Theorem runner_faults_are_results (E : env) (file_path : string) (w : world) :
  (∃ r w', benchmark_go_parser E file_path w = (Ok r, w'))
  ∧ (∃ r w', parser_benchmark_php.benchmark_php_parser E file_path w = (Ok r, w'))
  ∧ (GO_PARSER_BINARY ∉ fs w →
     benchmark_go_parser E file_path w
       = (Ok (failure_result "Go parser binary not found"), w))
  ∧ (parser_benchmark_php.PHP_BENCHMARK_SCRIPT ∉ fs w →
     parser_benchmark_php.benchmark_php_parser E file_path w
       = (Ok (failure_result "PHP benchmark script not found"), w))
  ∧ (∀ cls msg, GO_PARSER_BINARY ∈ fs w →
     proc E (go_cmd file_path) = RunRaises cls msg →
     benchmark_go_parser E file_path w
       = (Ok (failure_result msg), logged [Invoke (go_cmd file_path)] w))
  ∧ (∀ cls msg, parser_benchmark_php.PHP_BENCHMARK_SCRIPT ∈ fs w →
     proc E (php_cmd file_path) = RunRaises cls msg →
     parser_benchmark_php.benchmark_php_parser E file_path w
       = (Ok (failure_result msg), logged [Invoke (php_cmd file_path)] w)).
Proof.
  rewrite benchmark_go_parser_cases, benchmark_php_parser_cases.
  repeat split.
  - apply runner_cases_total.
  - apply runner_cases_total.
  - intros H. unfold runner_cases. by rewrite bool_decide_eq_false_2.
  - intros H. unfold runner_cases. by rewrite bool_decide_eq_false_2.
  - intros cls msg H Hp. unfold runner_cases. rewrite bool_decide_eq_true_2 by done.
    unfold go_cmd in Hp. by rewrite Hp.
  - intros cls msg H Hp. unfold runner_cases. rewrite bool_decide_eq_true_2 by done.
    unfold php_cmd in Hp. by rewrite Hp.
Qed.

(** C10.  Every failure dict built by a handler of the harness carries
    [duration_ms == 0] and [duration_ns == 0]: a failure returned by the
    in-process runner has both at zero, and what a subprocess runner
    returns is either what it decoded from the child's output or a
    failure dict of its own, which has both at zero. *)
Theorem handler_failures_have_zero_durations (E : env) (file_path : string)
    (w w' : world) (r : pyval) :
  (parser_benchmark.benchmark_python_parser E file_path w = (Ok r, w') →
   field r "success" = Some (PBool false) →
   field r "duration_ms" = Some (PInt 0) ∧ field r "duration_ns" = Some (PInt 0))
  ∧ (benchmark_go_parser E file_path w = (Ok r, w') →
     decoded_from E (go_cmd file_path) r
     ∨ field r "success" = Some (PBool false)
       ∧ field r "duration_ms" = Some (PInt 0) ∧ field r "duration_ns" = Some (PInt 0))
  ∧ (parser_benchmark_php.benchmark_php_parser E file_path w = (Ok r, w') →
     decoded_from E (php_cmd file_path) r
     ∨ field r "success" = Some (PBool false)
       ∧ field r "duration_ms" = Some (PInt 0) ∧ field r "duration_ns" = Some (PInt 0)).
Proof.
  split; [|split].
  - rewrite benchmark_python_parser_cases.
    destruct (python_gedcom E file_path) as [cls msg|t0 t1 els].
    + intros [= <- <-] _. split; reflexivity.
    + cbv zeta. intros [= <- <-] H. vm_compute in H. discriminate.
  - rewrite benchmark_go_parser_cases. intros H.
    apply runner_cases_result in H as [H|(error & -> & _)]; [by left|right|done|].
    + repeat split; reflexivity.
    + intros msg doc pos. discriminate.
  - rewrite benchmark_php_parser_cases. intros H.
    apply runner_cases_result in H as [H|(error & -> & _)]; [by left|right|done|].
    + repeat split; reflexivity.
    + intros msg doc pos. discriminate.
Qed.

(** ** The scenarios' worlds *)

Lemma in_ready_go : GO_PARSER_BINARY ∈ fs ready.
Proof. apply (bool_decide_unpack _). vm_compute. exact I. Qed.

Lemma in_ready_php : parser_benchmark_php.PHP_BENCHMARK_SCRIPT ∈ fs ready.
Proof. apply (bool_decide_unpack _). vm_compute. exact I. Qed.

Lemma not_in_fresh_go : GO_PARSER_BINARY ∉ fs fresh.
Proof. intros H. apply (bool_decide_pack _) in H. vm_compute in H. exact H. Qed.

Lemma not_in_fresh_php : parser_benchmark_php.PHP_BENCHMARK_SCRIPT ∉ fs fresh.
Proof. intros H. apply (bool_decide_pack _) in H. vm_compute in H. exact H. Qed.

(** C7 at a child that runs for 301 seconds. *)
Lemma timeout_is_recorded_once_witness :
  (300 < 301)%Q
  ∧ benchmark_go_parser env_slow xavier ready =
      (Ok (failure_result "Timeout (exceeded 5 minutes)"),
       logged [Invoke (go_cmd xavier); Kill (go_cmd xavier)] ready)
  ∧ parser_benchmark_php.benchmark_php_parser env_slow xavier ready =
      (Ok (failure_result "Timeout (exceeded 5 minutes)"),
       logged [Invoke (php_cmd xavier); Kill (php_cmd xavier)] ready).
Proof.
  assert (Hw : (300 < 301)%Q) by reflexivity.
  split; [exact Hw|].
  destruct (timeout_is_recorded_once env_slow xavier ready 301 0 "" "" [] Hw)
    as (Hgo & Hphp & _).
  split.
  - apply Hgo; [exact in_ready_go | reflexivity].
  - apply Hphp; [exact in_ready_php | reflexivity].
Defined.

(** C8 where nothing can be started, and where nothing was built. *)
Lemma runner_faults_are_results_witness :
  benchmark_go_parser env_no_runtime xavier fresh
    = (Ok (failure_result "Go parser binary not found"), fresh)
  ∧ parser_benchmark_php.benchmark_php_parser env_no_runtime xavier ready
    = (Ok (failure_result "[Errno 2] No such file or directory: 'php'"),
       logged [Invoke (php_cmd xavier)] ready).
Proof.
  split.
  - destruct (runner_faults_are_results env_no_runtime xavier fresh)
      as (_ & _ & H & _).
    apply H. exact not_in_fresh_go.
  - destruct (runner_faults_are_results env_no_runtime xavier ready)
      as (_ & _ & _ & _ & _ & H).
    apply (H "FileNotFoundError"); [exact in_ready_php | reflexivity].
Defined.

(** C10 at a timeout and at a parser exception. *)
Lemma handler_failures_have_zero_durations_witness :
  field (failure_result "Timeout (exceeded 5 minutes)") "duration_ms" = Some (PInt 0)
  ∧ field (failure_result "unused") "duration_ns" = Some (PInt 0).
Proof.
  split.
  - destruct (handler_failures_have_zero_durations env_slow xavier ready
                (logged [Invoke (go_cmd xavier); Kill (go_cmd xavier)] ready)
                (failure_result "Timeout (exceeded 5 minutes)")) as (_ & H & _).
    destruct H as [(wall & so & se & cr & H1 & H2)|(_ & H & _)].
    + vm_compute. reflexivity.
    + vm_compute in H2. discriminate H2.
    + exact H.
  - destruct (handler_failures_have_zero_durations env_slow xavier ready
                (logged [ParseFile xavier] ready)
                (failure_result "unused")) as (H & _).
    apply H; vm_compute; reflexivity.
Defined.

(** ** The speedup column *)

Lemma suffix_x_not_na s : s +:+ "x" ≠ "N/A".
Proof.
  destruct s as [|a [|b [|c [|d s]]]]; cbn; intros H; try discriminate H.
  all: by injection H.
Qed.

(** C2, against the claim: a zero numerator over a positive denominator
    is formatted as a ratio, not reported as ["N/A"]. *)
Lemma zero_numerator_is_a_ratio :
  format_speedup (PFloat 5) (PFloat 0) = Ok "0.00x"
  ∧ format_speedup (PFloat 5) (PInt 0) = Ok "0.00x"
  ∧ format_speedup (PFloat 5) (PFloat 0) ≠ Ok "N/A".
Proof. split; [reflexivity|]. split; [reflexivity|]. discriminate. Qed.

Lemma summary_cell_pure E r times w :
  ∃ x, summary_cell E r times w = (x, w)
       ∧ (∀ v, x = Ok v → succeeded E r = false → v = (times, "ERROR", PNone)).
Proof.
  unfold summary_cell, succeeded, mbind, M_bind, lift.
  destruct (getitem E r "success") as [ok|s]; [|by eexists].
  destruct (truthy ok).
  - destruct (getitem E r "duration_ms") as [t|s]; [|by eexists].
    destruct (py_format_f 2 t) as [s|s]; by eexists.
  - eexists. split; [reflexivity|]. by intros v [= <-].
Qed.

Lemma both_succeeded_pure E a b w :
  ∃ x, both_succeeded E a b w = (x, w)
       ∧ match x with
         | Ok both => both = succeeded E a && succeeded E b
         | Raise _ => True
         end.
Proof.
  unfold both_succeeded, succeeded, mbind, M_bind, lift.
  destruct (getitem E a "success") as [sa|s]; [|by eexists].
  destruct (truthy sa); [|by eexists].
  destruct (getitem E b "success") as [sb|s]; by eexists.
Qed.

(** A summary row of the first script, when a result of the file failed. *)
Lemma python_summary_row_failed E times rec w t w' :
  parser_benchmark.summary_row E times rec w = (Ok t, w') →
  succeeded E (parser_benchmark.python rec) && succeeded E (parser_benchmark.go rec) = false →
  ∃ python_str go_str,
    w' = World (fs w)
           (out w ++ [table_row (parser_benchmark.filename rec)
                        (parser_benchmark.file_size rec) python_str go_str "N/A" +:+ nl])
           (log w)
    ∧ (succeeded E (parser_benchmark.python rec) = false → python_str = "ERROR")
    ∧ (succeeded E (parser_benchmark.go rec) = false → go_str = "ERROR").
Proof.
  unfold parser_benchmark.summary_row. destruct times as [pt gt]. intros H Hs.
  apply bind_inv in H as [(x & w1 & H1 & H)|(s & _ & [=])].
  destruct (summary_cell_pure E (parser_benchmark.python rec) pt w) as (x1 & Hx1 & Hp).
  rewrite Hx1 in H1. injection H1 as -> <-. destruct x as [[pt' c1] ptime].
  apply bind_inv in H as [(x & w1 & H1 & H)|(s & _ & [=])].
  destruct (summary_cell_pure E (parser_benchmark.go rec) gt w) as (x2 & Hx2 & Hg).
  rewrite Hx2 in H1. injection H1 as -> <-. destruct x as [[gt' c2] gtime].
  apply bind_inv in H as [(both & w1 & H1 & H)|(s & _ & [=])].
  destruct (both_succeeded_pure E (parser_benchmark.python rec)
              (parser_benchmark.go rec) w) as (x3 & Hx3 & Hb).
  rewrite Hx3 in H1. injection H1 as -> <-. cbn in Hb. rewrite Hs in Hb. subst both.
  cbn in H. injection H as _ <-. exists c1, c2. split; [reflexivity|].
  split; intros Hf.
  - by specialize (Hp _ eq_refl Hf) as [= _ -> _].
  - by specialize (Hg _ eq_refl Hf) as [= _ -> _].
Qed.

(** A summary row of the second script, when a result of the file failed. *)
Lemma php_summary_row_failed E times rec w t w' :
  parser_benchmark_php.summary_row E times rec w = (Ok t, w') →
  succeeded E (parser_benchmark_php.go rec) && succeeded E (parser_benchmark_php.php rec)
    = false →
  ∃ go_str php_str,
    w' = World (fs w)
           (out w ++ [table_row (parser_benchmark_php.filename rec)
                        (parser_benchmark_php.file_size rec) go_str php_str "N/A" +:+ nl])
           (log w)
    ∧ (succeeded E (parser_benchmark_php.go rec) = false → go_str = "ERROR")
    ∧ (succeeded E (parser_benchmark_php.php rec) = false → php_str = "ERROR").
Proof.
  unfold parser_benchmark_php.summary_row. destruct times as [gt pt]. intros H Hs.
  apply bind_inv in H as [(x & w1 & H1 & H)|(s & _ & [=])].
  destruct (summary_cell_pure E (parser_benchmark_php.go rec) gt w) as (x1 & Hx1 & Hg).
  rewrite Hx1 in H1. injection H1 as -> <-. destruct x as [[gt' c1] gtime].
  apply bind_inv in H as [(x & w1 & H1 & H)|(s & _ & [=])].
  destruct (summary_cell_pure E (parser_benchmark_php.php rec) pt w) as (x2 & Hx2 & Hp).
  rewrite Hx2 in H1. injection H1 as -> <-. destruct x as [[pt' c2] ptime].
  apply bind_inv in H as [(both & w1 & H1 & H)|(s & _ & [=])].
  destruct (both_succeeded_pure E (parser_benchmark_php.go rec)
              (parser_benchmark_php.php rec) w) as (x3 & Hx3 & Hb).
  rewrite Hx3 in H1. injection H1 as -> <-. cbn in Hb. rewrite Hs in Hb. subst both.
  cbn in H. injection H as _ <-. exists c1, c2. split; [reflexivity|].
  split; intros Hf.
  - by specialize (Hg _ eq_refl Hf) as [= _ -> _].
  - by specialize (Hp _ eq_refl Hf) as [= _ -> _].
Qed.

(** C2, as the code has it.  [format_speedup] reports ["N/A"] exactly
    on a zero denominator (its first argument): a zero denominator gives
    ["N/A"] whatever the numerator, and a non-zero denominator gives the
    ratio to two decimals followed by [x], which is ["0.00x"] for a zero
    numerator and never ["N/A"].  In the summary table of either script
    the speedup column is ["N/A"] when a result of the file failed. *)
Theorem speedup_na_on_zero_denominator_or_failure :
  (∀ go_time python_time,
     py_eq_zero go_time = true → format_speedup go_time python_time = Ok "N/A")
  ∧ (∀ g p : Q, ¬ (g == 0)%Q →
       format_speedup (PFloat g) (PFloat p) = Ok (format_f 2 (p / g) +:+ "x")
       ∧ format_speedup (PFloat g) (PFloat p) ≠ Ok "N/A"
       ∧ format_speedup (PFloat g) (PFloat 0) = Ok "0.00x")
  ∧ (∀ E times rec w t w',
       parser_benchmark.summary_row E times rec w = (Ok t, w') →
       succeeded E (parser_benchmark.python rec) && succeeded E (parser_benchmark.go rec)
         = false →
       ∃ python_str go_str,
         out w' = (out w ++ [table_row (parser_benchmark.filename rec)
                               (parser_benchmark.file_size rec)
                               python_str go_str "N/A" +:+ nl])%list)
  ∧ (∀ E times rec w t w',
       parser_benchmark_php.summary_row E times rec w = (Ok t, w') →
       succeeded E (parser_benchmark_php.go rec)
         && succeeded E (parser_benchmark_php.php rec) = false →
       ∃ go_str php_str,
         out w' = (out w ++ [table_row (parser_benchmark_php.filename rec)
                               (parser_benchmark_php.file_size rec)
                               go_str php_str "N/A" +:+ nl])%list).
Proof.
  split; [|split; [|split]].
  - intros g p H. unfold format_speedup. by rewrite H.
  - intros g p Hg.
    assert (Hz : py_eq_zero (PFloat g) = false).
    { cbn. destruct (Qeq_bool g 0) eqn:H; [|done]. by apply Qeq_bool_iff in H. }
    unfold format_speedup. rewrite Hz. cbn [py_operand py_num mbind result_bind].
    split; [reflexivity|]. split.
    + intros [= H]. by apply suffix_x_not_na in H.
    + destruct g as [gn gd]. destruct gn as [|gn|gn]; reflexivity.
  - intros E times rec w t w' H Hs.
    destruct (python_summary_row_failed _ _ _ _ _ _ H Hs) as (a & b & -> & _).
    by exists a, b.
  - intros E times rec w t w' H Hs.
    destruct (php_summary_row_failed _ _ _ _ _ _ H Hs) as (a & b & -> & _).
    by exists a, b.
Qed.

(** C2 at a zero denominator, at 10 ms over 5 ms, and at rows with a
    failed result. *)
Lemma speedup_na_on_zero_denominator_or_failure_witness :
  format_speedup (PInt 0) (PFloat 7) = Ok "N/A"
  ∧ format_speedup (PFloat 5) (PFloat 10) = Ok "2.00x"
  ∧ (∃ a b, out (parser_benchmark.summary_row env_slow ([], []) row_python_failed ready).2
            = [table_row "xavier.ged" "10.0 KB" a b "N/A" +:+ nl])
  ∧ (∃ a b, out (parser_benchmark_php.summary_row env_slow ([], []) row_php_unavailable
                   ready).2
            = [table_row "xavier.ged" "10.0 KB" a b "N/A" +:+ nl]).
Proof.
  destruct speedup_na_on_zero_denominator_or_failure as (H1 & H2 & H3 & H4).
  split; [apply H1; reflexivity|].
  split.
  { assert (Hne : ¬ (5 == 0)%Q) by (intros H; discriminate H).
    destruct (H2 5%Q 10%Q Hne) as (H & _). exact H. }
  split.
  - apply (H3 env_slow ([], []) row_python_failed ready ([], [PFloat 5])).
    + vm_compute. reflexivity.
    + vm_compute. reflexivity.
  - apply (H4 env_slow ([], []) row_php_unavailable ready ([PFloat 5], [])).
    + vm_compute. reflexivity.
    + vm_compute. reflexivity.
Defined.

(** ** Undecodable output *)

(** What the two runners return when the child exits 0 and its output
    does not decode. *)
Lemma decode_failure_results E file_path w wall so se creates msg pos :
  Qle_bool wall 300 = true →
  json_loads E so = inl (msg, pos) →
  (GO_PARSER_BINARY ∈ fs w →
   proc E (go_cmd file_path) = Runs wall 0 so se creates →
   (benchmark_go_parser E file_path w).1
     = Ok (failure_result ("JSON decode error: " +:+ exn_str (JSONDecodeError msg so pos))))
  ∧ (parser_benchmark_php.PHP_BENCHMARK_SCRIPT ∈ fs w →
     proc E (php_cmd file_path) = Runs wall 0 so se creates →
     (parser_benchmark_php.benchmark_php_parser E file_path w).1
       = Ok (failure_result ("JSON decode error: " +:+ exn_str (JSONDecodeError msg so pos)
                               +:+ ". Output: " +:+ substring 0 200 so))).
Proof.
  intros Hw Hj. split; intros Hin Hp.
  - rewrite benchmark_go_parser_cases. unfold runner_cases.
    rewrite bool_decide_eq_true_2 by done. unfold go_cmd in Hp.
    by rewrite Hp, Hw, Hj.
  - rewrite benchmark_php_parser_cases. unfold runner_cases.
    rewrite bool_decide_eq_true_2 by done. unfold php_cmd in Hp.
    by rewrite Hp, Hw, Hj.
Qed.

(** C3, on the code: when the Go binary exits 0 after printing
    [not json], the Go runner's [error] is the decode diagnostic alone
    and holds no sample of the output, while the PHP runner, on the
    same output, appends the sample. *)
Theorem go_decode_error_has_no_sample :
  benchmark_go_parser env_not_json xavier ready
    = (Ok (failure_result "JSON decode error: Expecting value: line 1 column 1 (char 0)"),
       logged [Invoke (go_cmd xavier)] ready)
  ∧ contains "not json" "JSON decode error: Expecting value: line 1 column 1 (char 0)"
    = false
  ∧ parser_benchmark_php.benchmark_php_parser env_not_json xavier ready
    = (Ok (failure_result
             "JSON decode error: Expecting value: line 1 column 1 (char 0). Output: not json"),
       logged [Invoke (php_cmd xavier)] ready)
  ∧ contains "not json"
      "JSON decode error: Expecting value: line 1 column 1 (char 0). Output: not json"
    = true.
Proof. repeat split; vm_compute; reflexivity. Qed.

(** ** Durations of the in-process runner *)

Lemma py_int_of_float_nonneg q : (0 <= q)%Q → py_int_of_float q = Qfloor q.
Proof.
  destruct q as [n d]. unfold Qle, py_int_of_float, Qfloor; cbn.
  intros H. apply Z.quot_div_nonneg; lia.
Qed.

Lemma py_round_bounds q : Qfloor q <= py_round q <= Qfloor q + 1.
Proof.
  unfold py_round. destruct (Qcompare _ _); [destruct (Z.even _)| |]; lia.
Qed.

Lemma duration_nonneg (t0 t1 : Q) : (t0 <= t1)%Q → (0 <= (t1 - t0) * 1000)%Q.
Proof.
  intros H. apply Qmult_le_0_compat; [|discriminate].
  by apply (proj1 (Qle_minus_iff t0 t1)).
Qed.

(** C5, against the claim: after a parse of 2^-12 seconds (every float
    operation of the runner is exact on these readings) [duration_ns]
    is 244140, while [round(duration_ms * 1_000_000)] is 244141. *)
Lemma python_duration_ns_is_not_rounded :
  ∃ r ms,
    (parser_benchmark.benchmark_python_parser env_clock xavier ready).1 = Ok r
    ∧ field r "success" = Some (PBool true)
    ∧ field r "duration_ms" = Some (PFloat ms)
    ∧ (ms == 250 # 1024)%Q
    ∧ field r "duration_ns" = Some (PInt 244140)
    ∧ py_round (ms * 1000000) = 244141.
Proof.
  eexists. eexists. split; [vm_compute; reflexivity|].
  split; [reflexivity|]. split; [reflexivity|].
  split; [reflexivity|]. split; reflexivity.
Qed.

(** C5, as the code has it.  For every successful result of the
    in-process runner, taken with a clock that does not run backwards,
    [duration_ms >= 0] and [duration_ns] is [duration_ms * 1_000_000]
    truncated to an integer: it is [round(duration_ms * 1_000_000)] or
    one less. *)
Theorem python_duration_ns_is_truncated (E : env) (file_path : string)
    (w w' : world) (r : pyval) :
  (∀ t0 t1 els, python_gedcom E file_path = Parsed t0 t1 els → (t0 <= t1)%Q) →
  parser_benchmark.benchmark_python_parser E file_path w = (Ok r, w') →
  field r "success" = Some (PBool true) →
  ∃ ms ns,
    field r "duration_ms" = Some (PFloat ms)
    ∧ field r "duration_ns" = Some (PInt ns)
    ∧ (0 <= ms)%Q
    ∧ ns = Qfloor (ms * 1000000)
    ∧ py_round (ms * 1000000) - 1 <= ns <= py_round (ms * 1000000).
Proof.
  intros Hclock. rewrite benchmark_python_parser_cases.
  destruct (python_gedcom E file_path) as [cls msg|t0 t1 els] eqn:Hp.
  { intros [= <- <-] H. discriminate H. }
  cbv zeta. intros [= <- <-] _.
  pose proof (duration_nonneg t0 t1 (Hclock _ _ _ eq_refl)) as Hms.
  exists ((t1 - t0) * 1000)%Q, (py_int_of_float ((t1 - t0) * 1000 * 1000000)).
  split; [reflexivity|]. split; [reflexivity|]. split; [exact Hms|].
  assert (Hns : (0 <= (t1 - t0) * 1000 * 1000000)%Q).
  { apply Qmult_le_0_compat; [exact Hms|discriminate]. }
  rewrite (py_int_of_float_nonneg _ Hns). split; [reflexivity|].
  pose proof (py_round_bounds ((t1 - t0) * 1000 * 1000000)). lia.
Qed.

(** C5 at a parse of 2^-12 seconds. *)
Lemma python_duration_ns_is_truncated_witness :
  (∀ t0 t1 els, python_gedcom env_clock xavier = Parsed t0 t1 els → (t0 <= t1)%Q)
  ∧ parser_benchmark.benchmark_python_parser env_clock xavier ready
    = (Ok clock_result, logged [ParseFile xavier] ready)
  ∧ ∃ ms ns,
      field clock_result "duration_ms" = Some (PFloat ms)
      ∧ field clock_result "duration_ns" = Some (PInt ns)
      ∧ (0 <= ms)%Q
      ∧ ns = Qfloor (ms * 1000000)
      ∧ py_round (ms * 1000000) - 1 <= ns <= py_round (ms * 1000000).
Proof.
  assert (Hclock : ∀ t0 t1 els,
            python_gedcom env_clock xavier = Parsed t0 t1 els → (t0 <= t1)%Q).
  { intros t0 t1 els [= <- <- _]. discriminate. }
  assert (Hrun : parser_benchmark.benchmark_python_parser env_clock xavier ready
                 = (Ok clock_result, logged [ParseFile xavier] ready)).
  { vm_compute. reflexivity. }
  split; [exact Hclock|]. split; [exact Hrun|].
  apply (python_duration_ns_is_truncated env_clock xavier ready
           (logged [ParseFile xavier] ready) clock_result Hclock Hrun).
  reflexivity.
Defined.

(** ** The invariant of a Result *)

Lemma failure_result_no_counts error : ¬ has_counts (failure_result error).
Proof. intros [[v H] _]. discriminate H. Qed.

(** C6, against the claim: the Go runner returns whatever the child
    printed, here a failure whose [error] is empty, and the in-process
    runner turns an exception without a message into a failure whose
    [error] is empty. *)
Lemma results_can_break_the_invariant :
  (benchmark_go_parser env_silent xavier ready).1 = Ok silent_failure
  ∧ ¬ result_invariant silent_failure
  ∧ (parser_benchmark.benchmark_python_parser env_silent xavier ready).1
    = Ok (failure_result "")
  ∧ ¬ result_invariant (failure_result "").
Proof.
  split; [vm_compute; reflexivity|]. split.
  { intros (H & _). destruct (H eq_refl) as (s & Hs & Hne).
    apply Hne. by injection Hs as <-. }
  split; [vm_compute; reflexivity|].
  intros (H & _). destruct (H eq_refl) as (s & Hs & Hne).
  apply Hne. by injection Hs as <-.
Qed.

(** C6, as the code has it.  A dict that a runner builds itself is
    consistent: a success of the in-process runner has [error] [None]
    and carries the counts; a failure built by a handler has no counts
    and a string as [error], which can be empty only when the exception
    caught by the catch-all clause has an empty text.  What a subprocess
    runner decodes from the child's output is returned as it is. *)
Theorem runner_built_results_are_consistent (E : env) (file_path : string)
    (w w' : world) (r : pyval) :
  (parser_benchmark.benchmark_python_parser E file_path w = (Ok r, w') →
   (field r "success" = Some (PBool true) ∧ field r "error" = Some PNone ∧ has_counts r)
   ∨ (field r "success" = Some (PBool false) ∧ ¬ has_counts r
      ∧ ∃ cls error, python_gedcom E file_path = ParseRaises cls error
                     ∧ field r "error" = Some (PStr error)))
  ∧ (benchmark_go_parser E file_path w = (Ok r, w') →
     decoded_from E (go_cmd file_path) r
     ∨ (field r "success" = Some (PBool false) ∧ ¬ has_counts r
        ∧ ∃ error, field r "error" = Some (PStr error)
                   ∧ (error = "" → ∃ cls, proc E (go_cmd file_path) = RunRaises cls "")))
  ∧ (parser_benchmark_php.benchmark_php_parser E file_path w = (Ok r, w') →
     decoded_from E (php_cmd file_path) r
     ∨ (field r "success" = Some (PBool false) ∧ ¬ has_counts r
        ∧ ∃ error, field r "error" = Some (PStr error)
                   ∧ (error = "" → ∃ cls, proc E (php_cmd file_path) = RunRaises cls ""))).
Proof.
  split; [|split].
  - rewrite benchmark_python_parser_cases.
    destruct (python_gedcom E file_path) as [cls msg|t0 t1 els].
    + intros [= <- <-]. right. split; [reflexivity|].
      split; [apply failure_result_no_counts|]. by exists cls, msg.
    + cbv zeta. intros [= <- <-]. left. split; [reflexivity|].
      split; [reflexivity|]. split; eexists; reflexivity.
  - rewrite benchmark_go_parser_cases. intros H.
    apply runner_cases_result in H as [H|(error & -> & He)]; [by left|right|done|].
    + split; [reflexivity|]. split; [apply failure_result_no_counts|].
      by exists error.
    + intros msg doc pos. discriminate.
  - rewrite benchmark_php_parser_cases. intros H.
    apply runner_cases_result in H as [H|(error & -> & He)]; [by left|right|done|].
    + split; [reflexivity|]. split; [apply failure_result_no_counts|].
      by exists error.
    + intros msg doc pos. discriminate.
Qed.

(** C6 at a successful parse and at a timeout. *)
Lemma runner_built_results_are_consistent_witness :
  (field clock_result "success" = Some (PBool true)
   ∧ field clock_result "error" = Some PNone ∧ has_counts clock_result)
  ∧ field (failure_result "Timeout (exceeded 5 minutes)") "error"
    = Some (PStr "Timeout (exceeded 5 minutes)").
Proof.
  split.
  - destruct (runner_built_results_are_consistent env_clock xavier ready
                (logged [ParseFile xavier] ready) clock_result) as (H & _).
    destruct H as [H|(H & _)].
    + vm_compute. reflexivity.
    + exact H.
    + discriminate H.
  - destruct (runner_built_results_are_consistent env_slow xavier ready
                (logged [Invoke (go_cmd xavier); Kill (go_cmd xavier)] ready)
                (failure_result "Timeout (exceeded 5 minutes)")) as (_ & H & _).
    destruct H as [(wall & so & se & cr & H1 & H2)|(_ & _ & error & H & _)].
    + vm_compute. reflexivity.
    + vm_compute in H2. discriminate H2.
    + reflexivity.
Defined.

(** ** The candidate loop *)

Lemma for_fold_check_candidate files acc w :
  for_fold check_candidate acc files w =
    (Ok (acc ++ available (fs w) files)%list,
     World (fs w) (out w ++ warnings (fs w) files) (log w)).
Proof.
  revert acc w. induction files as [|f files IH]; intros acc [fs0 out0 log0].
  - cbn. by rewrite !app_nil_r.
  - cbn [for_fold]. unfold mbind at 1. unfold M_bind.
    unfold check_candidate at 1. unfold mbind at 1. unfold M_bind, path_exists.
    cbn [fs out log]. unfold available, warnings, on_disk, candidate_path. cbn [List.filter].
    destruct (bool_decide (path_join TESTDATA_DIR f ∈ fs0)) eqn:Hf; cbn [negb].
    + cbn -[path_join]. rewrite IH. cbn [fs out log map].
      unfold available, warnings, on_disk, candidate_path.
      rewrite <- app_assoc. reflexivity.
    + unfold mbind at 1. unfold M_bind, print, print_end. cbn -[path_join].
      rewrite IH. cbn [fs out log map].
      unfold available, warnings, on_disk, candidate_path, missing_warning.
      rewrite <- !app_assoc. reflexivity.
Qed.

Lemma find_available_files_spec corpus w :
  find_available_files corpus w =
    (Ok (available (fs w) corpus),
     World (fs w) (out w ++ warnings (fs w) corpus) (log w)).
Proof. unfold find_available_files. by rewrite for_fold_check_candidate. Qed.

Lemma python_main_banner E corpus w :
  parser_benchmark.main E corpus w =
    (parser_benchmark.prepare E ;; parser_benchmark.measure_and_report E corpus)
      (banner "GEDCOM Parser Performance Comparison" w).
Proof.
  unfold parser_benchmark.main, banner.
  do 4 (unfold mbind at 1; unfold M_bind; unfold print at 1; unfold print_end;
        cbn [fs out log]).
  by rewrite <- !app_assoc.
Qed.

Lemma php_main_banner E corpus w :
  parser_benchmark_php.main E corpus w =
    (parser_benchmark_php.prepare E ≫= λ php_available,
       parser_benchmark_php.measure_and_report E php_available corpus)
      (banner "GEDCOM Parser Performance Comparison: Go vs PHP" w).
Proof.
  unfold parser_benchmark_php.main, banner.
  do 4 (unfold mbind at 1; unfold M_bind; unfold print at 1; unfold print_end;
        cbn [fs out log]).
  by rewrite <- !app_assoc.
Qed.

Lemma python_measure_stops E corpus w :
  available (fs w) corpus = [] →
  parser_benchmark.measure_and_report E corpus w
    = (Raise (SystemExit 1), stopped corpus w).
Proof.
  intros H. unfold parser_benchmark.measure_and_report.
  rewrite (bind_ok _ _ _ _ _ (find_available_files_spec corpus w)).
  rewrite H. cbn [nonempty negb]. apply bind_raise.
  unfold mbind, M_bind, print, print_end, sys_exit, stopped, no_files_error.
  cbn [fs out log]. by rewrite <- app_assoc.
Qed.

Lemma php_measure_stops E php_available corpus w :
  available (fs w) corpus = [] →
  parser_benchmark_php.measure_and_report E php_available corpus w
    = (Raise (SystemExit 1), stopped corpus w).
Proof.
  intros H. unfold parser_benchmark_php.measure_and_report.
  rewrite (bind_ok _ _ _ _ _ (find_available_files_spec corpus w)).
  rewrite H. cbn [nonempty negb]. apply bind_raise.
  unfold mbind, M_bind, print, print_end, sys_exit, stopped, no_files_error.
  cbn [fs out log]. by rewrite <- app_assoc.
Qed.

(** C9.  The available-file list is the candidate list filtered to the
    files that exist, in the candidates' order, and one warning is
    printed for each missing candidate, whatever the candidates and
    whatever the files on disk.  When no candidate exists either script
    prints the error and exits with status 1 from the world the
    preparation left: nothing is parsed or spawned after it. *)
Theorem corpus_is_filtered_in_order (E : env) (corpus : list string) (w : world) :
  find_available_files corpus w =
    (Ok (available (fs w) corpus),
     World (fs w) (out w ++ warnings (fs w) corpus) (log w))
  ∧ map fst (available (fs w) corpus) = List.filter (on_disk (fs w)) corpus
  ∧ warnings (fs w) corpus
    = map missing_warning (List.filter (λ f, negb (on_disk (fs w) f)) corpus)
  ∧ (available (fs w) corpus = [] →
     parser_benchmark.measure_and_report E corpus w
       = (Raise (SystemExit 1), stopped corpus w)
     ∧ ∀ php_available,
         parser_benchmark_php.measure_and_report E php_available corpus w
           = (Raise (SystemExit 1), stopped corpus w))
  ∧ (∀ w0 u,
       parser_benchmark.prepare E (banner "GEDCOM Parser Performance Comparison" w0)
         = (Ok u, w) →
       available (fs w) corpus = [] →
       parser_benchmark.main E corpus w0 = (Raise (SystemExit 1), stopped corpus w))
  ∧ (∀ w0 php_available,
       parser_benchmark_php.prepare E
         (banner "GEDCOM Parser Performance Comparison: Go vs PHP" w0)
         = (Ok php_available, w) →
       available (fs w) corpus = [] →
       parser_benchmark_php.main E corpus w0 = (Raise (SystemExit 1), stopped corpus w)).
Proof.
  split; [apply find_available_files_spec|].
  split; [unfold available; rewrite map_map; apply map_id|].
  split; [reflexivity|].
  split; [|split].
  - intros H. split; [by apply python_measure_stops|].
    intros pa. by apply php_measure_stops.
  - intros w0 u Hp H. rewrite python_main_banner.
    rewrite (bind_ok _ _ _ _ _ Hp). by apply python_measure_stops.
  - intros w0 pa Hp H. rewrite php_main_banner.
    rewrite (bind_ok _ _ _ _ _ Hp). by apply php_measure_stops.
Qed.

(** C9 on Scenario 5 (three of five candidates exist) and on an empty
    disk. *)
Lemma corpus_is_filtered_in_order_witness :
  (find_available_files GEDCOM_FILES three_of_five).1
    = Ok [("xavier.ged", candidate_path "xavier.ged");
          ("gracis.ged", candidate_path "gracis.ged");
          ("royal92.ged", candidate_path "royal92.ged")]
  ∧ out (find_available_files GEDCOM_FILES three_of_five).2
    = [missing_warning "tree1.ged"; missing_warning "pres2020.ged"]
  ∧ available (fs empty_disk) GEDCOM_FILES = []
  ∧ parser_benchmark.measure_and_report env_php82 GEDCOM_FILES empty_disk
    = (Raise (SystemExit 1), stopped GEDCOM_FILES empty_disk)
  ∧ log (stopped GEDCOM_FILES empty_disk) = [].
Proof.
  destruct (corpus_is_filtered_in_order env_php82 GEDCOM_FILES three_of_five)
    as (H5 & _).
  destruct (corpus_is_filtered_in_order env_php82 GEDCOM_FILES empty_disk)
    as (_ & _ & _ & Hstop & _).
  assert (Hnone : available (fs empty_disk) GEDCOM_FILES = []) by (vm_compute; reflexivity).
  split; [rewrite H5; vm_compute; reflexivity|].
  split; [rewrite H5; vm_compute; reflexivity|].
  split; [exact Hnone|].
  split; [exact (proj1 (Hstop Hnone))|reflexivity].
Defined.

(** ** Properties kept along a computation *)

Section Keeps.
Context (P : world → Prop).

Lemma keeps_ret {A} (a : A) : keeps P (mret a : M A).
Proof. by intros w H. Qed.

Lemma keeps_lift {A} (r : result A) : keeps P (lift r).
Proof. by intros w H. Qed.

Lemma keeps_raise {A} e : keeps P (raise e : M A).
Proof. by intros w H. Qed.

Lemma keeps_sys_exit {A} c : keeps P (sys_exit c : M A).
Proof. by intros w H. Qed.

Lemma keeps_path_exists p : keeps P (path_exists p).
Proof. by intros w H. Qed.

Lemma keeps_bind {A B} (m : M A) (f : A → M B) :
  keeps P m → (∀ a, keeps P (f a)) → keeps P (m ≫= f).
Proof.
  intros Hm Hf w H. specialize (Hm w H). unfold mbind, M_bind.
  destruct (m w) as [[a|s] w1]; [by apply Hf|done].
Qed.

Lemma keeps_try_except {A} (body : M A) handler :
  keeps P body → (∀ e, keeps P (handler e)) → keeps P (try_except body handler).
Proof.
  intros Hb Hh w H. specialize (Hb w H). unfold try_except.
  destruct (body w) as [[a|[e|c]] w1]; [done|by apply Hh|done].
Qed.

Lemma keeps_for_fold {A S} (f : S → A → M S) l s :
  (∀ s x, keeps P (f s x)) → keeps P (for_fold f s l).
Proof.
  intros Hf. revert s. induction l as [|x l IH]; intros s; [apply keeps_ret|].
  cbn [for_fold]. apply keeps_bind; [apply Hf|]. intros s'. apply IH.
Qed.

Lemma keeps_for_each {A} (f : A → M unit) l :
  (∀ x, keeps P (f x)) → keeps P (for_each f l).
Proof.
  intros Hf. induction l as [|x l IH]; [apply keeps_ret|].
  cbn [for_each]. apply keeps_bind; [apply Hf|]. by intros _.
Qed.

Lemma on_raise_bind {A B} (m : M A) (f : A → M B) :
  keeps P m → (∀ a, on_raise P (f a)) → on_raise P (m ≫= f).
Proof.
  intros Hm Hf w s w' H Hr. specialize (Hm w H).
  apply bind_inv in Hr as [(a & w1 & H1 & H2)|(s' & H1 & _)].
  - rewrite H1 in Hm. by apply (Hf a w1 s w').
  - by rewrite H1 in Hm.
Qed.

End Keeps.

Lemma ensures_bind {A B} (m : M A) (f : A → M B) Q :
  (∀ a, ensures (f a) Q) → ensures (m ≫= f) Q.
Proof.
  intros Hf w b w' H.
  apply bind_inv in H as [(a & w1 & _ & H2)|(s & _ & [=])].
  by apply (Hf a w1 b w').
Qed.

(** Splits a goal [keeps P m] along the structure of [m]; the leaves
    are closed from the hint database [keeps]. *)
Create HintDb keeps.

Ltac keeps_step :=
  lazymatch goal with
  | |- keeps _ (_ ≫= _) => apply keeps_bind; [|intros]
  | |- keeps _ (mret _) => apply keeps_ret
  | |- keeps _ (lift _) => apply keeps_lift
  | |- keeps _ (raise _) => apply keeps_raise
  | |- keeps _ (sys_exit _) => apply keeps_sys_exit
  | |- keeps _ (path_exists _) => apply keeps_path_exists
  | |- keeps _ (try_except _ _) => apply keeps_try_except; [|intros]
  | |- keeps _ (for_fold _ _ _) => apply keeps_for_fold; intros
  | |- keeps _ (for_each _ _) => apply keeps_for_each; intros
  | |- keeps _ (let _ := _ in _) => cbv zeta
  | |- keeps _ (if ?b then _ else _) => destruct b
  | |- keeps _ (match ?x with _ => _ end) => destruct x
  end.

Ltac keeps_tac := repeat keeps_step; eauto with keeps.

(** What the scripts keep of a kept property. *)
Section KeptByTheScripts.
Context (E : env) (K : kept_property).
#[local] Abbreviation P := (holds K).

Lemma kept_print_end s e : keeps P (print_end s e).
Proof. intros w H. apply (kept_out K w _ H). Qed.

Lemma kept_print s : keeps P (print s).
Proof. apply kept_print_end. Qed.

Lemma kept_write_file p : keeps P (write_file p).
Proof. intros w H. apply (kept_fs K w p H). Qed.

Lemma kept_emit e : allowed K e → keeps P (emit e).
Proof. intros He w H. by apply (kept_log K w e). Qed.

#[local] Hint Resolve kept_print_end kept_print kept_write_file kept_emit
  allowed_kill allowed_parse allowed_build allowed_go allowed_version allowed_composer
  : keeps.

Lemma kept_subprocess_run cmd timeout :
  allowed K (Invoke cmd) → keeps P (subprocess_run E cmd timeout).
Proof. intros H. unfold subprocess_run. keeps_tac. Qed.

Lemma kept_loads s : keeps P (loads E s).
Proof. unfold loads. keeps_tac. Qed.

#[local] Hint Resolve kept_subprocess_run kept_loads : keeps.

Lemma kept_build_go_parser : keeps P (build_go_parser E).
Proof. unfold build_go_parser. keeps_tac. Qed.

Lemma kept_benchmark_go_parser p : keeps P (benchmark_go_parser E p).
Proof. unfold benchmark_go_parser. keeps_tac. Qed.

Lemma kept_benchmark_php_parser p :
  allowed K (Invoke (php_cmd p)) → keeps P (parser_benchmark_php.benchmark_php_parser E p).
Proof. intros H. unfold parser_benchmark_php.benchmark_php_parser. keeps_tac. Qed.

Lemma kept_benchmark_python_parser p :
  keeps P (parser_benchmark.benchmark_python_parser E p).
Proof. unfold parser_benchmark.benchmark_python_parser. keeps_tac. Qed.

Lemma kept_get_file_size p : keeps P (get_file_size E p).
Proof. unfold get_file_size. keeps_tac. Qed.

Lemma kept_print_outcome r : keeps P (print_outcome E r).
Proof. unfold print_outcome. keeps_tac. Qed.

Lemma kept_both_succeeded a b : keeps P (both_succeeded E a b).
Proof. unfold both_succeeded. keeps_tac. Qed.

Lemma kept_summary_cell r times : keeps P (summary_cell E r times).
Proof. unfold summary_cell. keeps_tac. Qed.

Lemma kept_print_go_details r : keeps P (print_go_details E r).
Proof. unfold print_go_details. keeps_tac. Qed.

Lemma kept_find_available_files corpus : keeps P (find_available_files corpus).
Proof. unfold find_available_files, check_candidate. keeps_tac. Qed.

#[local] Hint Resolve kept_build_go_parser kept_benchmark_go_parser
  kept_benchmark_php_parser kept_benchmark_python_parser kept_get_file_size
  kept_print_outcome kept_both_succeeded kept_summary_cell kept_print_go_details
  kept_find_available_files : keeps.

(** The first script, up to its cleanup. *)
Lemma kept_python_test_file results f : keeps P (parser_benchmark.test_file E results f).
Proof. unfold parser_benchmark.test_file. keeps_tac. Qed.

Lemma kept_python_summary_row times r : keeps P (parser_benchmark.summary_row E times r).
Proof. unfold parser_benchmark.summary_row. keeps_tac. Qed.

Lemma kept_python_print_averages a b : keeps P (parser_benchmark.print_averages a b).
Proof. unfold parser_benchmark.print_averages. keeps_tac. Qed.

Lemma kept_python_print_details r : keeps P (parser_benchmark.print_details E r).
Proof. unfold parser_benchmark.print_details. keeps_tac. Qed.

Lemma kept_python_prepare : keeps P (parser_benchmark.prepare E).
Proof. unfold parser_benchmark.prepare. keeps_tac. Qed.

(** The second script, up to its cleanup. *)
Lemma kept_check_php_version : keeps P (parser_benchmark_php.check_php_version E).
Proof. unfold parser_benchmark_php.check_php_version. keeps_tac. Qed.

Lemma kept_php_prepare : keeps P (parser_benchmark_php.prepare E).
Proof.
  unfold parser_benchmark_php.prepare, parser_benchmark_php.create_php_benchmark_script.
  apply keeps_bind; [apply kept_check_php_version|]. intros [[php_ok v] b].
  keeps_tac.
Qed.

Lemma kept_php_test_file php_available results f :
  (php_available = true → ∀ p, allowed K (Invoke (php_cmd p))) →
  keeps P (parser_benchmark_php.test_file E php_available results f).
Proof.
  intros H. unfold parser_benchmark_php.test_file.
  destruct php_available; keeps_tac.
Qed.

Lemma kept_php_summary_row times r : keeps P (parser_benchmark_php.summary_row E times r).
Proof. unfold parser_benchmark_php.summary_row. keeps_tac. Qed.

Lemma kept_php_print_averages a b : keeps P (parser_benchmark_php.print_averages a b).
Proof. unfold parser_benchmark_php.print_averages. keeps_tac. Qed.

Lemma kept_php_print_details r : keeps P (parser_benchmark_php.print_details E r).
Proof. unfold parser_benchmark_php.print_details. keeps_tac. Qed.

Lemma kept_python_run_benchmarks files :
  keeps P (parser_benchmark.run_benchmarks E files).
Proof. unfold parser_benchmark.run_benchmarks. keeps_tac. apply kept_python_test_file. Qed.

Lemma kept_php_run_benchmarks php_available files :
  (php_available = true → ∀ p, allowed K (Invoke (php_cmd p))) →
  keeps P (parser_benchmark_php.run_benchmarks E php_available files).
Proof.
  intros H. unfold parser_benchmark_php.run_benchmarks. keeps_tac.
  by apply kept_php_test_file.
Qed.
End KeptByTheScripts.

(** ** The cleanup block *)

Lemma remove_if_exists_spec p w :
  remove_if_exists p w = (Ok tt, World (fs w ∖ {[p]}) (out w) (log w)).
Proof.
  unfold remove_if_exists, mbind, M_bind, path_exists, os_remove.
  destruct (bool_decide (p ∈ fs w)) eqn:Hp; [by rewrite Hp|].
  apply bool_decide_eq_false in Hp. unfold mret, M_ret.
  destruct w as [f o l]; cbn in *. do 2 f_equal. set_solver.
Qed.

Lemma python_cleanup_spec w :
  ∃ w', parser_benchmark.cleanup w = (Ok tt, w') ∧ python_scratch_removed w'.
Proof.
  unfold parser_benchmark.cleanup.
  rewrite (bind_ok _ _ _ _ _ (remove_if_exists_spec _ _)), remove_if_exists_spec.
  eexists. split; [reflexivity|]. unfold python_scratch_removed; cbn. set_solver.
Qed.

Lemma php_cleanup_spec w :
  ∃ w', parser_benchmark_php.cleanup w = (Ok tt, w') ∧ php_scratch_removed w'.
Proof.
  unfold parser_benchmark_php.cleanup.
  rewrite (bind_ok _ _ _ _ _ (remove_if_exists_spec _ _)).
  rewrite (bind_ok _ _ _ _ _ (remove_if_exists_spec _ _)), remove_if_exists_spec.
  eexists. split; [reflexivity|]. unfold php_scratch_removed; cbn. set_solver.
Qed.

Lemma establishes_bind_l {A B} P (m : M A) (f : A → M B) :
  establishes P m → (∀ a, keeps P (f a)) → establishes P (m ≫= f).
Proof.
  intros Hm Hf w. specialize (Hm w). unfold mbind, M_bind.
  destruct (m w) as [[a|s] w1]; [by apply Hf|done].
Qed.

Lemma establishes_bind_r {A B} P (m : M A) (f : A → M B) :
  total m → (∀ a, establishes P (f a)) → establishes P (m ≫= f).
Proof.
  intros Hm Hf w. destruct (Hm w) as (a & w1 & H1).
  rewrite (bind_ok _ _ _ _ _ H1). apply Hf.
Qed.

Lemma raise_after_establishes {A B} P (m : M A) (f : A → M B) w s w' :
  establishes P m → (∀ a, on_raise P (f a)) →
  (m ≫= f) w = (Raise s, w') → P w'.
Proof.
  intros Hm Hf H. specialize (Hm w).
  apply bind_inv in H as [(a & w1 & H1 & H2)|(s' & H1 & _)].
  - rewrite H1 in Hm. by apply (Hf a w1 s w').
  - by rewrite H1 in Hm.
Qed.

Lemma total_print s : total (print s).
Proof. intros w. by eexists _, _. Qed.

Lemma total_bind {A B} (m : M A) (f : A → M B) :
  total m → (∀ a, total (f a)) → total (m ≫= f).
Proof.
  intros Hm Hf w. destruct (Hm w) as (a & w1 & H1).
  rewrite (bind_ok _ _ _ _ _ H1). apply Hf.
Qed.

Lemma total_ret {A} (a : A) : total (mret a : M A).
Proof. intros w. by eexists _, _. Qed.

#[global] Hint Resolve kept_print_end kept_print kept_write_file kept_emit
  kept_subprocess_run kept_loads kept_build_go_parser kept_benchmark_go_parser
  kept_benchmark_php_parser kept_benchmark_python_parser kept_get_file_size
  kept_print_outcome kept_both_succeeded kept_summary_cell kept_print_go_details
  kept_find_available_files kept_python_test_file kept_python_summary_row
  kept_python_print_averages kept_python_print_details kept_python_prepare
  kept_check_php_version kept_php_prepare kept_php_test_file kept_php_summary_row
  kept_php_print_averages kept_php_print_details kept_python_run_benchmarks
  kept_php_run_benchmarks allowed_kill allowed_parse allowed_build allowed_go
  allowed_version allowed_composer : keeps.

(** ** Where the scratch files are left *)

Ltac ensures_step :=
  lazymatch goal with
  | |- ensures (_ ≫= _) _ => apply ensures_bind; intros
  | |- ensures (match ?x with _ => _ end) _ => destruct x
  end.

Lemma python_measure_ensures E corpus :
  ensures (parser_benchmark.measure_and_report E corpus) python_scratch_removed.
Proof.
  unfold parser_benchmark.measure_and_report.
  repeat ensures_step.
  intros w u w' H. destruct (python_cleanup_spec w) as (w1 & H1 & Hr).
  rewrite H1 in H. by injection H as _ <-.
Qed.

Lemma php_measure_ensures E php_available corpus :
  ensures (parser_benchmark_php.measure_and_report E php_available corpus)
    php_scratch_removed.
Proof.
  unfold parser_benchmark_php.measure_and_report.
  repeat ensures_step.
  intros w u w' H. destruct (php_cleanup_spec w) as (w1 & H1 & Hr).
  rewrite H1 in H. by injection H as _ <-.
Qed.

Ltac on_raise_step :=
  lazymatch goal with
  | |- on_raise _ (_ ≫= _) => apply on_raise_bind; [keeps_tac|intros]
  | |- on_raise _ (match ?x with _ => _ end) => destruct x
  end.

Lemma python_measure_on_raise E K corpus :
  on_raise (holds K) (parser_benchmark.measure_and_report E corpus).
Proof.
  unfold parser_benchmark.measure_and_report.
  repeat on_raise_step.
  intros w s w' _ H. destruct (python_cleanup_spec w) as (w1 & H1 & _).
  rewrite H1 in H. discriminate H.
Qed.

Lemma php_measure_on_raise E K php_available corpus :
  (php_available = true → ∀ p, allowed K (Invoke (php_cmd p))) →
  on_raise (holds K) (parser_benchmark_php.measure_and_report E php_available corpus).
Proof.
  intros Hphp. unfold parser_benchmark_php.measure_and_report.
  repeat on_raise_step.
  intros w s w' _ H. destruct (php_cleanup_spec w) as (w1 & H1 & _).
  rewrite H1 in H. discriminate H.
Qed.

Lemma establishes_write_file p : establishes (has_file p) (write_file p).
Proof. intros w. unfold has_file; cbn. set_solver. Qed.

Lemma build_go_parser_writes E : establishes (has_file go_file) (build_go_parser E).
Proof.
  unfold build_go_parser.
  apply establishes_bind_l; [apply establishes_write_file|]. intros _.
  change (has_file go_file) with (holds (file_stays go_file)). keeps_tac.
Qed.

Lemma python_prepare_writes E :
  establishes (has_file go_file) (parser_benchmark.prepare E).
Proof.
  unfold parser_benchmark.prepare.
  apply establishes_bind_r; [apply total_print|]. intros _.
  apply establishes_bind_l; [apply build_go_parser_writes|]. intros built.
  change (has_file go_file) with (holds (file_stays go_file)). keeps_tac.
Qed.

Lemma unpack_two_ints_raises E parts c :
  parser_benchmark_php.unpack_two_ints E parts ≠ Raise (SystemExit c).
Proof.
  unfold parser_benchmark_php.unpack_two_ints, throw.
  destruct parts as [|a [|b [|x parts]]]; cbn; try discriminate.
  all: destruct (int_literal a); cbn; try discriminate.
  all: destruct (int_literal b); cbn; discriminate.
Qed.

(** The version check never raises. *)
Lemma check_php_version_total E : total (parser_benchmark_php.check_php_version E).
Proof.
  intros w. unfold parser_benchmark_php.check_php_version, try_except.
  unfold mbind at 1. unfold M_bind. rewrite subprocess_run_cases.
  destruct (proc E _) as [cls msg|wall rc so se creates]; [by eexists _, _|].
  cbn [stdout].
  destruct (split_ws _ "") as [|x [|v rest]]; try by eexists _, _.
  unfold mbind, M_bind, mret, M_ret, lift.
  pose proof (unpack_two_ints_raises E (take 2 (split_on "." v ""))) as Hs.
  destruct (parser_benchmark_php.unpack_two_ints E _) as [[major minor]|[e|c]].
  - destruct (_ || _); by eexists _, _.
  - by eexists _, _.
  - by destruct (Hs c).
Qed.

Lemma php_prepare_writes E :
  establishes (has_file go_file) (parser_benchmark_php.prepare E).
Proof.
  unfold parser_benchmark_php.prepare.
  apply establishes_bind_r; [apply check_php_version_total|].
  intros [[php_ok php_version] php_84_plus].
  apply establishes_bind_r.
  { destruct php_ok; cbn [negb].
    - apply total_bind; [destruct php_84_plus; apply total_print|]. intros _.
      apply total_bind; [apply total_print|]. intros _. apply total_ret.
    - repeat (apply total_bind; [apply total_print|]; intros _). apply total_ret. }
  intros php_available.
  apply establishes_bind_r; [apply total_print|]. intros _.
  apply establishes_bind_l; [apply build_go_parser_writes|]. intros built.
  change (has_file go_file) with (holds (file_stays go_file)).
  unfold parser_benchmark_php.create_php_benchmark_script. keeps_tac.
Qed.

(** An abnormal end of [main], by [sys.exit] or by an uncaught
    exception, leaves the Go source written by the build in place. *)
Lemma abnormal_end_leaves_go_source (E : env) (corpus : list string)
    (w w' : world) (s : signal) :
  (parser_benchmark.main E corpus w = (Raise s, w') → go_file ∈ fs w')
  ∧ (parser_benchmark_php.main E corpus w = (Raise s, w') → go_file ∈ fs w').
Proof.
  split; intros H.
  - rewrite python_main_banner in H.
    apply (raise_after_establishes (has_file go_file) _ _ _ _ _
             (python_prepare_writes E)) in H; [exact H|].
    intros _. apply (python_measure_on_raise E (file_stays go_file)).
  - rewrite php_main_banner in H.
    apply (raise_after_establishes (has_file go_file) _ _ _ _ _
             (php_prepare_writes E)) in H; [exact H|].
    intros pa. apply (php_measure_on_raise E (file_stays go_file)).
    intros _ p. exact I.
Qed.

(** C4, as the code has it.  The cleanup block is the last statement of
    [main]: whenever [main] returns, the scratch files of the script are
    gone (the binary and the Go source; for the second script the PHP
    benchmark script too). *)
Theorem cleanup_runs_on_normal_completion (E : env) (corpus : list string)
    (w w' : world) (u : unit) :
  (parser_benchmark.main E corpus w = (Ok u, w') → python_scratch_removed w')
  ∧ (parser_benchmark_php.main E corpus w = (Ok u, w') → php_scratch_removed w').
Proof.
  split.
  - apply (ensures_bind _ _ _ (λ _, ensures_bind _ _ _ (λ _,
      ensures_bind _ _ _ (λ _, ensures_bind _ _ _ (λ _,
      ensures_bind _ _ _ (λ _, python_measure_ensures E corpus)))))).
  - unfold parser_benchmark_php.main.
    apply (ensures_bind _ _ _ (λ _, ensures_bind _ _ _ (λ _,
      ensures_bind _ _ _ (λ _, ensures_bind _ _ _ (λ _,
      ensures_bind _ _ _ (λ pa, php_measure_ensures E pa corpus)))))).
Qed.

(** C4, against the claim: a failed build, an empty corpus and an
    uncaught exception each end [main] with scratch files left behind. *)
Lemma scratch_files_survive_aborts :
  ((parser_benchmark.main env_build_fails GEDCOM_FILES fresh).1 = Raise (SystemExit 1)
   ∧ go_file ∈ fs (parser_benchmark.main env_build_fails GEDCOM_FILES fresh).2)
  ∧ ((parser_benchmark.main env_all_well GEDCOM_FILES empty_disk).1
       = Raise (SystemExit 1)
     ∧ GO_PARSER_BINARY ∈ fs (parser_benchmark.main env_all_well GEDCOM_FILES empty_disk).2
     ∧ go_file ∈ fs (parser_benchmark.main env_all_well GEDCOM_FILES empty_disk).2)
  ∧ ((parser_benchmark.main env_empty_object GEDCOM_FILES fresh).1
       = Raise (Exc (Raised "KeyError" "'success'"))
     ∧ GO_PARSER_BINARY ∈ fs (parser_benchmark.main env_empty_object GEDCOM_FILES fresh).2
     ∧ go_file ∈ fs (parser_benchmark.main env_empty_object GEDCOM_FILES fresh).2)
  ∧ ((parser_benchmark_php.main env_all_well GEDCOM_FILES empty_disk).1
       = Raise (SystemExit 1)
     ∧ ¬ php_scratch_removed
           (parser_benchmark_php.main env_all_well GEDCOM_FILES empty_disk).2).
Proof.
  repeat split; try (vm_compute; reflexivity);
    try (apply (bool_decide_unpack _); vm_compute; exact I).
Qed.

(** C4 on a run in which everything succeeds. *)
Lemma cleanup_runs_on_normal_completion_witness :
  parser_benchmark.main env_all_well GEDCOM_FILES fresh
    = (Ok tt, (parser_benchmark.main env_all_well GEDCOM_FILES fresh).2)
  ∧ python_scratch_removed (parser_benchmark.main env_all_well GEDCOM_FILES fresh).2
  ∧ parser_benchmark_php.main env_all_well GEDCOM_FILES fresh
    = (Ok tt, (parser_benchmark_php.main env_all_well GEDCOM_FILES fresh).2)
  ∧ php_scratch_removed (parser_benchmark_php.main env_all_well GEDCOM_FILES fresh).2.
Proof.
  assert (H1 : parser_benchmark.main env_all_well GEDCOM_FILES fresh
               = (Ok tt, (parser_benchmark.main env_all_well GEDCOM_FILES fresh).2)).
  { assert (Hr : (parser_benchmark.main env_all_well GEDCOM_FILES fresh).1 = Ok tt)
      by (vm_compute; reflexivity).
    rewrite <- Hr. apply surjective_pairing. }
  assert (H2 : parser_benchmark_php.main env_all_well GEDCOM_FILES fresh
               = (Ok tt, (parser_benchmark_php.main env_all_well GEDCOM_FILES fresh).2)).
  { assert (Hr : (parser_benchmark_php.main env_all_well GEDCOM_FILES fresh).1 = Ok tt)
      by (vm_compute; reflexivity).
    rewrite <- Hr. apply surjective_pairing. }
  split; [exact H1|]. split; [|split; [exact H2|]].
  - exact (proj1 (cleanup_runs_on_normal_completion env_all_well GEDCOM_FILES
                    fresh _ tt) H1).
  - exact (proj2 (cleanup_runs_on_normal_completion env_all_well GEDCOM_FILES
                    fresh _ tt) H2).
Defined.

(** ** An unavailable PHP parser *)

Lemma check_php_version_verdict E w :
  (parser_benchmark_php.check_php_version E w).1 = preflight E.
Proof.
  unfold preflight, parser_benchmark_php.check_php_version, try_except.
  unfold mbind, M_bind. rewrite !subprocess_run_cases.
  destruct (proc E _) as [cls msg|wall rc so se creates]; [reflexivity|].
  cbn [stdout].
  destruct (split_ws _ "") as [|x [|v rest]]; try reflexivity.
  unfold mret, M_ret, lift.
  destruct (parser_benchmark_php.unpack_two_ints E _) as [[major minor]|[e|c]];
    try reflexivity.
  destruct (_ || _); reflexivity.
Qed.

Lemma php_prepare_unavailable E w v b php_available w' :
  preflight E = Ok (false, v, b) →
  parser_benchmark_php.prepare E w = (Ok php_available, w') →
  php_available = false.
Proof.
  intros Hv H. unfold parser_benchmark_php.prepare in H.
  apply bind_inv in H as [(x & w1 & H1 & H)|(s & _ & [=])].
  pose proof (check_php_version_verdict E w) as Hc. rewrite H1, Hv in Hc.
  cbn in Hc. injection Hc as ->. cbn [negb] in H.
  apply bind_inv in H as [(pa & w2 & H2 & H)|(s & _ & [=])].
  assert (pa = false) as ->.
  { revert H2. unfold mbind, M_bind, print, print_end, mret, M_ret. by intros [= <- _]. }
  apply bind_inv in H as [(u1 & w3 & _ & H)|(s & _ & [=])].
  apply bind_inv in H as [(built & w4 & _ & H)|(s & _ & [=])].
  apply bind_inv in H as [(u2 & w5 & _ & H)|(s & _ & [=])].
  apply bind_inv in H as [(u3 & w6 & _ & H)|(s & _ & [=])].
  apply bind_inv in H as [(u4 & w7 & _ & H)|(s & _ & [=])].
  by injection H as <- _.
Qed.

Lemma php_cleanup_log w : log (parser_benchmark_php.cleanup w).2 = log w.
Proof.
  unfold parser_benchmark_php.cleanup.
  rewrite (bind_ok _ _ _ _ _ (remove_if_exists_spec _ _)).
  rewrite (bind_ok _ _ _ _ _ (remove_if_exists_spec _ _)), remove_if_exists_spec.
  reflexivity.
Qed.

Lemma php_measure_makes_no_php_call E calls corpus :
  keeps (holds (no_php_call calls))
    (parser_benchmark_php.measure_and_report E false corpus).
Proof.
  unfold parser_benchmark_php.measure_and_report. keeps_tac.
  { apply kept_php_run_benchmarks. discriminate. }
  intros w H.
  change (php_calls (log (parser_benchmark_php.cleanup w).2) = calls).
  rewrite php_cleanup_log. exact H.
Qed.

(** The records of a measurement loop that runs without the PHP parser. *)
Lemma php_test_file_unavailable E results f w results' w' :
  parser_benchmark_php.test_file E false results f w = (Ok results', w') →
  ∃ size go_result,
    results' = (results ++ [parser_benchmark_php.RunRecord f.1 size go_result
                              parser_benchmark_php.php_not_available])%list.
Proof.
  unfold parser_benchmark_php.test_file. destruct f as [filename file_path].
  intros H.
  apply bind_inv in H as [(size & w1 & _ & H)|(s & _ & [=])].
  apply bind_inv in H as [(u1 & w2 & _ & H)|(s & _ & [=])].
  apply bind_inv in H as [(u2 & w3 & _ & H)|(s & _ & [=])].
  apply bind_inv in H as [(u3 & w4 & _ & H)|(s & _ & [=])].
  apply bind_inv in H as [(go_result & w5 & _ & H)|(s & _ & [=])].
  apply bind_inv in H as [(u4 & w6 & _ & H)|(s & _ & [=])].
  apply bind_inv in H as [(php_result & w7 & Hphp & H)|(s & _ & [=])].
  injection Hphp as <- _.
  apply bind_inv in H as [(both & w8 & _ & H)|(s & _ & [=])].
  apply bind_inv in H as [(u5 & w9 & _ & H)|(s & _ & [=])].
  apply bind_inv in H as [(size' & w10 & _ & H)|(s & _ & [=])].
  apply bind_inv in H as [(u6 & w11 & _ & H)|(s & _ & [=])].
  injection H as <- _. by exists size', go_result.
Qed.

Lemma php_run_benchmarks_unavailable E files acc w results w' :
  for_fold (parser_benchmark_php.test_file E false) acc files w = (Ok results, w') →
  ∃ new, results = (acc ++ new)%list
         ∧ map parser_benchmark_php.filename new = map fst files
         ∧ Forall (λ r, parser_benchmark_php.php r = parser_benchmark_php.php_not_available)
             new.
Proof.
  revert acc w. induction files as [|f files IH]; intros acc w H.
  - injection H as <- _. exists []. by rewrite app_nil_r.
  - cbn [for_fold] in H.
    apply bind_inv in H as [(acc' & w1 & H1 & H)|(s & _ & [=])].
    apply php_test_file_unavailable in H1 as (size & go_result & ->).
    apply IH in H as (new & -> & Hn & Hf).
    exists (parser_benchmark_php.RunRecord f.1 size go_result
              parser_benchmark_php.php_not_available :: new).
    split; [by rewrite <- app_assoc|]. split; [cbn; by rewrite Hn|].
    by constructor.
Qed.

Lemma php_not_available_failed E :
  succeeded E parser_benchmark_php.php_not_available = false.
Proof. reflexivity. Qed.

(** C1, against the claim: with PHP 8.2 installed the version check
    marks the PHP parser unavailable, and yet the record of the file
    holds a failed Result for it, its column of the file's summary row
    reads [ERROR], and the detailed results report its error. *)
Lemma unavailable_php_is_recorded_and_shown :
  preflight env_php82 = Ok (false, "8.2.10", false)
  ∧ (parser_benchmark_php.main env_php82 GEDCOM_FILES fresh).1 = Ok tt
  ∧ (parser_benchmark_php.run_benchmarks env_php82 false
       (available (fs ready) GEDCOM_FILES) ready).1 = Ok [row_php_unavailable]
  ∧ field (parser_benchmark_php.php row_php_unavailable) "error"
    = Some (PStr "PHP 8.4+ not available")
  ∧ table_row "xavier.ged" "10.0 KB" "5.00" "ERROR" "N/A" +:+ nl
    ∈ out (parser_benchmark_php.main env_php82 GEDCOM_FILES fresh).2
  ∧ "    ERROR: PHP 8.4+ not available" +:+ nl
    ∈ out (parser_benchmark_php.main env_php82 GEDCOM_FILES fresh).2.
Proof.
  repeat split; try (vm_compute; reflexivity);
    apply (bool_decide_unpack _); vm_compute; exact I.
Qed.

(** C1, as the code has it.  When the PHP parser is unavailable the
    measurement loop never runs the PHP benchmark script; it stores for
    every file the placeholder failure
    [{'success': False, 'error': 'PHP 8.4+ not available'}], and the
    file's summary row shows [ERROR] in the PHP column and [N/A] as
    speedup.  When the version check fails, the whole of [main] never
    runs the PHP benchmark script. *)
Theorem unavailable_php_is_never_invoked (E : env) :
  (∀ files w,
     php_calls (log (parser_benchmark_php.run_benchmarks E false files w).2)
       = php_calls (log w))
  ∧ (∀ files w results w',
       parser_benchmark_php.run_benchmarks E false files w = (Ok results, w') →
       map parser_benchmark_php.filename results = map fst files
       ∧ Forall (λ r, parser_benchmark_php.php r = parser_benchmark_php.php_not_available)
           results)
  ∧ (∀ times rec w t w',
       parser_benchmark_php.php rec = parser_benchmark_php.php_not_available →
       parser_benchmark_php.summary_row E times rec w = (Ok t, w') →
       ∃ go_str,
         out w' = (out w ++ [table_row (parser_benchmark_php.filename rec)
                               (parser_benchmark_php.file_size rec)
                               go_str "ERROR" "N/A" +:+ nl])%list)
  ∧ (∀ corpus w v b,
       preflight E = Ok (false, v, b) →
       php_calls (log (parser_benchmark_php.main E corpus w).2) = php_calls (log w)).
Proof.
  split; [|split; [|split]].
  - intros files w.
    apply (kept_php_run_benchmarks E (no_php_call (php_calls (log w))) false files);
      [discriminate|reflexivity].
  - intros files w results w' H.
    apply php_run_benchmarks_unavailable in H as (new & -> & Hn & Hf). by split.
  - intros times rec w t w' Hrec H.
    assert (Hs : succeeded E (parser_benchmark_php.go rec)
                 && succeeded E (parser_benchmark_php.php rec) = false).
    { rewrite Hrec, php_not_available_failed. apply andb_false_r. }
    destruct (php_summary_row_failed _ _ _ _ _ _ H Hs) as (a & b & -> & _ & Hb).
    rewrite Hb by (rewrite Hrec; apply php_not_available_failed). by exists a.
  - intros corpus w v b Hv. rewrite php_main_banner.
    set (wb := banner _ w).
    assert (Hwb : holds (no_php_call (php_calls (log w))) wb) by reflexivity.
    pose proof (kept_php_prepare E _ wb Hwb) as Hp.
    unfold mbind, M_bind.
    destruct (parser_benchmark_php.prepare E wb) as [[pa|s] w1] eqn:Hprep;
      [|exact Hp].
    rewrite (php_prepare_unavailable _ _ _ _ _ _ Hv Hprep).
    apply (php_measure_makes_no_php_call E _ corpus w1 Hp).
Qed.

(** C1 with PHP 8.2 installed. *)
Lemma unavailable_php_is_never_invoked_witness :
  preflight env_php82 = Ok (false, "8.2.10", false)
  ∧ php_calls (log (parser_benchmark_php.main env_php82 GEDCOM_FILES fresh).2) = []
  ∧ (parser_benchmark_php.summary_row env_php82 ([], []) row_php_unavailable ready
       = (Ok ([PFloat 5], []),
          World (fs ready)
            [table_row "xavier.ged" "10.0 KB" "5.00" "ERROR" "N/A" +:+ nl] []))
  ∧ ∃ go_str,
      [table_row "xavier.ged" "10.0 KB" "5.00" "ERROR" "N/A" +:+ nl]
        = [table_row "xavier.ged" "10.0 KB" go_str "ERROR" "N/A" +:+ nl].
Proof.
  destruct (unavailable_php_is_never_invoked env_php82) as (_ & _ & Hrow & Hmain).
  assert (Hv : preflight env_php82 = Ok (false, "8.2.10", false))
    by (vm_compute; reflexivity).
  assert (Hr : parser_benchmark_php.summary_row env_php82 ([], []) row_php_unavailable
                 ready
               = (Ok ([PFloat 5], []),
                  World (fs ready)
                    [table_row "xavier.ged" "10.0 KB" "5.00" "ERROR" "N/A" +:+ nl] []))
    by (vm_compute; reflexivity).
  split; [exact Hv|].
  split; [exact (Hmain GEDCOM_FILES fresh _ _ Hv)|].
  split; [exact Hr|].
  exact (Hrow ([], []) row_php_unavailable ready _ _ eq_refl Hr).
Defined.

(** * Further properties of the scripts *)

(** ** The runners *)

(** X1.  When the child exits with a non-zero code within the budget,
    either subprocess runner returns the failure dict whose [error] is
    the child's standard error, or ["Unknown error"] when that is
    empty; what the child printed on standard output plays no part. *)
Theorem nonzero_exit_reports_stderr (E : env) (file_path : string) (w : world)
    (wall : Q) (rc : Z) (so se : string) (creates : list string) :
  (wall <= 300)%Q →
  rc ≠ 0 →
  (GO_PARSER_BINARY ∈ fs w →
   proc E (go_cmd file_path) = Runs wall rc so se creates →
   (benchmark_go_parser E file_path w).1
     = Ok (failure_result (if String.eqb se "" then "Unknown error" else se)))
  ∧ (parser_benchmark_php.PHP_BENCHMARK_SCRIPT ∈ fs w →
     proc E (php_cmd file_path) = Runs wall rc so se creates →
     (parser_benchmark_php.benchmark_php_parser E file_path w).1
       = Ok (failure_result (if String.eqb se "" then "Unknown error" else se))).
Proof.
  intros Hwall Hrc.
  assert (Hw : negb (Qle_bool wall 300) = false).
  { apply negb_false_iff. by apply Qle_bool_iff. }
  assert (Hz : negb (rc =? 0) = true).
  { apply negb_true_iff. by apply Z.eqb_neq. }
  split; intros Hin Hp.
  - rewrite benchmark_go_parser_cases. unfold runner_cases.
    rewrite bool_decide_eq_true_2 by done. unfold go_cmd in Hp.
    by rewrite Hp, Hw, Hz.
  - rewrite benchmark_php_parser_cases. unfold runner_cases.
    rewrite bool_decide_eq_true_2 by done. unfold php_cmd in Hp.
    by rewrite Hp, Hw, Hz.
Qed.

(** A child that exits 1 with its message on standard output. *)
Lemma nonzero_exit_reports_stderr_witness :
  (benchmark_go_parser env_exit_one xavier ready).1
    = Ok (failure_result "Unknown error")
  ∧ (parser_benchmark_php.benchmark_php_parser env_exit_one xavier ready).1
    = Ok (failure_result "Unknown error").
Proof.
  assert (Hwall : (1 <= 300)%Q) by (vm_compute; discriminate).
  assert (Hrc : 1 ≠ 0) by lia.
  destruct (nonzero_exit_reports_stderr env_exit_one xavier ready 1 1
              silent_failure_text "" [] Hwall Hrc) as (Hgo & Hphp).
  split.
  - exact (Hgo in_ready_go eq_refl).
  - exact (Hphp in_ready_php eq_refl).
Defined.

Lemma runner_cases_world E cmd missing decode_error present w :
  (runner_cases E cmd missing decode_error present w).2 = after_run E cmd present w.
Proof.
  unfold runner_cases, after_run, run_files, run_events.
  destruct present; [|reflexivity].
  destruct (proc E cmd) as [cls msg|wall rc so se creates].
  { destruct w as [f o l]; cbn. by rewrite (left_id_L ∅ (∪)). }
  destruct (negb (Qle_bool wall 300)).
  { destruct w as [f o l]; cbn. by rewrite (left_id_L ∅ (∪)). }
  destruct (negb (rc =? 0)); [reflexivity|].
  by destruct (json_loads E so) as [[msg pos]|v].
Qed.

Lemma benchmark_python_parser_returns E file_path w :
  ∃ r, parser_benchmark.benchmark_python_parser E file_path w
       = (Ok r, World (fs w) (out w) (log w ++ [ParseFile file_path])).
Proof.
  rewrite benchmark_python_parser_cases.
  destruct (python_gedcom E file_path); by eexists.
Qed.

(** X2.  A runner changes the world only by what it runs.  The
    in-process runner always returns, prints nothing, touches no file
    and logs the one parse.  A subprocess runner prints nothing and
    removes no file; when its binary or script is missing it runs
    nothing, and otherwise it logs one invocation (followed by the kill
    at a timeout) and gains the files the child left. *)
Theorem runners_only_run (E : env) (file_path : string) (w : world) :
  (∃ r, parser_benchmark.benchmark_python_parser E file_path w
        = (Ok r, World (fs w) (out w) (log w ++ [ParseFile file_path])))
  ∧ (benchmark_go_parser E file_path w).2
    = after_run E (go_cmd file_path) (bool_decide (GO_PARSER_BINARY ∈ fs w)) w
  ∧ (parser_benchmark_php.benchmark_php_parser E file_path w).2
    = after_run E (php_cmd file_path)
        (bool_decide (parser_benchmark_php.PHP_BENCHMARK_SCRIPT ∈ fs w)) w.
Proof.
  split; [|split].
  - apply benchmark_python_parser_returns.
  - rewrite benchmark_go_parser_cases. apply runner_cases_world.
  - rewrite benchmark_php_parser_cases. apply runner_cases_world.
Qed.

(** ** The version check *)

(** What [check_php_version] returns, by what [php --version] does. *)
Lemma check_php_version_cases E w :
  parser_benchmark_php.check_php_version E w =
    match proc E version_cmd with
    | RunRaises cls msg =>
        (Ok (false, "Error: " +:+ msg, false), logged [Invoke version_cmd] w)
    | Runs wall rc so se creates =>
        let w1 := with_files creates (logged [Invoke version_cmd] w) in
        match version_word so with
        | None => (Ok (false, "Error: list index out of range", false), w1)
        | Some v =>
            match parser_benchmark_php.unpack_two_ints E (take 2 (split_on "." v "")) with
            | Ok (major, minor) =>
                (Ok (if php_accepted major minor then (true, v, minor >=? 4)
                     else (false, v, false)), w1)
            | Raise (Exc e) => (Ok (false, "Error: " +:+ exn_str e, false), w1)
            | Raise (SystemExit c) => (Raise (SystemExit c), w1)
            end
        end
    end.
Proof.
  unfold parser_benchmark_php.check_php_version, try_except, version_word, version_cmd.
  unfold mbind at 1. unfold M_bind. rewrite subprocess_run_cases.
  destruct (proc E _) as [cls msg|wall rc so se creates]; [reflexivity|].
  cbn [stdout]. cbv zeta.
  destruct (split_ws _ "") as [|x [|v rest]]; try reflexivity.
  unfold mbind, M_bind, mret, M_ret, lift, php_accepted.
  destruct (parser_benchmark_php.unpack_two_ints E _) as [[major minor]|[e|c]];
    try reflexivity.
  destruct (_ || _); reflexivity.
Qed.

Lemma check_php_version_returns E w :
  ∃ verdict w',
    parser_benchmark_php.check_php_version E w = (Ok verdict, w')
    ∧ out w' = out w
    ∧ log w' = (log w ++ [Invoke version_cmd])%list.
Proof.
  rewrite check_php_version_cases.
  destruct (proc E version_cmd) as [cls msg|wall rc so se creates];
    [by eexists _, _|].
  cbv zeta. destruct (version_word so) as [v|]; [|by eexists _, _].
  pose proof (unpack_two_ints_raises E (take 2 (split_on "." v ""))) as Hs.
  destruct (parser_benchmark_php.unpack_two_ints E _) as [[major minor]|[e|c]].
  - by eexists _, _.
  - by eexists _, _.
  - by destruct (Hs c).
Qed.

(** X3.  The version check never raises: it always returns a verdict,
    having printed nothing and run [php --version] once.  When PHP
    cannot be started the verdict is
    [(False, "Error: " + str(e), False)], and when the first line of
    the output has fewer than two words it is
    [(False, "Error: list index out of range", False)]. *)
Theorem version_check_never_raises (E : env) (w : world) :
  (∃ verdict w',
     parser_benchmark_php.check_php_version E w = (Ok verdict, w')
     ∧ out w' = out w
     ∧ log w' = (log w ++ [Invoke version_cmd])%list)
  ∧ (∀ cls msg,
       proc E version_cmd = RunRaises cls msg →
       (parser_benchmark_php.check_php_version E w).1
         = Ok (false, "Error: " +:+ msg, false))
  ∧ (∀ wall rc so se creates,
       proc E version_cmd = Runs wall rc so se creates →
       version_word so = None →
       (parser_benchmark_php.check_php_version E w).1
         = Ok (false, "Error: list index out of range", false)).
Proof.
  split; [apply check_php_version_returns|].
  rewrite check_php_version_cases. split.
  - intros cls msg ->. reflexivity.
  - intros wall rc so se creates -> Hv. cbv zeta. by rewrite Hv.
Qed.

(** The version check where [php] cannot be started. *)
Lemma version_check_never_raises_witness :
  (parser_benchmark_php.check_php_version env_no_runtime fresh).1
    = Ok (false, "Error: [Errno 2] No such file or directory: 'php'", false).
Proof.
  destruct (version_check_never_raises env_no_runtime fresh) as (_ & H & _).
  exact (H "FileNotFoundError" _ eq_refl).
Defined.

(** X4.  The gate of the version check.  With [php --version] printing
    a first line whose second word starts with the integers [major] and
    [minor] separated by a dot, the verdict is decided by these two
    alone, whatever the exit code: PHP is accepted exactly when
    [major > 8], or [major = 8] and [minor >= 3], and an accepted PHP
    is reported as 8.4+ exactly when [minor >= 4].  So PHP 9.0 is
    accepted and reported as not 8.4+. *)
Theorem version_gate (E : env) (w : world) (wall : Q) (rc : Z) (so se : string)
    (creates : list string) (v a b : string) (rest : list string) (major minor : Z) :
  proc E version_cmd = Runs wall rc so se creates →
  version_word so = Some v →
  split_on "." v "" = a :: b :: rest →
  int_literal a = Some major →
  int_literal b = Some minor →
  (parser_benchmark_php.check_php_version E w).1
    = Ok (php_accepted major minor, v, php_accepted major minor && (minor >=? 4))
  ∧ (php_accepted major minor = true ↔ 8 < major ∨ (major = 8 ∧ 3 <= minor))
  ∧ (major = 9 → minor = 0 →
     (parser_benchmark_php.check_php_version E w).1 = Ok (true, v, false)).
Proof.
  intros Hp Hv Hs Ha Hb.
  assert (Hc : (parser_benchmark_php.check_php_version E w).1
               = Ok (php_accepted major minor, v,
                     php_accepted major minor && (minor >=? 4))).
  { rewrite check_php_version_cases, Hp. cbv zeta. rewrite Hv, Hs.
    unfold parser_benchmark_php.unpack_two_ints. cbn [take].
    rewrite Ha, Hb. cbn [mbind result_bind]. rewrite take_0.
    destruct (php_accepted major minor); reflexivity. }
  split; [exact Hc|]. split.
  - unfold php_accepted. rewrite orb_true_iff, andb_true_iff.
    rewrite Z.gtb_lt, Z.eqb_eq, Z.geb_le. lia.
  - intros -> ->. exact Hc.
Qed.

(** PHP 9.0.1 is accepted and reported as not 8.4+. *)
Lemma version_gate_witness :
  (parser_benchmark_php.check_php_version env_php9 fresh).1
    = Ok (true, "9.0.1", false).
Proof.
  assert (Hv : version_word php9_banner = Some "9.0.1") by (vm_compute; reflexivity).
  assert (Hs : split_on "." "9.0.1" "" = ["9"; "0"; "1"]) by (vm_compute; reflexivity).
  assert (Ha : int_literal "9" = Some 9) by (vm_compute; reflexivity).
  assert (Hb : int_literal "0" = Some 0) by (vm_compute; reflexivity).
  destruct (version_gate env_php9 fresh (1 # 10) 0 php9_banner "" [] "9.0.1"
              "9" "0" ["1"] 9 0 eq_refl Hv Hs Ha Hb) as (_ & _ & H).
  exact (H eq_refl eq_refl).
Defined.

(** ** The build *)

(** What [build_go_parser] does, by what [go build] does. *)
Lemma build_go_parser_cases E w :
  build_go_parser E w =
    match proc E build_cmd with
    | RunRaises cls msg => (Raise (Exc (Raised cls msg)), after_build E w)
    | Runs wall rc so se creates =>
        if negb (rc =? 0)
        then (Ok false,
              World (fs (after_build E w))
                    (out w ++ [("ERROR: Failed to build Go parser: " +:+ se) +:+ nl])
                    (log (after_build E w)))
        else (Ok true, after_build E w)
    end.
Proof.
  unfold build_go_parser, after_build. unfold mbind at 1. unfold M_bind, write_file.
  cbv zeta. unfold mbind at 1. unfold M_bind. rewrite subprocess_run_cases.
  fold build_cmd.
  destruct (proc E build_cmd) as [cls msg|wall rc so se creates]; [reflexivity|].
  cbn [returncode stderr]. destruct (negb (rc =? 0)); reflexivity.
Qed.

Lemma python_prepare_build_fails E w wall rc so se creates :
  proc E build_cmd = Runs wall rc so se creates →
  rc ≠ 0 →
  parser_benchmark.prepare E w
    = (Raise (SystemExit 1),
       World (fs (after_build E w)) (out w ++ build_failure_lines se)
             (log w ++ [Invoke build_cmd])).
Proof.
  intros Hp Hrc. unfold parser_benchmark.prepare.
  unfold mbind at 1. unfold M_bind. unfold print at 1. unfold print_end.
  unfold mbind at 1. unfold M_bind. rewrite build_go_parser_cases, Hp.
  assert (Hz : negb (rc =? 0) = true) by (apply negb_true_iff; by apply Z.eqb_neq).
  rewrite Hz. cbn [negb]. unfold after_build. rewrite Hp.
  unfold mbind, M_bind, print, print_end, sys_exit, build_failure_lines.
  cbn [fs out log]. by rewrite <- !app_assoc.
Qed.

Lemma python_prepare_build_raises E w cls msg :
  proc E build_cmd = RunRaises cls msg →
  parser_benchmark.prepare E w
    = (Raise (Exc (Raised cls msg)),
       World ({[go_file]} ∪ fs w)
             (out w ++ ["Building Go parser benchmark binary..." +:+ nl])
             (log w ++ [Invoke build_cmd])).
Proof.
  intros Hp. unfold parser_benchmark.prepare.
  unfold mbind at 1. unfold M_bind. unfold print at 1. unfold print_end.
  unfold mbind at 1. unfold M_bind. rewrite build_go_parser_cases, Hp.
  unfold after_build. by rewrite Hp.
Qed.

Lemma php_announce_version (php_ok php_84_plus : bool) php_version w :
  ∃ w',
    (if negb php_ok
     then
       print ("⚠ WARNING: PHP 8.3+ required for php-gedcom, but found PHP "
              +:+ php_version) ;;
       print "  The PHP parser benchmarks will be skipped." ;;
       print "  Install PHP 8.3+ to run comparison." ;;
       print "" ;;
       mret false
     else
       (if (php_84_plus : bool)
        then print ("✓ PHP " +:+ php_version
                    +:+ " detected (compatible with php-gedcom v4.0+)")
        else print ("✓ PHP " +:+ php_version
                    +:+ " detected (will use php-gedcom v2.2.0)")) ;;
       print "" ;;
       mret true) w = (Ok php_ok, w')
    ∧ fs w' = fs w ∧ log w' = log w.
Proof. destruct php_ok, php_84_plus; by eexists. Qed.

Lemma php_prepare_build E w :
  ∃ w1,
    fs w1 = fs (parser_benchmark_php.check_php_version E w).2
    ∧ log w1 = (log w ++ [Invoke version_cmd])%list
    ∧ ((∀ wall rc so se creates,
          proc E build_cmd = Runs wall rc so se creates → rc ≠ 0 →
          ∃ o, parser_benchmark_php.prepare E w
               = (Raise (SystemExit 1),
                  World (fs (after_build E w1)) o (log w1 ++ [Invoke build_cmd])))
       ∧ (∀ cls msg,
            proc E build_cmd = RunRaises cls msg →
            ∃ o, parser_benchmark_php.prepare E w
                 = (Raise (Exc (Raised cls msg)),
                    World (fs (after_build E w1)) o (log w1 ++ [Invoke build_cmd])))).
Proof.
  destruct (check_php_version_returns E w) as (verdict & w0 & Hc & _ & Hlog).
  destruct verdict as [[php_ok php_version] php_84_plus].
  destruct (php_announce_version php_ok php_84_plus php_version w0)
    as (w1 & Ha & Hfs & Hl).
  exists w1. rewrite Hc. split; [exact Hfs|]. split; [by rewrite Hl|].
  unfold parser_benchmark_php.prepare.
  rewrite (bind_ok _ _ _ _ _ Hc). cbv beta iota.
  rewrite (bind_ok _ _ _ _ _ Ha).
  rewrite (bind_ok (print _) _ w1 tt _ eq_refl).
  split.
  - intros wall rc so se creates Hp Hrc.
    assert (Hz : negb (rc =? 0) = true) by (apply negb_true_iff; by apply Z.eqb_neq).
    pose proof (build_go_parser_cases E
                  (World (fs w1)
                     (out w1 ++ ["Building Go parser benchmark binary..." +:+ nl])
                     (log w1))) as Hb.
    rewrite Hp, Hz in Hb. rewrite (bind_ok _ _ _ _ _ Hb). cbn [negb].
    eexists. apply bind_raise.
    unfold mbind, M_bind, print, print_end, sys_exit, after_build. rewrite Hp.
    cbn [fs out log]. reflexivity.
  - intros cls msg Hp.
    pose proof (build_go_parser_cases E
                  (World (fs w1)
                     (out w1 ++ ["Building Go parser benchmark binary..." +:+ nl])
                     (log w1))) as Hb.
    rewrite Hp in Hb. eexists. rewrite (bind_raise _ _ _ _ _ Hb).
    unfold after_build. rewrite Hp. cbn [fs out log]. reflexivity.
Qed.

(** X5.  A failed build is fatal to the first script before anything is
    measured: when [go build] exits with a non-zero code, [main] prints
    the toolchain's standard error and ends by [sys.exit(1)], having run
    the build and nothing else, and the Go source stays on disk.  When
    [go] cannot be started at all, the exception of [subprocess.run]
    leaves [main] uncaught.  The second script does the same, after its
    version check. *)
Theorem failed_build_stops_the_run (E : env) (corpus : list string) (w : world) :
  (∀ wall rc so se creates,
     proc E build_cmd = Runs wall rc so se creates →
     rc ≠ 0 →
     parser_benchmark.main E corpus w
       = (Raise (SystemExit 1),
          World (list_to_set creates ∪ ({[go_file]} ∪ fs w))
                (out (banner "GEDCOM Parser Performance Comparison" w)
                   ++ build_failure_lines se)
                (log w ++ [Invoke build_cmd])))
  ∧ (∀ cls msg,
       proc E build_cmd = RunRaises cls msg →
       ∃ w', parser_benchmark.main E corpus w = (Raise (Exc (Raised cls msg)), w')
             ∧ log w' = (log w ++ [Invoke build_cmd])%list
             ∧ go_file ∈ fs w')
  ∧ (∀ wall rc so se creates,
       proc E build_cmd = Runs wall rc so se creates →
       rc ≠ 0 →
       ∃ w', parser_benchmark_php.main E corpus w = (Raise (SystemExit 1), w')
             ∧ log w' = (log w ++ [Invoke version_cmd; Invoke build_cmd])%list
             ∧ go_file ∈ fs w')
  ∧ (∀ cls msg,
       proc E build_cmd = RunRaises cls msg →
       ∃ w', parser_benchmark_php.main E corpus w = (Raise (Exc (Raised cls msg)), w')
             ∧ log w' = (log w ++ [Invoke version_cmd; Invoke build_cmd])%list
             ∧ go_file ∈ fs w').
Proof.
  split; [|split; [|split]].
  - intros wall rc so se creates Hp Hrc. rewrite python_main_banner.
    rewrite (bind_raise _ _ _ _ _ (python_prepare_build_fails E _ _ _ _ _ _ Hp Hrc)).
    unfold after_build. by rewrite Hp.
  - intros cls msg Hp. rewrite python_main_banner.
    rewrite (bind_raise _ _ _ _ _ (python_prepare_build_raises E _ _ _ Hp)).
    eexists. split; [reflexivity|]. split; [reflexivity|]. cbn. set_solver.
  - intros wall rc so se creates Hp Hrc. rewrite php_main_banner.
    destruct (php_prepare_build E (banner "GEDCOM Parser Performance Comparison: Go vs PHP" w))
      as (w1 & _ & Hl & Hf & _).
    destruct (Hf _ _ _ _ _ Hp Hrc) as (o & Hprep).
    rewrite (bind_raise _ _ _ _ _ Hprep).
    eexists. split; [reflexivity|]. cbn [log fs]. rewrite Hl.
    split; [by rewrite <- app_assoc|].
    unfold after_build. rewrite Hp. cbn. set_solver.
  - intros cls msg Hp. rewrite php_main_banner.
    destruct (php_prepare_build E (banner "GEDCOM Parser Performance Comparison: Go vs PHP" w))
      as (w1 & _ & Hl & _ & Hf).
    destruct (Hf _ _ Hp) as (o & Hprep).
    rewrite (bind_raise _ _ _ _ _ Hprep).
    eexists. split; [reflexivity|]. cbn [log fs]. rewrite Hl.
    split; [by rewrite <- app_assoc|].
    unfold after_build. rewrite Hp. cbn. set_solver.
Qed.

(** The first script where the Go toolchain rejects the driver. *)
Lemma failed_build_stops_the_run_witness :
  parser_benchmark.main env_build_fails GEDCOM_FILES fresh
    = (Raise (SystemExit 1),
       World (list_to_set [] ∪ ({[go_file]} ∪ fs fresh))
             (out (banner "GEDCOM Parser Performance Comparison" fresh)
                ++ build_failure_lines "go: cannot find main module")
             (log fresh ++ [Invoke build_cmd])).
Proof.
  assert (Hrc : 1 ≠ 0) by lia.
  destruct (failed_build_stops_the_run env_build_fails GEDCOM_FILES fresh)
    as (H & _).
  exact (H 3%Q 1 "" "go: cannot find main module" [] eq_refl Hrc).
Defined.

(** ** The measurement loop *)

Lemma python_test_file_appends E results f w results' w' :
  parser_benchmark.test_file E results f w = (Ok results', w') →
  ∃ size python_result go_result,
    results' = (results ++ [parser_benchmark.RunRecord f.1 size python_result
                              go_result])%list.
Proof.
  unfold parser_benchmark.test_file. destruct f as [filename file_path]. intros H.
  apply bind_inv in H as [(size & w1 & _ & H)|(s & _ & [=])].
  apply bind_inv in H as [(u1 & w2 & _ & H)|(s & _ & [=])].
  apply bind_inv in H as [(u2 & w3 & _ & H)|(s & _ & [=])].
  apply bind_inv in H as [(u3 & w4 & _ & H)|(s & _ & [=])].
  apply bind_inv in H as [(python_result & w5 & _ & H)|(s & _ & [=])].
  apply bind_inv in H as [(u4 & w6 & _ & H)|(s & _ & [=])].
  apply bind_inv in H as [(u5 & w7 & _ & H)|(s & _ & [=])].
  apply bind_inv in H as [(go_result & w8 & _ & H)|(s & _ & [=])].
  apply bind_inv in H as [(u6 & w9 & _ & H)|(s & _ & [=])].
  apply bind_inv in H as [(both & w10 & _ & H)|(s & _ & [=])].
  apply bind_inv in H as [(u7 & w11 & _ & H)|(s & _ & [=])].
  apply bind_inv in H as [(size' & w12 & _ & H)|(s & _ & [=])].
  apply bind_inv in H as [(u8 & w13 & _ & H)|(s & _ & [=])].
  injection H as <- _. by exists size', python_result, go_result.
Qed.

Lemma php_test_file_appends E php_available results f w results' w' :
  parser_benchmark_php.test_file E php_available results f w = (Ok results', w') →
  ∃ size go_result php_result,
    results' = (results ++ [parser_benchmark_php.RunRecord f.1 size go_result
                              php_result])%list.
Proof.
  unfold parser_benchmark_php.test_file. destruct f as [filename file_path]. intros H.
  apply bind_inv in H as [(size & w1 & _ & H)|(s & _ & [=])].
  apply bind_inv in H as [(u1 & w2 & _ & H)|(s & _ & [=])].
  apply bind_inv in H as [(u2 & w3 & _ & H)|(s & _ & [=])].
  apply bind_inv in H as [(u3 & w4 & _ & H)|(s & _ & [=])].
  apply bind_inv in H as [(go_result & w5 & _ & H)|(s & _ & [=])].
  apply bind_inv in H as [(u4 & w6 & _ & H)|(s & _ & [=])].
  apply bind_inv in H as [(php_result & w7 & _ & H)|(s & _ & [=])].
  apply bind_inv in H as [(both & w8 & _ & H)|(s & _ & [=])].
  apply bind_inv in H as [(u5 & w9 & _ & H)|(s & _ & [=])].
  apply bind_inv in H as [(size' & w10 & _ & H)|(s & _ & [=])].
  apply bind_inv in H as [(u6 & w11 & _ & H)|(s & _ & [=])].
  injection H as <- _. by exists size', go_result, php_result.
Qed.

Lemma for_fold_appends {A R} (f : list R → A → M (list R)) (name : R → string)
    (key : A → string) :
  (∀ acc x w acc' w', f acc x w = (Ok acc', w') →
                      ∃ r, acc' = (acc ++ [r])%list ∧ name r = key x) →
  ∀ l acc w results w',
    for_fold f acc l w = (Ok results, w') →
    ∃ new, results = (acc ++ new)%list ∧ map name new = map key l.
Proof.
  intros Hf. induction l as [|x l IH]; intros acc w results w' H.
  - injection H as <- _. exists []. by rewrite app_nil_r.
  - cbn [for_fold] in H.
    apply bind_inv in H as [(acc' & w1 & H1 & H)|(s & _ & [=])].
    apply Hf in H1 as (r & -> & Hr).
    apply IH in H as (new & -> & Hn).
    exists (r :: new). split; [by rewrite <- app_assoc|]. cbn. by rewrite Hr, Hn.
Qed.

(** X6.  Whenever the measurement loop of either script runs to its
    end, it has stored exactly one record per available file, in the
    order of the files and under their names, whatever the parsers
    returned and whether or not the PHP parser is available. *)
Theorem one_record_per_file (E : env) (files : list (string * string))
    (w w' : world) :
  (∀ results,
     parser_benchmark.run_benchmarks E files w = (Ok results, w') →
     map parser_benchmark.filename results = map fst files)
  ∧ (∀ php_available results,
       parser_benchmark_php.run_benchmarks E php_available files w = (Ok results, w') →
       map parser_benchmark_php.filename results = map fst files).
Proof.
  split.
  - intros results H.
    apply (for_fold_appends _ parser_benchmark.filename fst) in H as (new & -> & Hn);
      [exact Hn|].
    intros acc x w0 acc' w0' H0.
    apply python_test_file_appends in H0 as (size & p & g & ->). by eexists.
  - intros pa results H.
    apply (for_fold_appends _ parser_benchmark_php.filename fst) in H as (new & -> & Hn);
      [exact Hn|].
    intros acc x w0 acc' w0' H0.
    apply php_test_file_appends in H0 as (size & g & p & ->). by eexists.
Qed.

(** The loop of the first script over one file. *)
Lemma one_record_per_file_witness :
  ∃ results w',
    parser_benchmark.run_benchmarks env_all_well [("xavier.ged", xavier)] ready
      = (Ok results, w')
    ∧ map parser_benchmark.filename results = ["xavier.ged"].
Proof.
  destruct (parser_benchmark.run_benchmarks env_all_well [("xavier.ged", xavier)] ready)
    as [[results|s] w'] eqn:H.
  - exists results, w'. split; [reflexivity|].
    exact (proj1 (one_record_per_file env_all_well [("xavier.ged", xavier)] ready w')
             results H).
  - apply (f_equal fst) in H. vm_compute in H. discriminate H.
Defined.

(** ** The summary loop *)

Lemma summary_cell_times E r times w ts s t w' :
  summary_cell E r times w = (Ok (ts, s, t), w') →
  w' = w ∧ ts = (times ++ measured E r)%list.
Proof.
  unfold summary_cell, measured, succeeded, mbind, M_bind, lift.
  destruct (getitem E r "success") as [ok|e]; [|discriminate].
  destruct (truthy ok).
  - destruct (getitem E r "duration_ms") as [d|e]; [|discriminate].
    destruct (py_format_f 2 d) as [str|e]; [|discriminate].
    by intros [= <- <- <- <-].
  - intros [= <- <- <- <-]. by rewrite app_nil_r.
Qed.

Lemma python_summary_row_times E pt gt rec w pt' gt' w' :
  parser_benchmark.summary_row E (pt, gt) rec w = (Ok (pt', gt'), w') →
  pt' = (pt ++ measured E (parser_benchmark.python rec))%list
  ∧ gt' = (gt ++ measured E (parser_benchmark.go rec))%list
  ∧ ∃ line, w' = World (fs w) (out w ++ [line]) (log w).
Proof.
  unfold parser_benchmark.summary_row. intros H.
  apply bind_inv in H as [([[ts1 s1] t1] & w1 & H1 & H)|(s & _ & [=])].
  apply summary_cell_times in H1 as [-> ->].
  apply bind_inv in H as [([[ts2 s2] t2] & w2 & H2 & H)|(s & _ & [=])].
  apply summary_cell_times in H2 as [-> ->].
  apply bind_inv in H as [(both & w3 & H3 & H)|(s & _ & [=])].
  destruct (both_succeeded_pure E (parser_benchmark.python rec)
              (parser_benchmark.go rec) w) as (x & Hx & _).
  rewrite Hx in H3. injection H3 as _ <-.
  apply bind_inv in H as [(speedup & w4 & H4 & H)|(s & _ & [=])].
  assert (w4 = w) as ->.
  { destruct both; [|by injection H4 as _ <-].
    unfold lift in H4. by injection H4 as _ <-. }
  injection H as <- <- <-. split; [done|]. split; [done|]. by eexists.
Qed.

Lemma php_summary_row_times E gt pt rec w gt' pt' w' :
  parser_benchmark_php.summary_row E (gt, pt) rec w = (Ok (gt', pt'), w') →
  gt' = (gt ++ measured E (parser_benchmark_php.go rec))%list
  ∧ pt' = (pt ++ measured E (parser_benchmark_php.php rec))%list
  ∧ ∃ line, w' = World (fs w) (out w ++ [line]) (log w).
Proof.
  unfold parser_benchmark_php.summary_row. intros H.
  apply bind_inv in H as [([[ts1 s1] t1] & w1 & H1 & H)|(s & _ & [=])].
  apply summary_cell_times in H1 as [-> ->].
  apply bind_inv in H as [([[ts2 s2] t2] & w2 & H2 & H)|(s & _ & [=])].
  apply summary_cell_times in H2 as [-> ->].
  apply bind_inv in H as [(both & w3 & H3 & H)|(s & _ & [=])].
  destruct (both_succeeded_pure E (parser_benchmark_php.go rec)
              (parser_benchmark_php.php rec) w) as (x & Hx & _).
  rewrite Hx in H3. injection H3 as _ <-.
  apply bind_inv in H as [(speedup & w4 & H4 & H)|(s & _ & [=])].
  assert (w4 = w) as ->.
  { destruct both; [|by injection H4 as _ <-].
    unfold lift in H4. by injection H4 as _ <-. }
  injection H as <- <- <-. split; [done|]. split; [done|]. by eexists.
Qed.

(** X7.  The averages are taken over the successful runs only.  When
    the summary loop of either script runs to its end, the two lists it
    has collected are the [duration_ms] of the results that succeeded,
    each in the order of the records; it has printed one row per record
    and changed nothing else. *)
Theorem summary_collects_successful_durations (E : env) (w w' : world) :
  (∀ results python_times go_times,
     for_fold (parser_benchmark.summary_row E) ([], []) results w
       = (Ok (python_times, go_times), w') →
     python_times = flat_map (λ r, measured E (parser_benchmark.python r)) results
     ∧ go_times = flat_map (λ r, measured E (parser_benchmark.go r)) results
     ∧ fs w' = fs w ∧ log w' = log w
     ∧ ∃ rows, out w' = (out w ++ rows)%list ∧ length rows = length results)
  ∧ (∀ results go_times php_times,
       for_fold (parser_benchmark_php.summary_row E) ([], []) results w
         = (Ok (go_times, php_times), w') →
       go_times = flat_map (λ r, measured E (parser_benchmark_php.go r)) results
       ∧ php_times = flat_map (λ r, measured E (parser_benchmark_php.php r)) results
       ∧ fs w' = fs w ∧ log w' = log w
       ∧ ∃ rows, out w' = (out w ++ rows)%list ∧ length rows = length results).
Proof.
  split.
  - intros results.
    assert (Hgen : ∀ pt gt w0 pt' gt',
      for_fold (parser_benchmark.summary_row E) (pt, gt) results w0
        = (Ok (pt', gt'), w') →
      pt' = (pt ++ flat_map (λ r, measured E (parser_benchmark.python r)) results)%list
      ∧ gt' = (gt ++ flat_map (λ r, measured E (parser_benchmark.go r)) results)%list
      ∧ fs w' = fs w0 ∧ log w' = log w0
      ∧ ∃ rows, out w' = (out w0 ++ rows)%list ∧ length rows = length results).
    { induction results as [|r results IH]; intros pt gt w0 pt' gt' H.
      - injection H as <- <- <-. rewrite !app_nil_r.
        repeat split; try done. exists []. by rewrite app_nil_r.
      - cbn [for_fold] in H.
        apply bind_inv in H as [([pt1 gt1] & w1 & H1 & H)|(s & _ & [=])].
        apply python_summary_row_times in H1 as (-> & -> & line & ->).
        apply IH in H as (-> & -> & Hfs & Hlog & rows & Hout & Hlen).
        cbn [fs out log flat_map] in *. rewrite <- !app_assoc.
        repeat split; try done. exists (line :: rows).
        rewrite Hout, <- app_assoc. split; [done|]. cbn. by rewrite Hlen. }
    intros pt gt H. by apply Hgen in H.
  - intros results.
    assert (Hgen : ∀ gt pt w0 gt' pt',
      for_fold (parser_benchmark_php.summary_row E) (gt, pt) results w0
        = (Ok (gt', pt'), w') →
      gt' = (gt ++ flat_map (λ r, measured E (parser_benchmark_php.go r)) results)%list
      ∧ pt' = (pt ++ flat_map (λ r, measured E (parser_benchmark_php.php r)) results)%list
      ∧ fs w' = fs w0 ∧ log w' = log w0
      ∧ ∃ rows, out w' = (out w0 ++ rows)%list ∧ length rows = length results).
    { induction results as [|r results IH]; intros gt pt w0 gt' pt' H.
      - injection H as <- <- <-. rewrite !app_nil_r.
        repeat split; try done. exists []. by rewrite app_nil_r.
      - cbn [for_fold] in H.
        apply bind_inv in H as [([gt1 pt1] & w1 & H1 & H)|(s & _ & [=])].
        apply php_summary_row_times in H1 as (-> & -> & line & ->).
        apply IH in H as (-> & -> & Hfs & Hlog & rows & Hout & Hlen).
        cbn [fs out log flat_map] in *. rewrite <- !app_assoc.
        repeat split; try done. exists (line :: rows).
        rewrite Hout, <- app_assoc. split; [done|]. cbn. by rewrite Hlen. }
    intros gt pt H. by apply Hgen in H.
Qed.

(** The summary loop over one record whose Python run failed. *)
Lemma summary_collects_successful_durations_witness :
  (for_fold (parser_benchmark.summary_row env_all_well) ([], []) [row_python_failed]
     ready).1 = Ok ([], [PFloat 5])
  ∧ ([] : list pyval) = flat_map (λ r, measured env_all_well (parser_benchmark.python r))
                          [row_python_failed]
  ∧ [PFloat 5] = flat_map (λ r, measured env_all_well (parser_benchmark.go r))
                   [row_python_failed].
Proof.
  assert (Hr : (for_fold (parser_benchmark.summary_row env_all_well) ([], [])
                  [row_python_failed] ready).1 = Ok ([], [PFloat 5]))
    by (vm_compute; reflexivity).
  split; [exact Hr|].
  assert (H : for_fold (parser_benchmark.summary_row env_all_well) ([], [])
                [row_python_failed] ready
              = (Ok ([], [PFloat 5]),
                 (for_fold (parser_benchmark.summary_row env_all_well) ([], [])
                    [row_python_failed] ready).2)).
  { rewrite <- Hr. apply surjective_pairing. }
  destruct (proj1 (summary_collects_successful_durations env_all_well ready _)
              [row_python_failed] [] [PFloat 5] H) as (Hp & Hg & _).
  split; [exact Hp | exact Hg].
Defined.

(** ** What is removed *)

Lemma python_cleanup_removes w :
  parser_benchmark.cleanup w
    = (Ok tt, World (fs w ∖ {[GO_PARSER_BINARY]} ∖ {[go_file]}) (out w) (log w)).
Proof.
  unfold parser_benchmark.cleanup.
  rewrite (bind_ok _ _ _ _ _ (remove_if_exists_spec _ _)), remove_if_exists_spec.
  reflexivity.
Qed.

Lemma php_cleanup_removes w :
  parser_benchmark_php.cleanup w
    = (Ok tt,
       World (fs w ∖ {[GO_PARSER_BINARY]} ∖ {[go_file]}
                ∖ {[parser_benchmark_php.PHP_BENCHMARK_SCRIPT]}) (out w) (log w)).
Proof.
  unfold parser_benchmark_php.cleanup.
  rewrite (bind_ok _ _ _ _ _ (remove_if_exists_spec _ _)).
  rewrite (bind_ok _ _ _ _ _ (remove_if_exists_spec _ _)), remove_if_exists_spec.
  reflexivity.
Qed.

(** X8.  The scripts remove nothing but their own scratch files.  The
    cleanup block never raises and takes exactly the scratch paths out
    of the files that exist, and a file that exists when [main] starts
    and is not a scratch path still exists when [main] ends, however it
    ends. *)
Theorem only_scratch_files_are_removed (E : env) (corpus : list string)
    (w : world) (p : string) :
  parser_benchmark.cleanup w
    = (Ok tt, World (fs w ∖ {[GO_PARSER_BINARY]} ∖ {[go_file]}) (out w) (log w))
  ∧ parser_benchmark_php.cleanup w
    = (Ok tt,
       World (fs w ∖ {[GO_PARSER_BINARY]} ∖ {[go_file]}
                ∖ {[parser_benchmark_php.PHP_BENCHMARK_SCRIPT]}) (out w) (log w))
  ∧ (p ≠ GO_PARSER_BINARY → p ≠ go_file → p ∈ fs w →
     p ∈ fs (parser_benchmark.main E corpus w).2)
  ∧ (p ≠ GO_PARSER_BINARY → p ≠ go_file →
     p ≠ parser_benchmark_php.PHP_BENCHMARK_SCRIPT → p ∈ fs w →
     p ∈ fs (parser_benchmark_php.main E corpus w).2).
Proof.
  split; [apply python_cleanup_removes|]. split; [apply php_cleanup_removes|].
  split.
  - intros H1 H2 Hin.
    assert (Hk : keeps (holds (file_stays p)) (parser_benchmark.main E corpus)).
    { unfold parser_benchmark.main, parser_benchmark.measure_and_report. keeps_tac.
      intros w0 H0. rewrite python_cleanup_removes.
      unfold holds, file_stays, has_file in *. cbn in *. set_solver. }
    exact (Hk w Hin).
  - intros H1 H2 H3 Hin.
    assert (Hk : keeps (holds (file_stays p)) (parser_benchmark_php.main E corpus)).
    { unfold parser_benchmark_php.main, parser_benchmark_php.measure_and_report.
      keeps_tac.
      - apply kept_php_run_benchmarks. intros _ q. exact I.
      - intros w0 H0. rewrite php_cleanup_removes.
        unfold holds, file_stays, has_file in *. cbn in *. set_solver. }
    exact (Hk w Hin).
Qed.

Lemma in_fresh_xavier : xavier ∈ fs fresh.
Proof. apply (bool_decide_unpack _). vm_compute. exact I. Qed.

Lemma in_ready_xavier : xavier ∈ fs ready.
Proof. apply (bool_decide_unpack _). vm_compute. exact I. Qed.

Lemma xavier_is_no_scratch_file :
  xavier ≠ GO_PARSER_BINARY ∧ xavier ≠ go_file
  ∧ xavier ≠ parser_benchmark_php.PHP_BENCHMARK_SCRIPT.
Proof. repeat split; intros H; vm_compute in H; discriminate H. Qed.

(** The corpus file outlives both scripts. *)
Lemma only_scratch_files_are_removed_witness :
  xavier ∈ fs (parser_benchmark.main env_all_well GEDCOM_FILES fresh).2
  ∧ xavier ∈ fs (parser_benchmark_php.main env_all_well GEDCOM_FILES fresh).2.
Proof.
  destruct xavier_is_no_scratch_file as (H1 & H2 & H3).
  destruct (only_scratch_files_are_removed env_all_well GEDCOM_FILES fresh xavier)
    as (_ & _ & Hpy & Hphp).
  split.
  - exact (Hpy H1 H2 in_fresh_xavier).
  - exact (Hphp H1 H2 H3 in_fresh_xavier).
Defined.

(** ** The counts of the in-process runner *)

Lemma individuals_and_families_fit (l : list element) :
  (length (List.filter is_individual l) + length (List.filter is_family l)
     <= length l)%nat.
Proof.
  induction l as [|[] l IH]; cbn; lia.
Qed.

(** X9.  In every successful result of the in-process runner the three
    counts are non-negative integers, and the individuals and the
    families together are no more than the elements in total. *)
Theorem python_counts_fit (E : env) (file_path : string) (w w' : world) (r : pyval) :
  parser_benchmark.benchmark_python_parser E file_path w = (Ok r, w') →
  field r "success" = Some (PBool true) →
  ∃ individuals families total_elements,
    field r "individuals" = Some (PInt individuals)
    ∧ field r "families" = Some (PInt families)
    ∧ field r "total_elements" = Some (PInt total_elements)
    ∧ 0 <= individuals ∧ 0 <= families
    ∧ individuals + families <= total_elements.
Proof.
  rewrite benchmark_python_parser_cases.
  destruct (python_gedcom E file_path) as [cls msg|t0 t1 els].
  { intros [= <- <-] H. discriminate H. }
  cbv zeta. intros [= <- <-] _.
  eexists _, _, _. split; [reflexivity|]. split; [reflexivity|].
  split; [reflexivity|].
  pose proof (individuals_and_families_fit els). lia.
Qed.

(** The in-process runner on a file with one individual and one family. *)
Lemma python_counts_fit_witness :
  parser_benchmark.benchmark_python_parser env_clock xavier ready
    = (Ok clock_result, logged [ParseFile xavier] ready)
  ∧ field clock_result "success" = Some (PBool true)
  ∧ ∃ individuals families total_elements,
      field clock_result "individuals" = Some (PInt individuals)
      ∧ field clock_result "families" = Some (PInt families)
      ∧ field clock_result "total_elements" = Some (PInt total_elements)
      ∧ 0 <= individuals ∧ 0 <= families
      ∧ individuals + families <= total_elements.
Proof.
  assert (Hrun : parser_benchmark.benchmark_python_parser env_clock xavier ready
                 = (Ok clock_result, logged [ParseFile xavier] ready))
    by (vm_compute; reflexivity).
  split; [exact Hrun|]. split; [reflexivity|].
  exact (python_counts_fit env_clock xavier ready _ clock_result Hrun eq_refl).
Defined.

(** ** The averages *)

(** X10.  Without a successful run on one side there is no average of
    the other in the first script: it prints nothing when either list of
    durations is empty.  The second script prints nothing when no Go run
    succeeded, and when only the PHP side is empty it prints the one
    line [AVERAGE (Go only)] with the mean of the Go durations and
    [N/A] in the other two columns. *)
Theorem averages_on_an_empty_side (E : env) (w : world) :
  (∀ python_times go_times,
     python_times = [] ∨ go_times = [] →
     parser_benchmark.print_averages python_times go_times w = (Ok tt, w))
  ∧ (∀ php_times,
       parser_benchmark_php.print_averages [] php_times w = (Ok tt, w))
  ∧ (∀ g go_times mean,
       py_mean (g :: go_times) = Ok (PFloat mean) →
       parser_benchmark_php.print_averages (g :: go_times) [] w
         = (Ok tt,
            World (fs w)
                  (out w ++ [table_row "AVERAGE (Go only)" "" (format_f 2 mean)
                               "N/A" "N/A" +:+ nl])
                  (log w))).
Proof.
  split; [|split].
  - intros pt gt [-> | ->]; [reflexivity|]. by destruct pt.
  - intros pts. reflexivity.
  - intros g gts mean H. unfold parser_benchmark_php.print_averages.
    cbn [nonempty andb]. unfold mbind at 1. unfold M_bind, lift. rewrite H.
    reflexivity.
Qed.

(** The averages of the second script after one Go run of 5 ms and no
    PHP run. *)
Lemma averages_on_an_empty_side_witness :
  parser_benchmark_php.print_averages [PFloat 5] [] ready
    = (Ok tt,
       World (fs ready)
             (out ready ++ [table_row "AVERAGE (Go only)" "" (format_f 2 5)
                              "N/A" "N/A" +:+ nl])
             (log ready)).
Proof.
  assert (Hm : py_mean [PFloat 5] = Ok (PFloat 5)) by (vm_compute; reflexivity).
  destruct (averages_on_an_empty_side env_all_well ready) as (_ & _ & H).
  exact (H (PFloat 5) [] 5%Q Hm).
Defined.

(** ** The set-up of the PHP side *)

(** X11.  The second script takes the PHP parser as available only when
    it is set up: if the preparation returns [True] then the version
    check accepted PHP, the PHP benchmark script and the Go source are
    on disk, and php-gedcom's autoloader is on disk or [composer
    install] has exited with code 0. *)
Theorem php_available_means_prepared (E : env) (w w' : world) :
  parser_benchmark_php.prepare E w = (Ok true, w') →
  (∃ v b, preflight E = Ok (true, v, b))
  ∧ parser_benchmark_php.PHP_BENCHMARK_SCRIPT ∈ fs w'
  ∧ go_file ∈ fs w'
  ∧ (parser_benchmark_php.autoload ∈ fs w'
     ∨ ∃ wall so se creates, proc E composer_cmd = Runs wall 0 so se creates).
Proof.
  intros H.
  assert (Hgo : go_file ∈ fs w').
  { pose proof (php_prepare_writes E w) as Hw. by rewrite H in Hw. }
  unfold parser_benchmark_php.prepare in H.
  apply bind_inv in H as [([[php_ok v] b] & w1 & H1 & H)|(s & _ & [=])].
  pose proof (check_php_version_verdict E w) as Hv. rewrite H1 in Hv. cbn in Hv.
  apply bind_inv in H as [(pa & w2 & H2 & H)|(s & _ & [=])].
  destruct (php_announce_version php_ok b v w1) as (w2' & Ha & _).
  rewrite Ha in H2. injection H2 as <- <-.
  apply bind_inv in H as [(u1 & w3 & _ & H)|(s & _ & [=])].
  apply bind_inv in H as [(built & w4 & _ & H)|(s & _ & [=])].
  apply bind_inv in H as [(u2 & w5 & _ & H)|(s & _ & [=])].
  apply bind_inv in H as [(u3 & w6 & _ & H)|(s & _ & [=])].
  apply bind_inv in H as [(u4 & w7 & _ & H)|(s & _ & [=])].
  destruct php_ok; [|by injection H].
  split; [by exists v, b|].
  apply bind_inv in H as [(u5 & w8 & _ & H)|(s & _ & [=])].
  apply bind_inv in H as [(u6 & w9 & Hc & H)|(s & _ & [=])].
  assert (Hs : holds (file_stays parser_benchmark_php.PHP_BENCHMARK_SCRIPT) w9).
  { unfold parser_benchmark_php.create_php_benchmark_script, mbind, M_bind,
      write_file in Hc.
    injection Hc as _ <-. unfold holds, file_stays, has_file. cbn. set_solver. }
  split.
  { revert H. generalize w9 Hs. clear.
    intros w9 Hs H.
    assert (Hk : keeps (holds (file_stays parser_benchmark_php.PHP_BENCHMARK_SCRIPT))
              (print "✓ PHP benchmark script created" ;;
               installed ← path_exists parser_benchmark_php.autoload;
               php_available ←
                 (if negb installed
                  then
                    print "⚠ WARNING: php-gedcom not installed. Installing..." ;;
                    result ← subprocess_run E ["composer"; "install"; "--no-dev"] None;
                    if negb (returncode result =? 0)
                    then print ("ERROR: Failed to install php-gedcom: "
                                +:+ stderr result) ;;
                         mret false
                    else print "✓ php-gedcom installed" ;; mret true
                  else mret true);
               print "" ;;
               mret php_available)) by keeps_tac.
    specialize (Hk w9 Hs). by rewrite H in Hk. }
  split; [exact Hgo|].
  apply bind_inv in H as [(u7 & w10 & Hp & H)|(s & _ & [=])].
  apply bind_inv in H as [(installed & w11 & Hi & H)|(s & _ & [=])].
  injection Hi as <- <-.
  destruct (bool_decide (parser_benchmark_php.autoload ∈ fs w10)) eqn:Hin;
    cbn [negb] in H.
  - left. apply bool_decide_eq_true in Hin.
    unfold mbind, M_bind, mret, M_ret, print, print_end in H.
    injection H as <-. exact Hin.
  - right.
    apply bind_inv in H as [(pa & w12 & Hcomp & H)|(s & _ & [=])].
    apply bind_inv in H as [(u8 & w13 & _ & H)|(s & _ & [=])].
    injection H as -> _.
    apply bind_inv in Hcomp as [(u9 & w14 & _ & Hcomp)|(s & _ & [=])].
    apply bind_inv in Hcomp as [(result & w15 & Hrun & Hcomp)|(s & _ & [=])].
    rewrite subprocess_run_cases in Hrun. fold composer_cmd in Hrun.
    destruct (proc E composer_cmd) as [cls msg|wall rc so se creates];
      [discriminate|].
    injection Hrun as <- _. cbn [returncode] in Hcomp.
    destruct (rc =? 0) eqn:Hrc; cbn [negb] in Hcomp.
    + apply Z.eqb_eq in Hrc as ->. by exists wall, so, se, creates.
    + unfold mbind, M_bind, mret, M_ret, print, print_end in Hcomp.
      by injection Hcomp.
Qed.

(** The preparation where PHP 8.3 is installed and [composer install]
    succeeds. *)
Lemma php_available_means_prepared_witness :
  (parser_benchmark_php.prepare env_all_well fresh).1 = Ok true
  ∧ parser_benchmark_php.PHP_BENCHMARK_SCRIPT
      ∈ fs (parser_benchmark_php.prepare env_all_well fresh).2
  ∧ go_file ∈ fs (parser_benchmark_php.prepare env_all_well fresh).2.
Proof.
  assert (Hr : (parser_benchmark_php.prepare env_all_well fresh).1 = Ok true)
    by (vm_compute; reflexivity).
  split; [exact Hr|].
  assert (H : parser_benchmark_php.prepare env_all_well fresh
              = (Ok true, (parser_benchmark_php.prepare env_all_well fresh).2)).
  { rewrite <- Hr. apply surjective_pairing. }
  destruct (php_available_means_prepared env_all_well fresh _ H) as (_ & Hs & Hg & _).
  split; [exact Hs | exact Hg].
Defined.

(** ** Output of the wrong shape *)

Lemma get_file_size_of_existing E p w :
  p ∈ fs w → ∃ size, get_file_size E p w = (Ok size, w).
Proof.
  intros Hin. unfold get_file_size, mbind, M_bind, path_exists.
  rewrite bool_decide_eq_true_2 by done. cbn [negb].
  destruct (getsize E p <? 1024); [by eexists|].
  destruct (getsize E p <? 1024 * 1024); by eexists.
Qed.

Lemma format_duration_of_float d : ∃ s, format_duration (PFloat d) = Ok s.
Proof.
  unfold format_duration. cbn. destruct (Qlt_le_dec d 1); [by eexists|].
  destruct (Qlt_le_dec d 1000); by eexists.
Qed.

(** The progress line of a result of the in-process runner. *)
Lemma print_outcome_of_python_result E p w0 r w1 w :
  parser_benchmark.benchmark_python_parser E p w0 = (Ok r, w1) →
  ∃ line, print_outcome E r w = (Ok tt, World (fs w) (out w ++ [line]) (log w)).
Proof.
  rewrite benchmark_python_parser_cases.
  destruct (python_gedcom E p) as [cls msg|t0 t1 els]; cbv zeta; intros [= <- _].
  - by eexists.
  - unfold print_outcome.
    rewrite (bind_ok (lift _) _ w (PBool true) w eq_refl). cbn [truthy].
    rewrite (bind_ok (lift _) _ w (PFloat ((t1 - t0) * 1000)) w eq_refl).
    destruct (format_duration_of_float ((t1 - t0) * 1000)) as (s & Hs).
    unfold mbind, M_bind, lift. rewrite Hs. by eexists.
Qed.

Lemma print_outcome_without_success E r w :
  (∀ m, r = PDict m → m !! "success" = None →
        print_outcome E r w
          = (Raise (Exc (Raised "KeyError" (py_repr E (PStr "success")))), w))
  ∧ (∀ l, r = PList l →
          print_outcome E r w
            = (Raise (Exc (Raised "TypeError"
                             "list indices must be integers or slices, not str")), w)).
Proof.
  split.
  - intros m -> Hm. unfold print_outcome, mbind, M_bind, lift. cbn. by rewrite Hm.
  - intros l ->. reflexivity.
Qed.

(** X12.  Output of the wrong shape ends the measurement of the file
    with an exception.  When the Go binary exits 0 within the budget
    and prints JSON that decodes to an object without the key
    [success], the measurement of that file raises [KeyError] in either
    script, and when it decodes to a list it raises [TypeError]; nothing
    in the scripts catches either. *)
Theorem wrong_shape_raises (E : env) (filename file_path : string) (w : world)
    (wall : Q) (so se : string) (creates : list string) (decoded : pyval) :
  file_path ∈ fs w →
  GO_PARSER_BINARY ∈ fs w →
  proc E (go_cmd file_path) = Runs wall 0 so se creates →
  (wall <= 300)%Q →
  json_loads E so = inr decoded →
  (∀ m, decoded = PDict m → m !! "success" = None →
     (∀ results,
        (parser_benchmark.test_file E results (filename, file_path) w).1
          = Raise (Exc (Raised "KeyError" (py_repr E (PStr "success")))))
     ∧ (∀ php_available results,
          (parser_benchmark_php.test_file E php_available results
             (filename, file_path) w).1
            = Raise (Exc (Raised "KeyError" (py_repr E (PStr "success"))))))
  ∧ (∀ l, decoded = PList l →
       (∀ results,
          (parser_benchmark.test_file E results (filename, file_path) w).1
            = Raise (Exc (Raised "TypeError"
                            "list indices must be integers or slices, not str")))
       ∧ (∀ php_available results,
            (parser_benchmark_php.test_file E php_available results
               (filename, file_path) w).1
              = Raise (Exc (Raised "TypeError"
                              "list indices must be integers or slices, not str")))).
Proof.
  intros Hfile Hgo Hp Hwall Hj.
  assert (Hw : negb (Qle_bool wall 300) = false).
  { apply negb_false_iff. by apply Qle_bool_iff. }
  assert (Hrun : ∀ w0, GO_PARSER_BINARY ∈ fs w0 →
            ∃ w1, benchmark_go_parser E file_path w0 = (Ok decoded, w1)).
  { intros w0 H0. rewrite benchmark_go_parser_cases. unfold runner_cases.
    rewrite bool_decide_eq_true_2 by done. unfold go_cmd in Hp.
    rewrite Hp, Hw. cbn [negb Z.eqb]. rewrite Hj. by eexists. }
  assert (Hpy : ∀ (e : signal) results,
            (∀ w0, print_outcome E decoded w0 = (Raise e, w0)) →
            (parser_benchmark.test_file E results (filename, file_path) w).1 = Raise e).
  { intros e results He. unfold parser_benchmark.test_file.
    destruct (get_file_size_of_existing E file_path w Hfile) as (size & Hsize).
    rewrite (bind_ok _ _ _ _ _ Hsize). cbv beta. cbn [fs out log] in *.
    rewrite (bind_ok (print _) _ _ tt _ eq_refl). cbv beta. cbn [fs out log] in *.
    rewrite (bind_ok (print _) _ _ tt _ eq_refl). cbv beta. cbn [fs out log] in *.
    rewrite (bind_ok (print_end _ _) _ _ tt _ eq_refl). cbv beta. cbn [fs out log] in *.
    lazymatch goal with
    | |- context [(parser_benchmark.benchmark_python_parser E file_path ≫= _) ?w0] =>
        destruct (benchmark_python_parser_returns E file_path w0) as (r & Hr)
    end.
    rewrite (bind_ok _ _ _ _ _ Hr). cbv beta. cbn [fs out log] in *.
    lazymatch goal with
    | |- context [(print_outcome E r ≫= _) ?w0] =>
        destruct (print_outcome_of_python_result E _ _ _ _ w0 Hr) as (line & Hline)
    end.
    rewrite (bind_ok _ _ _ _ _ Hline). cbv beta. cbn [fs out log] in *.
    rewrite (bind_ok (print_end _ _) _ _ tt _ eq_refl). cbv beta. cbn [fs out log] in *.
    lazymatch goal with
    | |- context [(benchmark_go_parser E file_path ≫= _) ?w0] =>
        destruct (Hrun w0 Hgo) as (w1 & Hgo1)
    end.
    rewrite (bind_ok _ _ _ _ _ Hgo1). cbv beta. cbn [fs out log] in *.
    by rewrite (bind_raise _ _ _ _ _ (He w1)). }
  assert (Hphp : ∀ (e : signal) php_available results,
            (∀ w0, print_outcome E decoded w0 = (Raise e, w0)) →
            (parser_benchmark_php.test_file E php_available results
               (filename, file_path) w).1 = Raise e).
  { intros e pa results He. unfold parser_benchmark_php.test_file.
    destruct (get_file_size_of_existing E file_path w Hfile) as (size & Hsize).
    rewrite (bind_ok _ _ _ _ _ Hsize). cbv beta. cbn [fs out log] in *.
    rewrite (bind_ok (print _) _ _ tt _ eq_refl). cbv beta. cbn [fs out log] in *.
    rewrite (bind_ok (print _) _ _ tt _ eq_refl). cbv beta. cbn [fs out log] in *.
    rewrite (bind_ok (print_end _ _) _ _ tt _ eq_refl). cbv beta. cbn [fs out log] in *.
    lazymatch goal with
    | |- context [(benchmark_go_parser E file_path ≫= _) ?w0] =>
        destruct (Hrun w0 Hgo) as (w1 & Hgo1)
    end.
    rewrite (bind_ok _ _ _ _ _ Hgo1). cbv beta. cbn [fs out log] in *.
    by rewrite (bind_raise _ _ _ _ _ (He w1)). }
  split.
  - intros m Hd Hm. split; intros.
    + apply Hpy. intros w0.
      exact (proj1 (print_outcome_without_success E decoded w0) m Hd Hm).
    + apply Hphp. intros w0.
      exact (proj1 (print_outcome_without_success E decoded w0) m Hd Hm).
  - intros l Hd. split; intros.
    + apply Hpy. intros w0.
      exact (proj2 (print_outcome_without_success E decoded w0) l Hd).
    + apply Hphp. intros w0.
      exact (proj2 (print_outcome_without_success E decoded w0) l Hd).
Qed.

(** The Go binary prints [{}]. *)
Lemma wrong_shape_raises_witness :
  (parser_benchmark.test_file env_empty_object [] ("xavier.ged", xavier) ready).1
    = Raise (Exc (Raised "KeyError" "'success'"))
  ∧ (parser_benchmark_php.test_file env_empty_object true [] ("xavier.ged", xavier)
       ready).1
    = Raise (Exc (Raised "KeyError" "'success'")).
Proof.
  assert (Hwall : (1 # 100 <= 300)%Q) by (vm_compute; discriminate).
  destruct (wrong_shape_raises env_empty_object "xavier.ged" xavier ready (1 # 100)
              "{}" "" [] (PDict ∅) in_ready_xavier in_ready_go eq_refl Hwall eq_refl)
    as (H & _).
  destruct (H ∅ eq_refl eq_refl) as (Hpy & Hphp).
  split; [exact (Hpy []) | exact (Hphp true [])].
Defined.

(** ** The detailed results *)

(** X13.  The Go block of the detailed results guards the counts by
    [individuals] alone.  For a successful result with a numeric
    duration that has [individuals]: with [families] it prints and
    returns, with or without [errors]; without [families] it raises
    [KeyError] for it, after the summary has been printed. *)
Theorem details_read_families_unguarded (E : env) (m : gmap string pyval) (d : Q)
    (i : pyval) (w : world) :
  m !! "success" = Some (PBool true) →
  m !! "duration_ms" = Some (PFloat d) →
  m !! "individuals" = Some i →
  (m !! "families" = None →
   (print_go_details E (PDict m) w).1
     = Raise (Exc (Raised "KeyError" (py_repr E (PStr "families")))))
  ∧ (∀ f, m !! "families" = Some f →
          (print_go_details E (PDict m) w).1 = Ok tt).
Proof.
  intros Hs Hd Hi.
  destruct (format_duration_of_float d) as (s & Hfmt).
  assert (Hin : bool_decide (is_Some (m !! "individuals")) = true).
  { apply bool_decide_eq_true. by rewrite Hi. }
  split.
  - intros Hf.
    unfold print_go_details, mbind, M_bind, lift, print, print_end. cbn.
    rewrite Hs. cbn. rewrite Hd, Hfmt, Hin, Hi, Hf. reflexivity.
  - intros f Hf.
    unfold print_go_details, mbind, M_bind, lift, print, print_end. cbn.
    rewrite Hs. cbn. rewrite Hd, Hfmt, Hin, Hi, Hf.
    destruct (bool_decide (is_Some (m !! "errors"))) eqn:He; [|reflexivity].
    apply bool_decide_eq_true in He as [e He]. by rewrite He.
Qed.

(** A result with [individuals] and no [families]. *)
Lemma details_read_families_unguarded_witness :
  (print_go_details env_all_well (PDict half_counted) ready).1
    = Raise (Exc (Raised "KeyError" "'families'")).
Proof.
  assert (Hs : half_counted !! "success" = Some (PBool true))
    by (vm_compute; reflexivity).
  assert (Hd : half_counted !! "duration_ms" = Some (PFloat 5))
    by (vm_compute; reflexivity).
  assert (Hi : half_counted !! "individuals" = Some (PInt 3))
    by (vm_compute; reflexivity).
  assert (Hf : half_counted !! "families" = None) by (vm_compute; reflexivity).
  exact (proj1 (details_read_families_unguarded env_all_well half_counted 5
                  (PInt 3) ready Hs Hd Hi) Hf).
Defined.

(** ** The drivers *)

(** X14.  The messages of the PHP driver never reach the report.  The
    driver exits 0 only after a parse that returned a Gedcom object; in
    every other branch it encodes a failure with its message on
    standard output, writes nothing on standard error and exits 1.
    [benchmark_php_parser], run on a child that behaves so within the
    budget, then returns the failure ["Unknown error"]: what the child
    encoded is not read. *)
Theorem php_driver_messages_are_lost (E : env) (H : php_host) (file_path : string)
    (w : world) (wall : Q) (so : string) (creates : list string) :
  parser_benchmark_php.PHP_BENCHMARK_SCRIPT ∈ fs w →
  (wall <= 300)%Q →
  proc E (php_cmd file_path)
    = Runs wall (exit_code (php_child H file_path)) so
           (complaint (php_child H file_path)) creates →
  (exit_code (php_child H file_path) = 0
   ↔ version_below_8_3 H = false ∧ autoloader_exists H = true
     ∧ ∃ startTime endTime startNano endNano individuals families,
         php_parse_file H file_path
           = PhpGedcom startTime endTime startNano endNano individuals families)
  ∧ (exit_code (php_child H file_path) ≠ 0 →
     (∃ error duration_ms duration_ns,
        echoed (php_child H file_path)
          = Some (php_failure error duration_ms duration_ns))
     ∧ (parser_benchmark_php.benchmark_php_parser E file_path w).1
       = Ok (failure_result "Unknown error")).
Proof.
  intros Hin Hwall Hp.
  assert (Hw : negb (Qle_bool wall 300) = false).
  { apply negb_false_iff. by apply Qle_bool_iff. }
  split.
  - unfold php_child, php_driver.
    destruct (version_below_8_3 H); [cbn; split; [lia|by intros [? _]]|].
    destruct (autoloader_exists H); cbn [negb];
      [|cbn; split; [lia|by intros (_ & ? & _)]].
    destruct (php_parse_file H file_path) as [msg|st et sn en|st et sn en i f]; cbn.
    + split; [lia|]. by intros (_ & _ & ? & ? & ? & ? & ? & ? & ?).
    + split; [lia|]. by intros (_ & _ & ? & ? & ? & ? & ? & ? & ?).
    + split; [|done]. intros _. split; [done|]. split; [done|]. by eexists _, _, _, _, _, _.
  - intros Hrc. split.
    + revert Hrc. unfold php_child, php_driver.
      destruct (version_below_8_3 H); [intros _; by eexists _, _, _|].
      destruct (autoloader_exists H); cbn [negb]; [|intros _; by eexists _, _, _].
      destruct (php_parse_file H file_path) as [msg|st et sn en|st et sn en i f]; cbn.
      * intros _; by eexists _, _, _.
      * intros _; by eexists _, _, _.
      * done.
    + rewrite benchmark_php_parser_cases. unfold runner_cases.
      rewrite bool_decide_eq_true_2 by done. unfold php_cmd in Hp. rewrite Hp, Hw.
      assert (Hz : negb (exit_code (php_child H file_path) =? 0) = true).
      { apply negb_true_iff. by apply Z.eqb_neq. }
      rewrite Hz.
      assert (Hc : complaint (php_child H file_path) = "").
      { unfold php_child, php_driver.
        destruct (version_below_8_3 H); [done|].
        destruct (autoloader_exists H); [|done]. cbn [negb].
        by destruct (php_parse_file H file_path). }
      by rewrite Hc.
Qed.

(** A PHP parser that throws on the file. *)
Lemma php_driver_messages_are_lost_witness :
  echoed (php_child php_host_throws xavier)
    = Some (php_failure "Unable to open file" (PInt 0) (PInt 0))
  ∧ (parser_benchmark_php.benchmark_php_parser env_php_throws xavier ready).1
    = Ok (failure_result "Unknown error").
Proof.
  assert (Hwall : (1 # 100 <= 300)%Q) by (vm_compute; discriminate).
  assert (Hrc : exit_code (php_child php_host_throws xavier) ≠ 0)
    by (vm_compute; discriminate).
  destruct (php_driver_messages_are_lost env_php_throws php_host_throws xavier ready
              (1 # 100) "{...}" [] in_ready_php Hwall eq_refl) as (_ & Hlost).
  split; [reflexivity|]. exact (proj2 (Hlost Hrc)).
Defined.

(** X15.  The Go driver reports a parse error in band.  Started with a
    file argument, as [benchmark_go_parser] starts it, the driver exits
    0 whatever the parser does: after an error it encodes
    [success = false] with the parser's message, the duration it
    measured and no counts, and after a parse [success = true] with an
    empty [error] and the three counts.  So the runner, on a child that
    exits as the driver does within the budget, never takes its
    non-zero-exit branch: it returns what [json.loads] makes of the
    output. *)
Theorem go_driver_reports_in_band (E : env) (H : go_host) (file_path : string)
    (w : world) (wall : Q) (so se : string) (creates : list string) :
  GO_PARSER_BINARY ∈ fs w →
  (wall <= 300)%Q →
  proc E (go_cmd file_path)
    = Runs wall (exit_code (go_child H file_path)) so se creates →
  exit_code (go_child H file_path) = 0
  ∧ (∀ v, json_loads E so = inr v →
          (benchmark_go_parser E file_path w).1 = Ok v)
  ∧ (∀ message,
       go_Parse H file_path = GoErr message →
       ∃ m, echoed (go_child H file_path) = Some (PDict m)
            ∧ m !! "success" = Some (PBool false)
            ∧ m !! "error" = Some (PStr message)
            ∧ m !! "duration_ns" = Some (PInt (go_Since H file_path))
            ∧ m !! "individuals" = None ∧ m !! "families" = None)
  ∧ (∀ individuals families errors,
       go_Parse H file_path = GoTree individuals families errors →
       ∃ m, echoed (go_child H file_path) = Some (PDict m)
            ∧ m !! "success" = Some (PBool true)
            ∧ m !! "error" = Some (PStr "")
            ∧ m !! "individuals" = Some (PInt (Z.of_nat individuals))
            ∧ m !! "families" = Some (PInt (Z.of_nat families))
            ∧ m !! "errors" = Some (PInt (Z.of_nat errors))).
Proof.
  intros Hin Hwall Hp.
  assert (Hw : negb (Qle_bool wall 300) = false).
  { apply negb_false_iff. by apply Qle_bool_iff. }
  split; [reflexivity|]. split; [|split].
  - intros v Hv. rewrite benchmark_go_parser_cases. unfold runner_cases.
    rewrite bool_decide_eq_true_2 by done. unfold go_cmd in Hp. rewrite Hp, Hw.
    cbn. by rewrite Hv.
  - intros message Hm. unfold go_child, go_driver. rewrite Hm.
    eexists. split; [reflexivity|]. repeat split; vm_compute; reflexivity.
  - intros i f e Hm. unfold go_child, go_driver. rewrite Hm.
    eexists. split; [reflexivity|]. repeat split; vm_compute; reflexivity.
Qed.

(** A Go parser that rejects the file after 2 ms. *)
Lemma go_driver_reports_in_band_witness :
  exit_code (go_child go_host_rejects xavier) = 0
  ∧ (benchmark_go_parser env_go_rejects xavier ready).1 = Ok go_rejection.
Proof.
  assert (Hwall : (1 # 100 <= 300)%Q) by (vm_compute; discriminate).
  destruct (go_driver_reports_in_band env_go_rejects go_host_rejects xavier ready
              (1 # 100) "{...}" "" [] in_ready_go Hwall eq_refl) as (H0 & Hv & _).
  split; [exact H0|]. exact (Hv go_rejection eq_refl).
Defined.

(** ** The calls of the measurement loop *)

Lemma quiet_ok {A} (m : M A) w r w' :
  quiet m → m w = (r, w') → fs w' = fs w ∧ log w' = log w.
Proof. intros Hq H. specialize (Hq w). by rewrite H in Hq. Qed.

Lemma quiet_ret {A} (a : A) : quiet (mret a : M A).
Proof. by intros w. Qed.

Lemma quiet_lift {A} (r : result A) : quiet (lift r).
Proof. intros w. unfold lift. by destruct r. Qed.

Lemma quiet_raise {A} e : quiet (raise e : M A).
Proof. by intros w. Qed.

Lemma quiet_print_end s e : quiet (print_end s e).
Proof. by intros w. Qed.

Lemma quiet_print s : quiet (print s).
Proof. by intros w. Qed.

Lemma quiet_path_exists p : quiet (path_exists p).
Proof. by intros w. Qed.

Lemma quiet_bind {A B} (m : M A) (f : A → M B) :
  quiet m → (∀ a, quiet (f a)) → quiet (m ≫= f).
Proof.
  intros Hm Hf w. unfold mbind, M_bind. specialize (Hm w).
  destruct (m w) as [[a|s] w1]; cbn [snd] in *; [|exact Hm].
  destruct (Hf a w1) as [H1 H2]. destruct Hm as [H3 H4].
  split; congruence.
Qed.

Create HintDb quiet.

#[global] Hint Resolve quiet_ret quiet_lift quiet_raise quiet_print_end quiet_print
  quiet_path_exists : quiet.

Ltac quiet_step :=
  lazymatch goal with
  | |- quiet (_ ≫= _) => apply quiet_bind; [|intros]
  | |- quiet (if ?b then _ else _) => destruct b
  | |- quiet (let _ := _ in _) => cbv zeta
  end.

Ltac quiet_tac := repeat quiet_step; eauto with quiet.

Lemma quiet_get_file_size E p : quiet (get_file_size E p).
Proof. unfold get_file_size. quiet_tac. Qed.

Lemma quiet_print_outcome E r : quiet (print_outcome E r).
Proof. unfold print_outcome. quiet_tac. Qed.

Lemma quiet_both_succeeded E a b : quiet (both_succeeded E a b).
Proof. unfold both_succeeded. quiet_tac. Qed.

#[global] Hint Resolve quiet_get_file_size quiet_print_outcome quiet_both_succeeded
  : quiet.

Lemma go_runner_world E file_path w w' r :
  GO_PARSER_BINARY ∈ fs w →
  benchmark_go_parser E file_path w = (r, w') →
  fs w' = list_to_set (run_files E (go_cmd file_path)) ∪ fs w
  ∧ log w' = (log w ++ run_events E (go_cmd file_path))%list.
Proof.
  intros Hin H. apply (f_equal snd) in H. cbn [snd] in H.
  rewrite benchmark_go_parser_cases, runner_cases_world in H.
  rewrite bool_decide_eq_true_2 in H by done. by subst w'.
Qed.

Lemma php_runner_world E file_path w w' r :
  parser_benchmark_php.PHP_BENCHMARK_SCRIPT ∈ fs w →
  parser_benchmark_php.benchmark_php_parser E file_path w = (r, w') →
  fs w' = list_to_set (run_files E (php_cmd file_path)) ∪ fs w
  ∧ log w' = (log w ++ run_events E (php_cmd file_path))%list.
Proof.
  intros Hin H. apply (f_equal snd) in H. cbn [snd] in H.
  rewrite benchmark_php_parser_cases, runner_cases_world in H.
  rewrite bool_decide_eq_true_2 in H by done. by subst w'.
Qed.

Lemma python_test_file_log E results f w results' w' :
  GO_PARSER_BINARY ∈ fs w →
  parser_benchmark.test_file E results f w = (Ok results', w') →
  log w' = (log w ++ python_and_go E f)%list ∧ GO_PARSER_BINARY ∈ fs w'.
Proof.
  unfold parser_benchmark.test_file, python_and_go.
  destruct f as [filename file_path]. cbn [snd]. intros Hgo H.
  apply bind_inv in H as [(size & w1 & H1 & H)|(s & _ & [=])].
  apply (quiet_ok _ _ _ _ (quiet_get_file_size E file_path)) in H1 as [F1 L1].
  apply bind_inv in H as [(u1 & w2 & H2 & H)|(s & _ & [=])].
  apply (quiet_ok _ _ _ _ (quiet_print _)) in H2 as [F2 L2].
  apply bind_inv in H as [(u2 & w3 & H3 & H)|(s & _ & [=])].
  apply (quiet_ok _ _ _ _ (quiet_print _)) in H3 as [F3 L3].
  apply bind_inv in H as [(u3 & w4 & H4 & H)|(s & _ & [=])].
  apply (quiet_ok _ _ _ _ (quiet_print_end _ _)) in H4 as [F4 L4].
  apply bind_inv in H as [(python_result & w5 & H5 & H)|(s & _ & [=])].
  destruct (benchmark_python_parser_returns E file_path w4) as (r & Hr).
  rewrite Hr in H5. injection H5 as -> <-.
  apply bind_inv in H as [(u4 & w6 & H6 & H)|(s & _ & [=])].
  apply (quiet_ok _ _ _ _ (quiet_print_outcome E _)) in H6 as [F6 L6].
  apply bind_inv in H as [(u5 & w7 & H7 & H)|(s & _ & [=])].
  apply (quiet_ok _ _ _ _ (quiet_print_end _ _)) in H7 as [F7 L7].
  cbn [fs log] in *.
  assert (Hgo7 : GO_PARSER_BINARY ∈ fs w7) by (rewrite F7, F6, F4, F3, F2, F1; done).
  apply bind_inv in H as [(go_result & w8 & H8 & H)|(s & _ & [=])].
  apply (go_runner_world _ _ _ _ _ Hgo7) in H8 as [F8 L8].
  apply quiet_ok in H as [F9 L9]; [|quiet_tac].
  split.
  - rewrite L9, L8, L7, L6, L4, L3, L2, L1. by rewrite <- app_assoc.
  - rewrite F9, F8. set_solver.
Qed.

Lemma php_test_file_log E php_available results f w results' w' :
  GO_PARSER_BINARY ∈ fs w →
  (php_available = true → parser_benchmark_php.PHP_BENCHMARK_SCRIPT ∈ fs w) →
  parser_benchmark_php.test_file E php_available results f w = (Ok results', w') →
  log w' = (log w ++ go_and_php E php_available f)%list
  ∧ GO_PARSER_BINARY ∈ fs w'
  ∧ (php_available = true → parser_benchmark_php.PHP_BENCHMARK_SCRIPT ∈ fs w').
Proof.
  unfold parser_benchmark_php.test_file, go_and_php.
  destruct f as [filename file_path]. cbn [snd]. intros Hgo Hphp H.
  apply bind_inv in H as [(size & w1 & H1 & H)|(s & _ & [=])].
  apply (quiet_ok _ _ _ _ (quiet_get_file_size E file_path)) in H1 as [F1 L1].
  apply bind_inv in H as [(u1 & w2 & H2 & H)|(s & _ & [=])].
  apply (quiet_ok _ _ _ _ (quiet_print _)) in H2 as [F2 L2].
  apply bind_inv in H as [(u2 & w3 & H3 & H)|(s & _ & [=])].
  apply (quiet_ok _ _ _ _ (quiet_print _)) in H3 as [F3 L3].
  apply bind_inv in H as [(u3 & w4 & H4 & H)|(s & _ & [=])].
  apply (quiet_ok _ _ _ _ (quiet_print_end _ _)) in H4 as [F4 L4].
  assert (Hgo4 : GO_PARSER_BINARY ∈ fs w4) by (rewrite F4, F3, F2, F1; done).
  apply bind_inv in H as [(go_result & w5 & H5 & H)|(s & _ & [=])].
  apply (go_runner_world _ _ _ _ _ Hgo4) in H5 as [F5 L5].
  apply bind_inv in H as [(u4 & w6 & H6 & H)|(s & _ & [=])].
  apply (quiet_ok _ _ _ _ (quiet_print_outcome E _)) in H6 as [F6 L6].
  apply bind_inv in H as [(php_result & w7 & H7 & H)|(s & _ & [=])].
  apply quiet_ok in H as [F8 L8]; [|quiet_tac].
  destruct php_available.
  - apply bind_inv in H7 as [(u5 & w8 & H8 & H7)|(s & _ & [=])].
    apply (quiet_ok _ _ _ _ (quiet_print_end _ _)) in H8 as [F9 L9].
    assert (Hphp8 : parser_benchmark_php.PHP_BENCHMARK_SCRIPT ∈ fs w8).
    { rewrite F9, F6, F5, F4, F3, F2, F1. specialize (Hphp eq_refl). set_solver. }
    apply bind_inv in H7 as [(r & w9 & H9 & H7)|(s & _ & [=])].
    apply (php_runner_world _ _ _ _ _ Hphp8) in H9 as [F10 L10].
    apply quiet_ok in H7 as [F11 L11]; [|quiet_tac].
    split; [|split].
    + rewrite L8, L11, L10, L9, L6, L5, L4, L3, L2, L1. by rewrite <- app_assoc.
    + rewrite F8, F11, F10, F9, F6, F5, F4, F3, F2, F1. set_solver.
    + intros _. rewrite F8, F11, F10. set_solver.
  - injection H7 as _ <-.
    split; [|split].
    + rewrite L8, L6, L5, L4, L3, L2, L1. by rewrite app_nil_r.
    + rewrite F8, F6, F5, F4, F3, F2, F1. set_solver.
    + discriminate.
Qed.

Lemma for_fold_log {A S} (f : S → A → M S) (ev : A → list event) (I : world → Prop) :
  (∀ acc x w acc' w',
     I w → f acc x w = (Ok acc', w') → log w' = (log w ++ ev x)%list ∧ I w') →
  ∀ l acc w acc' w',
    I w → for_fold f acc l w = (Ok acc', w') →
    log w' = (log w ++ flat_map ev l)%list ∧ I w'.
Proof.
  intros Hf. induction l as [|x l IH]; intros acc w acc' w' HI H.
  - injection H as _ <-. by rewrite app_nil_r.
  - cbn [for_fold] in H.
    apply bind_inv in H as [(acc1 & w1 & H1 & H)|(s & _ & [=])].
    apply (Hf _ _ _ _ _ HI) in H1 as [L1 I1].
    apply (IH _ _ _ _ I1) in H as [L2 I2].
    split; [|exact I2]. cbn [flat_map]. by rewrite L2, L1, <- app_assoc.
Qed.

(** X16.  The measurement loop runs each parser once per file, in the
    order of the files, and nothing else.  With the Go binary on disk,
    when the loop of the first script runs to its end it has called the
    Python parser and then the Go binary on each file in turn; the loop
    of the second script has called the Go binary and then, if the PHP
    parser is available and its script is on disk, the PHP script. *)
Theorem loop_runs_each_parser_once_per_file (E : env) (files : list (string * string))
    (w w' : world) :
  GO_PARSER_BINARY ∈ fs w →
  (∀ results,
     parser_benchmark.run_benchmarks E files w = (Ok results, w') →
     log w' = (log w ++ flat_map (python_and_go E) files)%list)
  ∧ (∀ php_available results,
       (php_available = true → parser_benchmark_php.PHP_BENCHMARK_SCRIPT ∈ fs w) →
       parser_benchmark_php.run_benchmarks E php_available files w = (Ok results, w') →
       log w' = (log w ++ flat_map (go_and_php E php_available) files)%list).
Proof.
  intros Hgo. split.
  - intros results H.
    apply (for_fold_log _ (python_and_go E) (λ w, GO_PARSER_BINARY ∈ fs w)) in H
      as [H _]; [exact H| |exact Hgo].
    intros acc x w0 acc' w0' H0 Hx. by apply python_test_file_log in Hx.
  - intros pa results Hphp H.
    apply (for_fold_log _ (go_and_php E pa)
             (λ w, GO_PARSER_BINARY ∈ fs w
                   ∧ (pa = true → parser_benchmark_php.PHP_BENCHMARK_SCRIPT ∈ fs w)))
      in H as [H _]; [exact H| |by split].
    intros acc x w0 acc' w0' [H0 H1] Hx. by apply php_test_file_log in Hx.
Qed.

(** The loop of the first script over one file. *)
Lemma loop_runs_each_parser_once_per_file_witness :
  ∃ results w',
    parser_benchmark.run_benchmarks env_all_well [("xavier.ged", xavier)] ready
      = (Ok results, w')
    ∧ log w' = [ParseFile xavier; Invoke (go_cmd xavier)].
Proof.
  destruct (parser_benchmark.run_benchmarks env_all_well [("xavier.ged", xavier)] ready)
    as [[results|s] w'] eqn:H.
  - exists results, w'. split; [reflexivity|].
    exact (proj1 (loop_runs_each_parser_once_per_file env_all_well
                    [("xavier.ged", xavier)] ready w' in_ready_go) results H).
  - apply (f_equal fst) in H. vm_compute in H. discriminate H.
Defined.

(** ** When the measurement of a file returns *)

Lemma format_duration_of_number t q : py_num t = Some q → ∃ s, format_duration t = Ok s.
Proof.
  intros H. unfold format_duration, py_operand. rewrite H. cbn.
  destruct (Qlt_le_dec q 1); [by eexists|].
  destruct (Qlt_le_dec q 1000); by eexists.
Qed.

Lemma format_duration_needs_number t s : format_duration t = Ok s → ∃ q, py_num t = Some q.
Proof.
  unfold format_duration, py_operand. destruct (py_num t) as [q|]; [by eexists|].
  discriminate.
Qed.

Lemma format_speedup_of_numbers g p qg qp :
  py_num g = Some qg → py_num p = Some qp → ∃ s, format_speedup g p = Ok s.
Proof.
  intros Hg Hp. unfold format_speedup, py_operand.
  destruct (py_eq_zero g); [by eexists|]. rewrite Hp, Hg. by eexists.
Qed.

(** The progress line is printed exactly for the printable results. *)
Lemma print_outcome_returns_iff E r w :
  (∃ w', print_outcome E r w = (Ok tt, w')) ↔ printable r.
Proof.
  unfold print_outcome, printable, mbind, M_bind, lift. split.
  - intros (w' & H). destruct r as [| | | | | |m]; try discriminate H.
    cbn [getitem] in H. destruct (m !! "success") as [s|] eqn:Hs; [|discriminate H].
    exists m, s. split; [done|]. split; [done|].
    destruct (truthy s).
    + destruct (m !! "duration_ms") as [t|] eqn:Ht; [|discriminate H].
      destruct (format_duration t) as [d|e] eqn:Hd; [|discriminate H].
      apply format_duration_needs_number in Hd as [q Hq]. by exists t, q.
    + destruct (m !! "error") as [e|] eqn:He; [by eexists|discriminate H].
  - intros (m & s & -> & Hs & H). cbn [getitem]. rewrite Hs.
    destruct (truthy s).
    + destruct H as (t & q & Ht & Hq). rewrite Ht.
      destruct (format_duration_of_number t q Hq) as (d & Hd). rewrite Hd. by eexists.
    + destruct H as [e He]. rewrite He. by eexists.
Qed.

Lemma printable_failure_result error : printable (failure_result error).
Proof.
  exists (dict_of [("success", PBool false); ("duration_ms", PInt 0);
                   ("duration_ns", PInt 0); ("error", PStr error)]), (PBool false).
  split; [reflexivity|]. split; [reflexivity|]. cbn [truthy]. by eexists.
Qed.

Lemma printable_python_result E file_path w r w' :
  parser_benchmark.benchmark_python_parser E file_path w = (Ok r, w') → printable r.
Proof.
  rewrite benchmark_python_parser_cases.
  destruct (python_gedcom E file_path) as [cls msg|t0 t1 els]; cbv zeta; intros [= <- _].
  - apply printable_failure_result.
  - eexists _, (PBool true). split; [reflexivity|]. split; [reflexivity|].
    cbn [truthy]. by eexists _, _.
Qed.

Lemma printable_php_not_available : printable parser_benchmark_php.php_not_available.
Proof.
  eexists _, (PBool false). split; [reflexivity|]. split; [reflexivity|].
  cbn [truthy]. by eexists.
Qed.

(** What a subprocess runner returns depends on the world only through
    the presence of its binary or script. *)
Lemma runner_cases_result_by_presence E cmd missing decode_error present w w0 :
  (runner_cases E cmd missing decode_error present w).1
    = (runner_cases E cmd missing decode_error present w0).1.
Proof.
  unfold runner_cases. destruct present; [|reflexivity].
  destruct (proc E cmd) as [cls msg|wall rc so se creates]; [reflexivity|].
  destruct (negb (Qle_bool wall 300)); [reflexivity|]. cbv zeta.
  destruct (negb (rc =? 0)); [reflexivity|].
  by destruct (json_loads E so) as [[msg pos]|v].
Qed.

Lemma go_result_by_presence E file_path w w0 :
  (GO_PARSER_BINARY ∈ fs w ↔ GO_PARSER_BINARY ∈ fs w0) →
  (benchmark_go_parser E file_path w).1 = (benchmark_go_parser E file_path w0).1.
Proof.
  intros H. rewrite !benchmark_go_parser_cases.
  rewrite (bool_decide_ext _ _ H). apply runner_cases_result_by_presence.
Qed.

Lemma php_result_by_presence E file_path w w0 :
  (parser_benchmark_php.PHP_BENCHMARK_SCRIPT ∈ fs w
   ↔ parser_benchmark_php.PHP_BENCHMARK_SCRIPT ∈ fs w0) →
  (parser_benchmark_php.benchmark_php_parser E file_path w).1
    = (parser_benchmark_php.benchmark_php_parser E file_path w0).1.
Proof.
  intros H. rewrite !benchmark_php_parser_cases.
  rewrite (bool_decide_ext _ _ H). apply runner_cases_result_by_presence.
Qed.

Lemma succeeded_printable_duration E r :
  printable r → succeeded E r = true →
  ∃ t q, getitem E r "duration_ms" = Ok t ∧ py_num t = Some q.
Proof.
  intros (m & s & -> & Hs & H). unfold succeeded. cbn [getitem]. rewrite Hs.
  intros Ht. rewrite Ht in H. destruct H as (t & q & Hd & Hq).
  exists t, q. by rewrite Hd.
Qed.

Lemma both_succeeded_printable E a b w :
  printable a → printable b →
  both_succeeded E a b w = (Ok (succeeded E a && succeeded E b), w).
Proof.
  intros (ma & sa & -> & Hsa & _) (mb & sb & -> & Hsb & _).
  unfold both_succeeded, succeeded, mbind, M_bind, lift. cbn [getitem].
  rewrite Hsa, Hsb. by destruct (truthy sa).
Qed.

(** The speedup line of the loop, for printable results. *)
Lemma speedup_line_returns E g p w :
  printable g → printable p →
  ∃ w',
    (if succeeded E g && succeeded E p
     then go_ms ← lift (getitem E g "duration_ms");
          other_ms ← lift (getitem E p "duration_ms");
          speedup ← lift (format_speedup go_ms other_ms);
          print ("  Speedup: Go is " +:+ speedup +:+ " faster")
     else mret tt) w = (Ok tt, w')
    ∧ fs w' = fs w ∧ log w' = log w.
Proof.
  intros Hg Hp.
  destruct (succeeded E g) eqn:Sg; [|by eexists].
  destruct (succeeded E p) eqn:Sp; [|by eexists]. cbn [andb].
  destruct (succeeded_printable_duration E g Hg Sg) as (tg & qg & Htg & Hqg).
  destruct (succeeded_printable_duration E p Hp Sp) as (tp & qp & Htp & Hqp).
  destruct (format_speedup_of_numbers tg tp qg qp Hqg Hqp) as (s & Hs).
  unfold mbind, M_bind, lift. rewrite Htg, Htp, Hs. by eexists.
Qed.

Lemma python_test_file_returns_iff E filename file_path results w g :
  file_path ∈ fs w →
  (benchmark_go_parser E file_path w).1 = Ok g →
  (∃ results' w',
     parser_benchmark.test_file E results (filename, file_path) w = (Ok results', w'))
  ↔ printable g.
Proof.
  intros Hfile Hg. unfold parser_benchmark.test_file. split.
  - intros (results' & w' & H).
    apply bind_inv in H as [(size & w1 & H1 & H)|(s & _ & [=])].
    apply (quiet_ok _ _ _ _ (quiet_get_file_size E file_path)) in H1 as [F1 L1].
    apply bind_inv in H as [(u1 & w2 & H2 & H)|(s & _ & [=])].
    apply (quiet_ok _ _ _ _ (quiet_print _)) in H2 as [F2 L2].
    apply bind_inv in H as [(u2 & w3 & H3 & H)|(s & _ & [=])].
    apply (quiet_ok _ _ _ _ (quiet_print _)) in H3 as [F3 L3].
    apply bind_inv in H as [(u3 & w4 & H4 & H)|(s & _ & [=])].
    apply (quiet_ok _ _ _ _ (quiet_print_end _ _)) in H4 as [F4 L4].
    apply bind_inv in H as [(python_result & w5 & H5 & H)|(s & _ & [=])].
    destruct (benchmark_python_parser_returns E file_path w4) as (r & Hr).
    rewrite Hr in H5. injection H5 as -> <-.
    apply bind_inv in H as [(u4 & w6 & H6 & H)|(s & _ & [=])].
    apply (quiet_ok _ _ _ _ (quiet_print_outcome E _)) in H6 as [F6 L6].
    apply bind_inv in H as [(u5 & w7 & H7 & H)|(s & _ & [=])].
    apply (quiet_ok _ _ _ _ (quiet_print_end _ _)) in H7 as [F7 L7].
    cbn [fs log] in *.
    apply bind_inv in H as [(go_result & w8 & H8 & H)|(s & _ & [=])].
    assert (go_result = g) as ->.
    { assert (Hs : (benchmark_go_parser E file_path w7).1
                   = (benchmark_go_parser E file_path w).1).
      { apply go_result_by_presence. by rewrite F7, F6, F4, F3, F2, F1. }
      rewrite H8, Hg in Hs. by injection Hs. }
    apply bind_inv in H as [([] & w9 & H9 & H)|(s & _ & [=])].
    apply (print_outcome_returns_iff E g w8). by exists w9.
  - intros Hpg.
    destruct (get_file_size_of_existing E file_path w Hfile) as (size & Hsize).
    rewrite (bind_ok _ _ _ _ _ Hsize). cbv beta.
    rewrite (bind_ok (print _) _ _ tt _ eq_refl). cbv beta.
    rewrite (bind_ok (print _) _ _ tt _ eq_refl). cbv beta.
    rewrite (bind_ok (print_end _ _) _ _ tt _ eq_refl). cbv beta. cbn [fs out log].
    lazymatch goal with
    | |- context [(parser_benchmark.benchmark_python_parser E file_path ≫= _) ?w0] =>
        destruct (benchmark_python_parser_returns E file_path w0) as (r & Hr)
    end.
    rewrite (bind_ok _ _ _ _ _ Hr). cbv beta. cbn [fs out log].
    pose proof (printable_python_result _ _ _ _ _ Hr) as Hpr.
    lazymatch goal with
    | |- context [(print_outcome E r ≫= _) ?w0] =>
        destruct (proj2 (print_outcome_returns_iff E r w0) Hpr) as (w6 & H6);
        pose proof (quiet_ok _ _ _ _ (quiet_print_outcome E r) H6) as [F6 L6]
    end.
    rewrite (bind_ok _ _ _ _ _ H6). cbv beta. cbn [fs out log] in *.
    rewrite (bind_ok (print_end _ _) _ _ tt _ eq_refl). cbv beta. cbn [fs out log].
    lazymatch goal with
    | |- context [(benchmark_go_parser E file_path ≫= _) ?w0] =>
        destruct (benchmark_go_parser E file_path w0) as [x w8] eqn:H8;
        assert (Hs : (benchmark_go_parser E file_path w0).1
                     = (benchmark_go_parser E file_path w).1)
          by (apply go_result_by_presence; cbn [fs]; by rewrite F6);
        pose proof (kept_benchmark_go_parser E (file_stays file_path) file_path w0)
          as Hk
    end.
    rewrite H8, Hg in Hs. cbn [fst] in Hs. subst x.
    rewrite H8 in Hk. cbn [fs snd] in Hk.
    assert (Hf8 : file_path ∈ fs w8) by (apply Hk; unfold holds, file_stays, has_file; cbn; by rewrite F6).
    rewrite (bind_ok _ _ _ _ _ H8). cbv beta.
    destruct (proj2 (print_outcome_returns_iff E g w8) Hpg) as (w9 & H9).
    pose proof (quiet_ok _ _ _ _ (quiet_print_outcome E g) H9) as [F9 L9].
    rewrite (bind_ok _ _ _ _ _ H9). cbv beta.
    rewrite (bind_ok _ _ _ _ _ (both_succeeded_printable E r g w9 Hpr Hpg)). cbv beta.
    destruct (speedup_line_returns E g r w9 Hpg Hpr) as (w10 & H10 & F10 & L10).
    rewrite andb_comm in H10.
    rewrite (bind_ok _ _ _ _ _ H10). cbv beta.
    assert (Hf10 : file_path ∈ fs w10) by (by rewrite F10, F9).
    destruct (get_file_size_of_existing E file_path w10 Hf10) as (size' & Hsize').
    rewrite (bind_ok _ _ _ _ _ Hsize'). cbv beta zeta.
    rewrite (bind_ok (print _) _ _ tt _ eq_refl). by eexists _, _.
Qed.

Lemma php_test_file_returns_iff E filename file_path php_available results w g p :
  file_path ∈ fs w →
  (php_available = true → parser_benchmark_php.PHP_BENCHMARK_SCRIPT ∈ fs w) →
  (benchmark_go_parser E file_path w).1 = Ok g →
  (parser_benchmark_php.benchmark_php_parser E file_path w).1 = Ok p →
  (∃ results' w',
     parser_benchmark_php.test_file E php_available results (filename, file_path) w
       = (Ok results', w'))
  ↔ printable g ∧ (php_available = true → printable p).
Proof.
  intros Hfile Hscript Hg Hp. unfold parser_benchmark_php.test_file. split.
  - intros (results' & w' & H).
    apply bind_inv in H as [(size & w1 & H1 & H)|(s & _ & [=])].
    apply (quiet_ok _ _ _ _ (quiet_get_file_size E file_path)) in H1 as [F1 L1].
    apply bind_inv in H as [(u1 & w2 & H2 & H)|(s & _ & [=])].
    apply (quiet_ok _ _ _ _ (quiet_print _)) in H2 as [F2 L2].
    apply bind_inv in H as [(u2 & w3 & H3 & H)|(s & _ & [=])].
    apply (quiet_ok _ _ _ _ (quiet_print _)) in H3 as [F3 L3].
    apply bind_inv in H as [(u3 & w4 & H4 & H)|(s & _ & [=])].
    apply (quiet_ok _ _ _ _ (quiet_print_end _ _)) in H4 as [F4 L4].
    apply bind_inv in H as [(go_result & w5 & H5 & H)|(s & _ & [=])].
    assert (go_result = g) as ->.
    { assert (Hs : (benchmark_go_parser E file_path w4).1
                   = (benchmark_go_parser E file_path w).1).
      { apply go_result_by_presence. by rewrite F4, F3, F2, F1. }
      rewrite H5, Hg in Hs. by injection Hs. }
    pose proof (kept_benchmark_go_parser E
                  (file_stays parser_benchmark_php.PHP_BENCHMARK_SCRIPT) file_path w4)
      as Hk.
    rewrite H5 in Hk. cbn [snd] in Hk.
    apply bind_inv in H as [([] & w6 & H6 & H)|(s & _ & [=])].
    split; [apply (print_outcome_returns_iff E g w5); by exists w6|].
    intros ->.
    apply (quiet_ok _ _ _ _ (quiet_print_outcome E _)) in H6 as [F6 L6].
    apply bind_inv in H as [(php_result & w7 & H7 & H)|(s & _ & [=])].
    apply bind_inv in H7 as [(u5 & w8 & H8 & H7)|(s & _ & [=])].
    apply (quiet_ok _ _ _ _ (quiet_print_end _ _)) in H8 as [F8 L8].
    apply bind_inv in H7 as [(r & w9 & H9 & H7)|(s & _ & [=])].
    assert (r = p) as ->.
    { assert (Hs : (parser_benchmark_php.benchmark_php_parser E file_path w8).1
                   = (parser_benchmark_php.benchmark_php_parser E file_path w).1).
      { apply php_result_by_presence. split; [intros _; by apply Hscript|].
        intros _. rewrite F8, F6. apply Hk.
        unfold holds, file_stays, has_file. rewrite F4, F3, F2, F1. by apply Hscript. }
      rewrite H9, Hp in Hs. by injection Hs. }
    apply bind_inv in H7 as [([] & w10 & H10 & H7)|(s & _ & [=])].
    apply (print_outcome_returns_iff E p w9). by exists w10.
  - intros [Hpg Hpp].
    destruct (get_file_size_of_existing E file_path w Hfile) as (size & Hsize).
    rewrite (bind_ok _ _ _ _ _ Hsize). cbv beta.
    rewrite (bind_ok (print _) _ _ tt _ eq_refl). cbv beta.
    rewrite (bind_ok (print _) _ _ tt _ eq_refl). cbv beta.
    rewrite (bind_ok (print_end _ _) _ _ tt _ eq_refl). cbv beta. cbn [fs out log].
    lazymatch goal with
    | |- context [(benchmark_go_parser E file_path ≫= _) ?w0] =>
        destruct (benchmark_go_parser E file_path w0) as [x w5] eqn:H5;
        assert (Hs : (benchmark_go_parser E file_path w0).1
                     = (benchmark_go_parser E file_path w).1)
          by (by apply go_result_by_presence);
        pose proof (kept_benchmark_go_parser E (file_stays file_path) file_path w0)
          as Hk;
        pose proof (kept_benchmark_go_parser E
                      (file_stays parser_benchmark_php.PHP_BENCHMARK_SCRIPT)
                      file_path w0) as Hks
    end.
    rewrite H5, Hg in Hs. cbn [fst] in Hs. subst x.
    rewrite H5 in Hk, Hks. cbn [fs snd] in Hk, Hks.
    assert (Hf5 : file_path ∈ fs w5) by (by apply Hk).
    rewrite (bind_ok _ _ _ _ _ H5). cbv beta.
    destruct (proj2 (print_outcome_returns_iff E g w5) Hpg) as (w6 & H6).
    pose proof (quiet_ok _ _ _ _ (quiet_print_outcome E g) H6) as [F6 L6].
    rewrite (bind_ok _ _ _ _ _ H6). cbv beta.
    assert (Hphp : ∃ php_result w7,
              (if php_available
               then print_end "  Running PHP parser..." " " ;;
                    php_result ← parser_benchmark_php.benchmark_php_parser E file_path;
                    print_outcome E php_result ;;
                    mret php_result
               else mret parser_benchmark_php.php_not_available) w6
                = (Ok php_result, w7)
              ∧ printable php_result ∧ file_path ∈ fs w7).
    { destruct php_available.
      - specialize (Hscript eq_refl). specialize (Hpp eq_refl).
        rewrite (bind_ok (print_end _ _) _ _ tt _ eq_refl). cbv beta.
        lazymatch goal with
        | |- context [(parser_benchmark_php.benchmark_php_parser E file_path ≫= _) ?w0] =>
            destruct (parser_benchmark_php.benchmark_php_parser E file_path w0)
              as [x w8] eqn:H8;
            assert (Hs : (parser_benchmark_php.benchmark_php_parser E file_path w0).1
                         = (parser_benchmark_php.benchmark_php_parser E file_path w).1)
              by (apply php_result_by_presence; cbn [fs]; rewrite F6;
                  split; [done|by intros _; apply Hks]);
            pose proof (kept_benchmark_php_parser E (file_stays file_path) file_path
                          I w0) as Hk8
        end.
        rewrite H8, Hp in Hs. cbn [fst] in Hs. subst x.
        rewrite H8 in Hk8. cbn [fs snd] in Hk8.
        assert (Hf8 : file_path ∈ fs w8) by (apply Hk8; unfold holds, file_stays, has_file; cbn; by rewrite F6).
        rewrite (bind_ok _ _ _ _ _ H8). cbv beta.
        destruct (proj2 (print_outcome_returns_iff E p w8) Hpp) as (w9 & H9).
        pose proof (quiet_ok _ _ _ _ (quiet_print_outcome E p) H9) as [F9 L9].
        rewrite (bind_ok _ _ _ _ _ H9). exists p, w9.
        split; [reflexivity|]. split; [done|]. by rewrite F9.
      - exists parser_benchmark_php.php_not_available, w6.
        split; [reflexivity|]. split; [apply printable_php_not_available|].
        by rewrite F6. }
    destruct Hphp as (php_result & w7 & H7 & Hpr & Hf7).
    rewrite (bind_ok _ _ _ _ _ H7). cbv beta.
    rewrite (bind_ok _ _ _ _ _ (both_succeeded_printable E g php_result w7 Hpg Hpr)).
    cbv beta.
    destruct (speedup_line_returns E g php_result w7 Hpg Hpr) as (w10 & H10 & F10 & L10).
    rewrite (bind_ok _ _ _ _ _ H10). cbv beta.
    assert (Hf10 : file_path ∈ fs w10) by (by rewrite F10).
    destruct (get_file_size_of_existing E file_path w10 Hf10) as (size' & Hsize').
    rewrite (bind_ok _ _ _ _ _ Hsize'). cbv beta zeta.
    rewrite (bind_ok (print _) _ _ tt _ eq_refl). by eexists _, _.
Qed.


Lemma printable_go_success : printable go_success.
Proof.
  eexists _, (PBool true). split; [reflexivity|]. split; [vm_compute; reflexivity|].
  cbn [truthy]. exists (PFloat 5), 5%Q. split; vm_compute; reflexivity.
Qed.


(** ** How the scripts end *)

Lemma never_exits_ret {A} (a : A) : never_exits (mret a : M A).
Proof. by intros w c w'. Qed.

Lemma never_exits_lift {A} (r : result A) : no_exit r → never_exits (lift r).
Proof. intros H w c w' [= Hr _]. by apply (H c). Qed.

Lemma never_exits_raise {A} e : never_exits (raise e : M A).
Proof. by intros w c w'. Qed.

Lemma never_exits_print_end s e : never_exits (print_end s e).
Proof. by intros w c w'. Qed.

Lemma never_exits_print s : never_exits (print s).
Proof. by intros w c w'. Qed.

Lemma never_exits_path_exists p : never_exits (path_exists p).
Proof. by intros w c w'. Qed.

Lemma never_exits_write_file p : never_exits (write_file p).
Proof. by intros w c w'. Qed.

Lemma never_exits_remove_if_exists p : never_exits (remove_if_exists p).
Proof. intros w c w'. by rewrite remove_if_exists_spec. Qed.

Lemma never_exits_bind {A B} (m : M A) (f : A → M B) :
  never_exits m → (∀ a, never_exits (f a)) → never_exits (m ≫= f).
Proof.
  intros Hm Hf w c w' H.
  apply bind_inv in H as [(a & w1 & _ & H)|(s & H & [= <-])].
  - by apply Hf in H.
  - by apply Hm in H.
Qed.

Lemma never_exits_for_fold {A S} (f : S → A → M S) l s :
  (∀ s x, never_exits (f s x)) → never_exits (for_fold f s l).
Proof.
  intros Hf. revert s. induction l as [|x l IH]; intros s; cbn [for_fold].
  - apply never_exits_ret.
  - apply never_exits_bind; [apply Hf|]. intros a. apply IH.
Qed.

Lemma never_exits_for_each {A} (f : A → M unit) l :
  (∀ x, never_exits (f x)) → never_exits (for_each f l).
Proof.
  intros Hf. induction l as [|x l IH]; cbn [for_each].
  - apply never_exits_ret.
  - apply never_exits_bind; [apply Hf|]. intros a. apply IH.
Qed.

Lemma never_exits_subprocess_run E cmd timeout :
  never_exits (subprocess_run E cmd timeout).
Proof.
  intros w c w'. rewrite subprocess_run_cases.
  destruct (proc E cmd) as [cls msg|wall rc so se creates]; [done|].
  by destruct (match timeout with Some t => _ | None => _ end).
Qed.

Lemma never_exits_benchmark_go_parser E p : never_exits (benchmark_go_parser E p).
Proof.
  intros w c w' H. rewrite benchmark_go_parser_cases in H.
  destruct (runner_cases_total E [GO_PARSER_BINARY; p] "Go parser binary not found"
              (λ msg doc pos, "JSON decode error: "
                                +:+ exn_str (JSONDecodeError msg doc pos))
              (bool_decide (GO_PARSER_BINARY ∈ fs w)) w) as (r & w1 & Hr).
  by rewrite Hr in H.
Qed.

Lemma never_exits_benchmark_php_parser E p :
  never_exits (parser_benchmark_php.benchmark_php_parser E p).
Proof.
  intros w c w' H. rewrite benchmark_php_parser_cases in H.
  destruct (runner_cases_total E ["php"; parser_benchmark_php.PHP_BENCHMARK_SCRIPT; p]
              "PHP benchmark script not found"
              (λ msg doc pos, "JSON decode error: "
                                +:+ exn_str (JSONDecodeError msg doc pos)
                                +:+ ". Output: " +:+ substring 0 200 doc)
              (bool_decide (parser_benchmark_php.PHP_BENCHMARK_SCRIPT ∈ fs w)) w)
    as (r & w1 & Hr).
  by rewrite Hr in H.
Qed.

Lemma never_exits_benchmark_python_parser E p :
  never_exits (parser_benchmark.benchmark_python_parser E p).
Proof.
  intros w c w' H.
  destruct (benchmark_python_parser_returns E p w) as (r & Hr). by rewrite Hr in H.
Qed.

(** The pure helpers raise exceptions only. *)
Lemma no_exit_getitem E d k : no_exit (getitem E d k).
Proof. intros c. unfold getitem, throw. repeat case_match; discriminate. Qed.

Lemma no_exit_py_in k d : no_exit (py_in k d).
Proof. intros c. unfold py_in, throw. repeat case_match; discriminate. Qed.

Lemma no_exit_py_operand op v : no_exit (py_operand op v).
Proof. intros c. unfold py_operand, throw. repeat case_match; discriminate. Qed.

Lemma no_exit_py_format_f d v : no_exit (py_format_f d v).
Proof. intros c. unfold py_format_f, throw. repeat case_match; discriminate. Qed.

Lemma no_exit_bind {A B} (r : result A) (f : A → result B) :
  no_exit r → (∀ a, no_exit (f a)) → no_exit (r ≫= f).
Proof.
  intros Hr Hf c. destruct r as [a|s]; cbn; [apply Hf|].
  intros [= ->]. by apply (Hr c).
Qed.

Lemma no_exit_format_duration ms : no_exit (format_duration ms).
Proof.
  unfold format_duration. apply no_exit_bind; [apply no_exit_py_operand|].
  intros x c. repeat case_match; discriminate.
Qed.

Lemma no_exit_format_speedup g p : no_exit (format_speedup g p).
Proof.
  unfold format_speedup. destruct (py_eq_zero g); [by intros c|].
  apply no_exit_bind; [apply no_exit_py_operand|]. intros x.
  apply no_exit_bind; [apply no_exit_py_operand|]. by intros y c.
Qed.

Lemma no_exit_mapM {A B} (f : A → result B) l :
  (∀ x, no_exit (f x)) → no_exit (mapM f l).
Proof.
  intros Hf. induction l as [|x l IH]; [by intros c|].
  cbn [mapM]. apply no_exit_bind; [apply Hf|]. intros y.
  apply no_exit_bind; [apply IH|]. by intros k c.
Qed.

Lemma no_exit_py_mean data : no_exit (py_mean data).
Proof.
  unfold py_mean. apply no_exit_bind.
  - apply no_exit_mapM. intros x. apply no_exit_py_operand.
  - by intros xs c.
Qed.

Lemma no_exit_py_median data : no_exit (py_median data).
Proof.
  unfold py_median. apply no_exit_bind.
  - apply no_exit_mapM. intros x. apply no_exit_py_operand.
  - intros xs c. cbv zeta. by case_match.
Qed.

Create HintDb never_exits.

#[global] Hint Resolve never_exits_ret never_exits_lift never_exits_raise
  never_exits_print_end never_exits_print never_exits_path_exists
  never_exits_write_file never_exits_remove_if_exists never_exits_subprocess_run
  never_exits_benchmark_go_parser never_exits_benchmark_php_parser
  never_exits_benchmark_python_parser never_exits_for_fold never_exits_for_each
  no_exit_getitem no_exit_py_in no_exit_py_format_f no_exit_format_duration
  no_exit_format_speedup no_exit_py_mean no_exit_py_median : never_exits.

Ltac never_exits_step :=
  lazymatch goal with
  | |- never_exits (_ ≫= _) => apply never_exits_bind; [|intros]
  | |- never_exits (if ?b then _ else _) => destruct b
  | |- never_exits (let _ := _ in _) => cbv zeta
  | |- never_exits (match ?x with (_, _) => _ end) => destruct x
  | |- never_exits (for_fold _ _ _) => apply never_exits_for_fold; intros
  | |- never_exits (for_each _ _) => apply never_exits_for_each; intros
  end.

Ltac never_exits_tac := repeat never_exits_step; eauto with never_exits.

Lemma never_exits_get_file_size E p : never_exits (get_file_size E p).
Proof. unfold get_file_size. never_exits_tac. Qed.

Lemma never_exits_print_outcome E r : never_exits (print_outcome E r).
Proof. unfold print_outcome. never_exits_tac. Qed.

Lemma never_exits_both_succeeded E a b : never_exits (both_succeeded E a b).
Proof. unfold both_succeeded. never_exits_tac. Qed.

Lemma never_exits_summary_cell E r times : never_exits (summary_cell E r times).
Proof. unfold summary_cell. never_exits_tac. Qed.

Lemma never_exits_print_go_details E r : never_exits (print_go_details E r).
Proof. unfold print_go_details. never_exits_tac. Qed.

#[global] Hint Resolve never_exits_get_file_size never_exits_print_outcome
  never_exits_both_succeeded never_exits_summary_cell never_exits_print_go_details
  : never_exits.

Lemma never_exits_python_test_file E results f :
  never_exits (parser_benchmark.test_file E results f).
Proof. unfold parser_benchmark.test_file. destruct f. never_exits_tac. Qed.

Lemma never_exits_python_summary_row E times r :
  never_exits (parser_benchmark.summary_row E times r).
Proof. unfold parser_benchmark.summary_row. destruct times. never_exits_tac. Qed.

Lemma never_exits_python_print_averages a b :
  never_exits (parser_benchmark.print_averages a b).
Proof. unfold parser_benchmark.print_averages. never_exits_tac. Qed.

Lemma never_exits_python_print_details E r :
  never_exits (parser_benchmark.print_details E r).
Proof. unfold parser_benchmark.print_details. never_exits_tac. Qed.

Lemma never_exits_php_test_file E php_available results f :
  never_exits (parser_benchmark_php.test_file E php_available results f).
Proof. unfold parser_benchmark_php.test_file. destruct f. never_exits_tac. Qed.

Lemma never_exits_php_summary_row E times r :
  never_exits (parser_benchmark_php.summary_row E times r).
Proof. unfold parser_benchmark_php.summary_row. destruct times. never_exits_tac. Qed.

Lemma never_exits_php_print_averages a b :
  never_exits (parser_benchmark_php.print_averages a b).
Proof. unfold parser_benchmark_php.print_averages. never_exits_tac. Qed.

Lemma never_exits_php_print_details E r :
  never_exits (parser_benchmark_php.print_details E r).
Proof. unfold parser_benchmark_php.print_details. never_exits_tac. Qed.

#[global] Hint Resolve never_exits_python_test_file never_exits_python_summary_row
  never_exits_python_print_averages never_exits_python_print_details
  never_exits_php_test_file never_exits_php_summary_row
  never_exits_php_print_averages never_exits_php_print_details : never_exits.

Lemma never_exits_build_go_parser E : never_exits (build_go_parser E).
Proof. unfold build_go_parser. never_exits_tac. Qed.

Lemma never_exits_check_php_version E :
  never_exits (parser_benchmark_php.check_php_version E).
Proof.
  intros w c w' H. destruct (check_php_version_returns E w) as (v & w1 & Hv & _).
  by rewrite Hv in H.
Qed.

Lemma never_exits_find_available_files corpus :
  never_exits (find_available_files corpus).
Proof. intros w c w'. by rewrite find_available_files_spec. Qed.

#[global] Hint Resolve never_exits_build_go_parser never_exits_check_php_version
  never_exits_find_available_files : never_exits.

(** The exit for want of corpus files is the only one of the second
    half of [main]. *)
Lemma python_measure_exit E corpus w w' c :
  parser_benchmark.measure_and_report E corpus w = (Raise (SystemExit c), w') →
  c = 1 ∧ last (out w') = Some no_files_error.
Proof.
  unfold parser_benchmark.measure_and_report. intros H.
  apply bind_inv in H as [(files & w2 & Hfind & H)|(s & Hfind & [= <-])];
    [|by apply never_exits_find_available_files in Hfind].
  apply bind_inv in H as [([] & w3 & Hif & H)|(s & Hif & [= <-])].
  - exfalso. revert H.
    assert (Hn : never_exits
              (print ("Found " +:+ string_of_nat (length files) +:+ " test file(s)") ;;
               print "" ;;
               results ← parser_benchmark.run_benchmarks E files;
               print rule_eq ;;
               print "SUMMARY" ;;
               print rule_eq ;;
               print "" ;;
               print (table_row "File" "Size" "Python (ms)" "Go (ms)" "Speedup") ;;
               print rule_dash ;;
               '(python_times, go_times) ←
                 for_fold (parser_benchmark.summary_row E) ([], []) results;
               print rule_dash ;;
               parser_benchmark.print_averages python_times go_times ;;
               print "" ;;
               print rule_eq ;;
               print (nl +:+ "DETAILED RESULTS") ;;
               print rule_eq ;;
               for_each (parser_benchmark.print_details E) results ;;
               parser_benchmark.cleanup)).
    { unfold parser_benchmark.run_benchmarks, parser_benchmark.cleanup.
      never_exits_tac. }
    apply Hn.
  - destruct (negb (nonempty files)); [|discriminate Hif].
    unfold mbind, M_bind, print, print_end, sys_exit in Hif.
    injection Hif as <- <-. split; [done|]. cbn [out]. apply last_snoc.
Qed.

Lemma php_measure_exit E php_available corpus w w' c :
  parser_benchmark_php.measure_and_report E php_available corpus w
    = (Raise (SystemExit c), w') →
  c = 1 ∧ last (out w') = Some no_files_error.
Proof.
  unfold parser_benchmark_php.measure_and_report. intros H.
  apply bind_inv in H as [(files & w2 & Hfind & H)|(s & Hfind & [= <-])];
    [|by apply never_exits_find_available_files in Hfind].
  apply bind_inv in H as [([] & w3 & Hif & H)|(s & Hif & [= <-])].
  - exfalso. revert H.
    assert (Hn : never_exits
              (print ("Found " +:+ string_of_nat (length files) +:+ " test file(s)") ;;
               print "" ;;
               results ← parser_benchmark_php.run_benchmarks E php_available files;
               print rule_eq ;;
               print "SUMMARY" ;;
               print rule_eq ;;
               print "" ;;
               print (table_row "File" "Size" "Go (ms)" "PHP (ms)" "Speedup") ;;
               print rule_dash ;;
               '(go_times, php_times) ←
                 for_fold (parser_benchmark_php.summary_row E) ([], []) results;
               print rule_dash ;;
               parser_benchmark_php.print_averages go_times php_times ;;
               print "" ;;
               print rule_eq ;;
               print (nl +:+ "DETAILED RESULTS") ;;
               print rule_eq ;;
               for_each (parser_benchmark_php.print_details E) results ;;
               parser_benchmark_php.cleanup)).
    { unfold parser_benchmark_php.run_benchmarks, parser_benchmark_php.cleanup.
      never_exits_tac. }
    apply Hn.
  - destruct (negb (nonempty files)); [|discriminate Hif].
    unfold mbind, M_bind, print, print_end, sys_exit in Hif.
    injection Hif as <- <-. split; [done|]. cbn [out]. apply last_snoc.
Qed.

(** The exit at a failed build is the only one of the preparation. *)
Lemma python_prepare_exit E w w' c :
  parser_benchmark.prepare E w = (Raise (SystemExit c), w') →
  c = 1 ∧ last (out w') = Some build_failed_line.
Proof.
  unfold parser_benchmark.prepare. intros H.
  apply bind_inv in H as [(u & w1 & _ & H)|(s & Hp & [= <-])];
    [|by apply never_exits_print in Hp].
  apply bind_inv in H as [(built & w2 & _ & H)|(s & Hb & [= <-])];
    [|by apply never_exits_build_go_parser in Hb].
  apply bind_inv in H as [([] & w3 & _ & H)|(s & Hif & [= <-])].
  - exfalso. revert H.
    assert (Hn : never_exits (print "✓ Go parser built successfully" ;; print ""))
      by never_exits_tac.
    apply Hn.
  - destruct (negb built); [|discriminate Hif].
    unfold mbind, M_bind, print, print_end, sys_exit in Hif.
    injection Hif as <- <-. split; [done|]. cbn [out]. apply last_snoc.
Qed.

Lemma php_prepare_exit E w w' c :
  parser_benchmark_php.prepare E w = (Raise (SystemExit c), w') →
  c = 1 ∧ last (out w') = Some build_failed_line.
Proof.
  unfold parser_benchmark_php.prepare. intros H.
  apply bind_inv in H as [([[php_ok php_version] php_84_plus] & w0 & _ & H)
                         |(s & Hc & [= <-])];
    [|by apply never_exits_check_php_version in Hc].
  apply bind_inv in H as [(php_available & w1 & _ & H)|(s & Ha & [= <-])].
  2: { exfalso. revert Ha.
       destruct (php_announce_version php_ok php_84_plus php_version w0)
         as (wa & Ha & _).
       by rewrite Ha. }
  apply bind_inv in H as [(u & w2 & _ & H)|(s & Hp & [= <-])];
    [|by apply never_exits_print in Hp].
  apply bind_inv in H as [(built & w3 & _ & H)|(s & Hb & [= <-])];
    [|by apply never_exits_build_go_parser in Hb].
  apply bind_inv in H as [([] & w4 & _ & H)|(s & Hif & [= <-])].
  - exfalso. revert H.
    assert (Hn : never_exits
              (print "✓ Go parser built successfully" ;;
               print "" ;;
               if (php_available : bool)
               then
                 print "Creating PHP benchmark script..." ;;
                 _ ← parser_benchmark_php.create_php_benchmark_script;
                 print "✓ PHP benchmark script created" ;;
                 installed ← path_exists parser_benchmark_php.autoload;
                 php_available ←
                   (if negb installed
                    then
                      print "⚠ WARNING: php-gedcom not installed. Installing..." ;;
                      result ← subprocess_run E ["composer"; "install"; "--no-dev"] None;
                      if negb (returncode result =? 0)
                      then print ("ERROR: Failed to install php-gedcom: "
                                  +:+ stderr result) ;;
                           mret false
                      else print "✓ php-gedcom installed" ;; mret true
                    else mret true);
                 print "" ;;
                 mret php_available
               else mret false)).
    { unfold parser_benchmark_php.create_php_benchmark_script. never_exits_tac. }
    apply Hn.
  - destruct (negb built); [|discriminate Hif].
    unfold mbind, M_bind, print, print_end, sys_exit in Hif.
    injection Hif as <- <-. split; [done|]. cbn [out]. apply last_snoc.
Qed.

(** X18.  The scripts end by [sys.exit] with status 1 only, and only at
    a failed build or for want of corpus files: whenever [main] of
    either script ends by [SystemExit], the status is 1 and the last
    line printed is the error of the failed build or of the empty
    corpus.  From the measurement loop on, [main] returns or is left by
    an exception. *)
Theorem exit_status_is_one (E : env) (corpus : list string) (w w' : world) (c : Z) :
  parser_benchmark.main E corpus w = (Raise (SystemExit c), w')
  ∨ parser_benchmark_php.main E corpus w = (Raise (SystemExit c), w') →
  c = 1
  ∧ (last (out w') = Some build_failed_line
     ∨ last (out w') = Some no_files_error).
Proof.
  intros [H|H].
  - rewrite python_main_banner in H.
    apply bind_inv in H as [([] & w1 & _ & H)|(s & Hp & [= <-])].
    + apply python_measure_exit in H as [-> H]. by split; [|right].
    + apply python_prepare_exit in Hp as [-> H]. by split; [|left].
  - rewrite php_main_banner in H.
    apply bind_inv in H as [(pa & w1 & _ & H)|(s & Hp & [= <-])].
    + apply php_measure_exit in H as [-> H]. by split; [|right].
    + apply php_prepare_exit in Hp as [-> H]. by split; [|left].
Qed.

(** The first script where the Go toolchain rejects the driver. *)
Lemma exit_status_is_one_witness :
  (parser_benchmark.main env_build_fails GEDCOM_FILES fresh).1 = Raise (SystemExit 1)
  ∧ (last (out (parser_benchmark.main env_build_fails GEDCOM_FILES fresh).2)
       = Some build_failed_line
     ∨ last (out (parser_benchmark.main env_build_fails GEDCOM_FILES fresh).2)
       = Some no_files_error).
Proof.
  assert (Hr : (parser_benchmark.main env_build_fails GEDCOM_FILES fresh).1
               = Raise (SystemExit 1)) by (vm_compute; reflexivity).
  split; [exact Hr|].
  assert (H : parser_benchmark.main env_build_fails GEDCOM_FILES fresh
              = (Raise (SystemExit 1),
                 (parser_benchmark.main env_build_fails GEDCOM_FILES fresh).2)).
  { rewrite <- Hr. apply surjective_pairing. }
  exact (proj2 (exit_status_is_one env_build_fails GEDCOM_FILES fresh _ 1
                  (or_introl H))).
Defined.
